(** * Test pyramid monitor and marker validator

    A shallow embedding of [pyramid-monitor.py] (class [TestPyramidMonitor])
    and [validate-markers.py] (class [TestMarkerValidator]).

    Modelling decisions.
    - Text is a [string] of 8-bit characters; the character classes of the
      regular expressions ([\w], [\s], [.]) and of [str.strip] are the ones
      Python uses on ASCII text.
    - Python [float] arithmetic is modelled by exact rationals [Q].
    - Python sets of strings are duplicate-free lists ([ListSet]); [len] is
      [length].
    - Exceptions are values of [result]; the object fields the methods mutate
      are threaded explicitly. *)

From Stdlib Require Import String Ascii List Bool Arith ZArith QArith Qminmax Qabs.
From Stdlib Require Import ListSet Lia Lqa DecimalString Permutation Sorted.
Import ListNotations.

Close Scope Q_scope.
Local Open Scope string_scope.
Local Open Scope list_scope.
Local Open Scope nat_scope.

(* ------------------------------------------------------------------ *)
(** ** Text primitives *)

Module Text.

Definition newline : ascii := "010"%char.

(** [str.isspace] on ASCII: TAB..CR, FS..US and the blank. *)
Definition is_space (c : ascii) : bool :=
  let n := nat_of_ascii c in
  ((9 <=? n) && (n <=? 13)) || ((28 <=? n) && (n <=? 32)).

(** [\w] on ASCII: letters, digits and the underscore. *)
Definition is_word (c : ascii) : bool :=
  let n := nat_of_ascii c in
  ((48 <=? n) && (n <=? 57)) || ((65 <=? n) && (n <=? 90))
  || ((97 <=? n) && (n <=? 122)) || (n =? 95).

Definition is_quote (c : ascii) : bool :=
  Ascii.eqb c "'"%char || Ascii.eqb c "034"%char.

Definition is_empty (s : string) : bool :=
  match s with EmptyString => true | String _ _ => false end.

(** [s.startswith(p)] *)
Fixpoint startswith (p s : string) : bool :=
  match p with
  | EmptyString => true
  | String a p' =>
      match s with
      | EmptyString => false
      | String b s' => Ascii.eqb a b && startswith p' s'
      end
  end.

(** The rest of [s] after the literal [p], when [s] starts with [p]. *)
Fixpoint strip_prefix (p s : string) : option string :=
  match p with
  | EmptyString => Some s
  | String a p' =>
      match s with
      | EmptyString => None
      | String b s' => if Ascii.eqb a b then strip_prefix p' s' else None
      end
  end.

(** [p in s] *)
Fixpoint contains (p s : string) : bool :=
  startswith p s
  || match s with
     | EmptyString => false
     | String _ s' => contains p s'
     end.

Fixpoint take_while (f : ascii -> bool) (s : string) : string :=
  match s with
  | EmptyString => EmptyString
  | String c s' => if f c then String c (take_while f s') else EmptyString
  end.

Fixpoint drop_while (f : ascii -> bool) (s : string) : string :=
  match s with
  | EmptyString => EmptyString
  | String c s' => if f c then drop_while f s' else s
  end.

Fixpoint drop (n : nat) (s : string) : string :=
  match n, s with
  | O, _ => s
  | S _, EmptyString => EmptyString
  | S k, String _ s' => drop k s'
  end.

(** [s[:n]] *)
Fixpoint take (n : nat) (s : string) : string :=
  match n, s with
  | O, _ => EmptyString
  | S _, EmptyString => EmptyString
  | S k, String c s' => String c (take k s')
  end.

Definition lstrip (s : string) : string := drop_while is_space s.

Fixpoint rstrip (s : string) : string :=
  match s with
  | EmptyString => EmptyString
  | String c s' =>
      let r := rstrip s' in
      if is_space c && is_empty r then EmptyString else String c r
  end.

(** [s.strip()] *)
Definition strip (s : string) : string := rstrip (lstrip s).

Definition lower_char (c : ascii) : ascii :=
  let n := nat_of_ascii c in
  if (65 <=? n) && (n <=? 90) then ascii_of_nat (n + 32) else c.

(** [s.lower()] *)
Fixpoint lower (s : string) : string :=
  match s with
  | EmptyString => EmptyString
  | String c s' => String (lower_char c) (lower s')
  end.

(** [s.split("\n")]: never empty, the last piece is what follows the last
    newline. *)
Fixpoint split_lines (s : string) : list string :=
  match s with
  | EmptyString => [EmptyString]
  | String c s' =>
      if Ascii.eqb c newline then EmptyString :: split_lines s'
      else match split_lines s' with
           | [] => [String c EmptyString]
           | l :: ls => String c l :: ls
           end
  end.

(** [xs[-n:]] *)
Definition last_n {A : Type} (n : nat) (xs : list A) : list A :=
  skipn (length xs - n) xs.

(** [str(i)] for a non-negative integer. *)
Definition str_of_nat (n : nat) : string :=
  NilEmpty.string_of_uint (Nat.to_uint n).

(** [re.finditer]: the leftmost non-overlapping matches, scanning from left
    to right.  [match_at s] describes a match that starts at the head of
    [s]: the captured group and the number of characters matched (at least
    one for every pattern used here). *)
Fixpoint finditer_from {A : Type} (match_at : string -> option (A * nat))
    (s : string) (pos skip : nat) : list (nat * A) :=
  match s with
  | EmptyString => []
  | String _ s' =>
      match skip with
      | S k => finditer_from match_at s' (S pos) k
      | O =>
          match match_at s with
          | Some (g, len) => (pos, g) :: finditer_from match_at s' (S pos) (len - 1)
          | None => finditer_from match_at s' (S pos) 0
          end
      end
  end.

Definition finditer {A : Type} (match_at : string -> option (A * nat))
    (s : string) : list (nat * A) :=
  finditer_from match_at s 0 0.

End Text.

(* ------------------------------------------------------------------ *)
(** ** Exceptions *)

Inductive exn : Type :=
| KeyError (key : string)
| ZeroDivisionError
| ValueError (msg : string)
| OSError (msg : string).

Inductive result (A : Type) : Type :=
| Ok (a : A)
| Raise (e : exn).

Arguments Ok {A} a.
Arguments Raise {A} e.

Definition bind {A B : Type} (r : result A) (k : A -> result B) : result B :=
  match r with
  | Ok a => k a
  | Raise e => Raise e
  end.

Notation "x <- r ;; k" := (bind r (fun x => k))
  (at level 61, r at next level, right associativity).

Definition exn_message (e : exn) : string :=
  match e with
  | KeyError k => "'" ++ k ++ "'"
  | ZeroDivisionError => "division by zero"
  | ValueError m => m
  | OSError m => m
  end.

(* ------------------------------------------------------------------ *)
(** ** Tiers, files, sets of identifiers *)

Inductive Marker : Type := Unit | Integration | E2e.

Definition Marker_eq_dec (a b : Marker) : {a = b} + {a <> b}.
Proof. decide equality. Defined.

Definition marker_name (m : Marker) : string :=
  match m with
  | Unit => "unit"
  | Integration => "integration"
  | E2e => "e2e"
  end.

(** The key test [marker in self.tests_by_marker]. *)
Definition marker_of_string (s : string) : option Marker :=
  if String.eqb s "unit" then Some Unit
  else if String.eqb s "integration" then Some Integration
  else if String.eqb s "e2e" then Some E2e
  else None.

Definition all_markers : list Marker := [Unit; Integration; E2e].

Definition str_set : Type := set string.

Definition add (x : string) (s : str_set) : str_set := set_add string_dec x s.

(** A file handed to a parser: its path, what [relative_to(project_root)]
    gives and what [read_text] gives. *)
Record File : Type := {
  file_path : string;
  file_exists : bool;
  relative_to_root : result string;
  read_text : result string
}.

(* ------------------------------------------------------------------ *)
(** ** pyramid-monitor.py: class TestPyramidMonitor *)

Module Monitor.
Import Text.

Definition marker_set : Type := set Marker.

Definition add_marker (m : Marker) (s : marker_set) : marker_set :=
  set_add Marker_eq_dec m s.

(** [self.tests_by_marker]: a dict whose keys are always the three tiers. *)
Record by_marker : Type := {
  unit_tests : str_set;
  integration_tests : str_set;
  e2e_tests : str_set
}.

Definition tests_of (d : by_marker) (m : Marker) : str_set :=
  match m with
  | Unit => unit_tests d
  | Integration => integration_tests d
  | E2e => e2e_tests d
  end.

(** [self.tests_by_marker[m].add(test_id)] *)
Definition add_test (m : Marker) (test_id : string) (d : by_marker) : by_marker :=
  match m with
  | Unit =>
      {| unit_tests := add test_id (unit_tests d);
         integration_tests := integration_tests d;
         e2e_tests := e2e_tests d |}
  | Integration =>
      {| unit_tests := unit_tests d;
         integration_tests := add test_id (integration_tests d);
         e2e_tests := e2e_tests d |}
  | E2e =>
      {| unit_tests := unit_tests d;
         integration_tests := integration_tests d;
         e2e_tests := add test_id (e2e_tests d) |}
  end.

(** The fields of the monitor the scan and the scorer use; [stderr] collects
    the warnings printed by the parsers. *)
Record TestPyramidMonitor : Type := {
  targets : list (string * Q);
  tests_by_marker : by_marker;
  all_tests : str_set;
  stderr : list string
}.

Definition DEFAULT_TARGETS : list (string * Q) :=
  [("unit", 70%Q); ("integration", 20%Q); ("e2e", 10%Q)].

Definition empty_by_marker : by_marker :=
  {| unit_tests := []; integration_tests := []; e2e_tests := [] |}.

(** [__init__]: [targets or DEFAULT_TARGETS], empty registry. *)
Definition init (tgts : list (string * Q)) : TestPyramidMonitor :=
  {| targets := match tgts with [] => DEFAULT_TARGETS | _ => tgts end;
     tests_by_marker := empty_by_marker;
     all_tests := [];
     stderr := [] |}.

Definition with_registry (m : TestPyramidMonitor) (d : by_marker) (a : str_set)
  : TestPyramidMonitor :=
  {| targets := targets m; tests_by_marker := d; all_tests := a; stderr := stderr m |}.

(** [print(f"Warning: Could not parse {file_path}: {e}", file=sys.stderr)] *)
Definition warn (m : TestPyramidMonitor) (f : File) (e : exn) : TestPyramidMonitor :=
  {| targets := targets m;
     tests_by_marker := tests_by_marker m;
     all_tests := all_tests m;
     stderr := stderr m
               ++ [("Warning: Could not parse " ++ file_path f ++ ": " ++ exn_message e)%string] |}.

(** [self.all_tests.add(test_id)] followed by
    [for marker in markers: self.tests_by_marker[marker].add(test_id)]. *)
Definition register (test_id : string) (markers : list Marker) (m : TestPyramidMonitor)
  : TestPyramidMonitor :=
  with_registry m
    (fold_left (fun d mk => add_test mk test_id d) markers (tests_by_marker m))
    (add test_id (all_tests m)).

(** *** Convention A: Python *)

(** One attempt of [@pytest\.mark\.(unit|integration|e2e)] at the head. *)
Definition marker_at (s : string) : option Marker :=
  if startswith "@pytest.mark.unit" s then Some Unit
  else if startswith "@pytest.mark.integration" s then Some Integration
  else if startswith "@pytest.mark.e2e" s then Some E2e
  else None.

(** [re.search(r"@pytest\.mark\.(unit|integration|e2e)", s)]: group 1 of the
    leftmost match. *)
Fixpoint search_marker (s : string) : option Marker :=
  match marker_at s with
  | Some m => Some m
  | None =>
      match s with
      | EmptyString => None
      | String _ s' => search_marker s'
      end
  end.

(** A literal followed by [\w+]: the literal, then the longest non-empty run
    of word characters; the group is [keep] followed by that run. *)
Definition literal_then_word (lit keep line : string) : option string :=
  match strip_prefix lit line with
  | Some rest =>
      let w := take_while is_word rest in
      if is_empty w then None else Some (keep ++ w)%string
  | None => None
  end.

(** [re.match(r"^class (Test\w+)", line)] *)
Definition class_match (line : string) : option string :=
  literal_then_word "class Test" "Test" line.

(** [re.match(r"^    def (test_\w+)", line)] *)
Definition test_match (line : string) : option string :=
  literal_then_word "    def test_" "test_" line.

(** [range(lo, hi)] *)
Definition range (lo hi : nat) : list nat := seq lo (hi - lo).

(** The loop [for j in range(max(0, i - 10), i)] run at a class line. *)
Definition class_lookback (lines : list string) (i : nat) : marker_set :=
  fold_left
    (fun acc j =>
       match search_marker (nth j lines EmptyString) with
       | Some mk => add_marker mk acc
       | None => acc
       end)
    (range (i - 10) i) [].

Record scan_state : Type := {
  class_markers : marker_set;
  function_markers : marker_set;
  current_class : option string
}.

Definition initial_scan : scan_state :=
  {| class_markers := []; function_markers := []; current_class := None |}.

(** The first [if] of the loop body: a class declaration opens a scope. *)
Definition on_class (lines : list string) (i : nat) (line : string) (st : scan_state)
  : scan_state :=
  match class_match line with
  | Some name =>
      {| class_markers := class_lookback lines i;
         function_markers := [];
         current_class := Some name |}
  | None => st
  end.

(** The second [if]: a decorator line. *)
Definition on_decorator (line : string) (st : scan_state) : scan_state :=
  if startswith "@pytest.mark." (strip line) then
    match search_marker line with
    | Some mk =>
        {| class_markers := class_markers st;
           function_markers := add_marker mk (function_markers st);
           current_class := current_class st |}
    | None => st
    end
  else st.

Definition clear_function_markers (st : scan_state) : scan_state :=
  {| class_markers := class_markers st;
     function_markers := [];
     current_class := current_class st |}.

(** [class_markers | function_markers] *)
Definition effective_markers (st : scan_state) : marker_set :=
  set_union Marker_eq_dec (class_markers st) (function_markers st).

(** [f"{rel}::{current_class or ''}{test_name}"] *)
Definition python_test_id (rel : string) (cls : option string) (test_name : string)
  : string :=
  (rel ++ "::" ++ match cls with Some c => c | None => EmptyString end ++ test_name)%string.

(** The [for i, line in enumerate(lines)] loop, from line [i] on.  The
    registry keeps what was added before an exception. *)
Fixpoint python_loop (f : File) (lines : list string) (i : nat) (todo : list string)
    (st : scan_state) (m : TestPyramidMonitor) : TestPyramidMonitor * option exn :=
  match todo with
  | [] => (m, None)
  | line :: todo' =>
      let st1 := on_class lines i line st in
      let st2 := on_decorator line st1 in
      match test_match line with
      | Some test_name =>
          match relative_to_root f with
          | Raise e => (m, Some e)
          | Ok rel =>
              let test_id := python_test_id rel (current_class st2) test_name in
              python_loop f lines (S i) todo'
                (clear_function_markers st2)
                (register test_id (effective_markers st2) m)
          end
      | None => python_loop f lines (S i) todo' st2 m
      end
  end.

Definition _parse_python_test_file (f : File) (m : TestPyramidMonitor)
  : TestPyramidMonitor :=
  match read_text f with
  | Raise e => warn m f e
  | Ok content =>
      let lines := split_lines content in
      match python_loop f lines 0 lines initial_scan m with
      | (m', None) => m'
      | (m', Some e) => warn m' f e
      end
  end.

(** *** Convention B: JavaScript / TypeScript *)

(** The lazy group [(.+?)] and the closing quote class after it: a
    non-empty shortest run of characters other than newline that a single or
    double quote follows.  The first
    character is taken whatever it is; [until_quote] finds the quote that
    ends the run. *)
Fixpoint until_quote (s : string) : option string :=
  match s with
  | EmptyString => None
  | String c s' =>
      if is_quote c then Some EmptyString
      else if Ascii.eqb c newline then None
      else option_map (String c) (until_quote s')
  end.

Definition lazy_body (s : string) : option string :=
  match s with
  | EmptyString => None
  | String c s' =>
      if Ascii.eqb c newline then None
      else option_map (String c) (until_quote s')
  end.

Definition opening_quote (s : string) : option string :=
  match s with
  | String c s' => if is_quote c then Some s' else None
  | EmptyString => None
  end.

(** [\s*(.+?)] and the closing quote, with [\s*] greedy: the longest run of blanks is tried
    first, then shorter ones.  Gives the number of characters matched. *)
Fixpoint blanks_then_body (k : nat) (s : string) : option nat :=
  match lazy_body (drop k s) with
  | Some body => Some (k + String.length body + 1)
  | None =>
      match k with
      | O => None
      | S k' => blanks_then_body k' s
      end
  end.

(** The describe pattern at the head of [s]: the literal [describe(], a
    quote, [(\w+)], a colon, [\s*], [(.+?)], a quote.  Gives group 1 and the
    length of the match. *)
Definition describe_at (s : string) : option (string * nat) :=
  match strip_prefix "describe(" s with
  | None => None
  | Some s1 =>
      match opening_quote s1 with
      | None => None
      | Some s2 =>
          let w := take_while is_word s2 in
          if is_empty w then None
          else
            match strip_prefix ":" (drop (String.length w) s2) with
            | None => None
            | Some s3 =>
                match blanks_then_body (String.length (take_while is_space s3)) s3 with
                | Some n => Some (w, 9 + 1 + String.length w + 1 + n)
                | None => None
                end
            end
      end
  end.

(** The test pattern at the head of [s]: [test(] or [it(], a quote,
    [(.+?)], a quote.  Gives group 1 and the length of the match. *)
Definition js_test_at (s : string) : option (string * nat) :=
  let after_call :=
    match strip_prefix "test(" s with
    | Some r => Some (r, 5)
    | None =>
        match strip_prefix "it(" s with
        | Some r => Some (r, 3)
        | None => None
        end
    end in
  match after_call with
  | None => None
  | Some (r, n) =>
      match opening_quote r with
      | None => None
      | Some r' =>
          match lazy_body r' with
          | Some body => Some (body, n + 1 + String.length body + 1)
          | None => None
          end
      end
  end.

(** The first loop: [current_category] after all [describe] matches. *)
Definition js_current_category (content : string) : option Marker :=
  fold_left
    (fun cur mt =>
       match marker_of_string (lower (snd mt)) with
       | Some mk => Some mk
       | None => cur
       end)
    (finditer describe_at content) None.

(** The second loop, over the test matches. *)
Fixpoint js_loop (f : File) (current_category : option Marker)
    (matches : list (nat * string)) (m : TestPyramidMonitor)
  : TestPyramidMonitor * option exn :=
  match matches with
  | [] => (m, None)
  | (_, test_name) :: rest =>
      match relative_to_root f with
      | Raise e => (m, Some e)
      | Ok rel =>
          let test_id := (rel ++ "::" ++ test_name)%string in
          js_loop f current_category rest
            (register test_id
               (match current_category with Some mk => [mk] | None => [] end) m)
      end
  end.

Definition _parse_javascript_test_file (f : File) (m : TestPyramidMonitor)
  : TestPyramidMonitor :=
  match read_text f with
  | Raise e => warn m f e
  | Ok content =>
      let current_category := js_current_category content in
      match js_loop f current_category (finditer js_test_at content) m with
      | (m', None) => m'
      | (m', Some e) => warn m' f e
      end
  end.

(** *** Conventions C and D: Go and Rust *)

(** [func (Test\w+)\(] at the head of [s]. *)
Definition go_test_at (s : string) : option (string * nat) :=
  match strip_prefix "func Test" s with
  | None => None
  | Some r =>
      let w := take_while is_word r in
      if is_empty w then None
      else if startswith "(" (drop (String.length w) r)
           then Some (("Test" ++ w)%string, 9 + String.length w + 1)
           else None
  end.

(** [#\[test\]\s*fn (\w+)] at the head of [s]. *)
Definition rust_test_at (s : string) : option (string * nat) :=
  match strip_prefix "#[test]" s with
  | None => None
  | Some r =>
      let ws := take_while is_space r in
      match strip_prefix "fn " (drop (String.length ws) r) with
      | None => None
      | Some r' =>
          let w := take_while is_word r' in
          if is_empty w then None
          else Some (w, 7 + String.length ws + 3 + String.length w)
      end
  end.

(** The [if / elif / elif] chain of the Go parser on one line. *)
Definition go_line_marker (line : string) : option Marker :=
  if contains "// +build unit" line || contains "//go:build unit" line
  then Some Unit
  else if contains "// +build integration" line || contains "//go:build integration" line
  then Some Integration
  else if contains "// +build e2e" line || contains "//go:build e2e" line
  then Some E2e
  else None.

(** The [if / elif / elif] chain of the Rust parser on one line. *)
Definition rust_line_marker (line : string) : option Marker :=
  if contains "// unit" (lower line) then Some Unit
  else if contains "// integration" (lower line) then Some Integration
  else if contains "// e2e" (lower line) then Some E2e
  else None.

(** [content[:pos].split("\n")[-5:]] *)
Definition lines_before (content : string) (pos : nat) : list string :=
  last_n 5 (split_lines (take pos content)).

(** The tiers the loop [for line in lines_before] adds the test to, in the
    order it adds them. *)
Definition lookback_markers (line_marker : string -> option Marker)
    (content : string) (pos : nat) : list Marker :=
  flat_map
    (fun line => match line_marker line with Some mk => [mk] | None => [] end)
    (lines_before content pos).

(** The loop over the matches of the Go and Rust parsers. *)
Fixpoint lookback_loop (line_marker : string -> option Marker) (f : File)
    (content : string) (matches : list (nat * string)) (m : TestPyramidMonitor)
  : TestPyramidMonitor * option exn :=
  match matches with
  | [] => (m, None)
  | (pos, test_name) :: rest =>
      match relative_to_root f with
      | Raise e => (m, Some e)
      | Ok rel =>
          let test_id := (rel ++ "::" ++ test_name)%string in
          lookback_loop line_marker f content rest
            (register test_id (lookback_markers line_marker content pos) m)
      end
  end.

Definition parse_with_lookback (match_at : string -> option (string * nat))
    (line_marker : string -> option Marker) (f : File) (m : TestPyramidMonitor)
  : TestPyramidMonitor :=
  match read_text f with
  | Raise e => warn m f e
  | Ok content =>
      match lookback_loop line_marker f content (finditer match_at content) m with
      | (m', None) => m'
      | (m', Some e) => warn m' f e
      end
  end.

Definition _parse_go_test_file : File -> TestPyramidMonitor -> TestPyramidMonitor :=
  parse_with_lookback go_test_at go_line_marker.

Definition _parse_rust_test_file : File -> TestPyramidMonitor -> TestPyramidMonitor :=
  parse_with_lookback rust_test_at rust_line_marker.

(** The loop [for test_file in test_files] of [_collect_python_tests]. *)
Definition collect_python_files (files : list File) (m : TestPyramidMonitor)
  : TestPyramidMonitor :=
  fold_left (fun acc f => _parse_python_test_file f acc) files m.


(** *** Distribution and score *)

Definition len (s : str_set) : Z := Z.of_nat (length s).

(** [a / b] on integers: true division. *)
Definition truediv (a b : Z) : result Q :=
  if (b =? 0)%Z then Raise ZeroDivisionError
  else Ok (inject_Z a / inject_Z b)%Q.

(** [d[k]] *)
Fixpoint getitem {A : Type} (d : list (string * A)) (k : string) : result A :=
  match d with
  | [] => Raise (KeyError k)
  | (k', v) :: d' => if String.eqb k k' then Ok v else getitem d' k
  end.

(** [d[k] = v] *)
Fixpoint setitem {A : Type} (d : list (string * A)) (k : string) (v : A)
  : list (string * A) :=
  match d with
  | [] => [(k, v)]
  | (k', v') :: d' =>
      if String.eqb k k' then (k', v) :: d' else (k', v') :: setitem d' k v
  end.

(** [self.tests_by_marker[marker]] for an arbitrary key. *)
Definition tests_by_marker_getitem (d : by_marker) (k : string) : result str_set :=
  match marker_of_string k with
  | Some mk => Ok (tests_of d mk)
  | None => Raise (KeyError k)
  end.

(** The loop [for marker in self.targets] of [calculate_distribution]. *)
Fixpoint distribution_loop (m : TestPyramidMonitor) (total : Z)
    (keys : list string) (distribution : list (string * Q))
  : result (list (string * Q)) :=
  match keys with
  | [] => Ok distribution
  | marker :: keys' =>
      tests <- tests_by_marker_getitem (tests_by_marker m) marker ;;
      frac <- truediv (len tests) total ;;
      distribution_loop m total keys' (setitem distribution marker (frac * 100)%Q)
  end.

Definition calculate_distribution (m : TestPyramidMonitor)
  : result (list (string * Q)) :=
  let total := len (all_tests m) in
  if (total =? 0)%Z then
    Ok (fold_left (fun d marker => setitem d marker 0%Q) (map fst (targets m)) [])
  else distribution_loop m total (map fst (targets m)) [].

(** The loop [for marker, target in self.targets.items()]. *)
Fixpoint score_loop (items : list (string * Q)) (distribution : list (string * Q))
    (score : Q) : result Q :=
  match items with
  | [] => Ok score
  | (marker, target) :: items' =>
      actual <- getitem distribution marker ;;
      let deviation := Qabs (actual - target) in
      let penalty := (deviation * (1 # 10))%Q in
      score_loop items' distribution (score - penalty)%Q
  end.

(** [max(0.0, min(10.0, score))] *)
Definition clamp (score : Q) : Q := Qmax 0 (Qmin 10 score).

(** [sum(len(tests) for tests in self.tests_by_marker.values())] *)
Definition categorized_count (m : TestPyramidMonitor) : Z :=
  (len (unit_tests (tests_by_marker m))
   + len (integration_tests (tests_by_marker m))
   + len (e2e_tests (tests_by_marker m)))%Z.

Definition calculate_score (m : TestPyramidMonitor) (distribution : list (string * Q))
  : result Q :=
  score <- score_loop (targets m) distribution 10%Q ;;
  let categorized := categorized_count m in
  let uncategorized := (len (all_tests m) - categorized)%Z in
  if (0 <? uncategorized)%Z && (0 <? len (all_tests m))%Z then
    frac <- truediv uncategorized (len (all_tests m)) ;;
    let uncategorized_pct := (frac * 100)%Q in
    Ok (clamp (score - uncategorized_pct * (2 # 10))%Q)
  else Ok (clamp score).

(** The set [categorized] built by [get_missing_markers_count]. *)
Definition categorized_set (m : TestPyramidMonitor) : str_set :=
  fold_left (fun acc mk => set_union string_dec acc (tests_of (tests_by_marker m) mk))
    all_markers [].

Definition get_missing_markers_count (m : TestPyramidMonitor) : nat :=
  length (set_diff string_dec (all_tests m) (categorized_set m)).

End Monitor.

(* ------------------------------------------------------------------ *)
(** ** validate-markers.py: class TestMarkerValidator *)

Module Validator.
Import Text.

Definition marker_set : Type := set Marker.

Definition PYRAMID_MARKERS : list Marker := all_markers.

Record TestMarkerValidator : Type := {
  violations : list (string * list string);
  total_tests_checked : nat;
  total_violations : nat
}.

(** [__init__] *)
Definition init : TestMarkerValidator :=
  {| violations := []; total_tests_checked := 0; total_violations := 0 |}.

(** [for marker in self.PYRAMID_MARKERS: if f"@pytest.mark.{marker}" in line:
    markers.add(marker)] *)
Definition add_markers_in (line : string) (markers : marker_set) : marker_set :=
  fold_left
    (fun acc mk =>
       if contains ("@pytest.mark." ++ marker_name mk) line
       then set_add Marker_eq_dec mk acc else acc)
    PYRAMID_MARKERS markers.

(** The loop [for j in range(max(0, i - 11), i)] run at a class line, with
    [marker_line = lines[j - 1] if j > 0 else ""]; [i] counts from one. *)
Definition class_lookback (lines : list string) (i : nat) : marker_set :=
  fold_left
    (fun acc j =>
       let marker_line :=
         if 0 <? j then nth (j - 1) lines EmptyString else EmptyString in
       add_markers_in marker_line acc)
    (Monitor.range (i - 11) i) [].

Record scan_state : Type := {
  current_class : option string;
  class_markers : marker_set;
  pending_markers : marker_set
}.

Definition initial_scan : scan_state :=
  {| current_class := None; class_markers := []; pending_markers := [] |}.

Definition on_decorator (line : string) (st : scan_state) : scan_state :=
  if startswith "@pytest.mark." (strip line) then
    {| current_class := current_class st;
       class_markers := class_markers st;
       pending_markers := add_markers_in line (pending_markers st) |}
  else st.

Definition clear_pending (st : scan_state) : scan_state :=
  {| current_class := current_class st;
     class_markers := class_markers st;
     pending_markers := [] |}.

(** [pending_markers | class_markers] *)
Definition effective_markers (st : scan_state) : marker_set :=
  set_union Marker_eq_dec (pending_markers st) (class_markers st).

(** [f"{current_class}::{test_name}" if current_class else test_name] *)
Definition location (cls : option string) (test_name : string) : string :=
  match cls with
  | Some c => if is_empty c then test_name else (c ++ "::" ++ test_name)%string
  | None => test_name
  end.

Definition violation_message (i : nat) (loc : string) : string :=
  ("Line " ++ str_of_nat i ++ ": " ++ loc ++ " - Missing pyramid marker "
   ++ "(needs @pytest.mark.unit, @pytest.mark.integration, or @pytest.mark.e2e)")%string.

Definition count_test (v : TestMarkerValidator) : TestMarkerValidator :=
  {| violations := violations v;
     total_tests_checked := total_tests_checked v + 1;
     total_violations := total_violations v |}.

Definition count_violation (v : TestMarkerValidator) : TestMarkerValidator :=
  {| violations := violations v;
     total_tests_checked := total_tests_checked v;
     total_violations := total_violations v + 1 |}.

(** The [for i, line in enumerate(lines, 1)] loop, from line [i] on;
    [found] is the local list [violations]. *)
Fixpoint validate_loop (lines : list string) (i : nat) (todo : list string)
    (st : scan_state) (found : list string) (v : TestMarkerValidator)
  : list string * TestMarkerValidator :=
  match todo with
  | [] => (found, v)
  | line :: todo' =>
      match Monitor.class_match line with
      | Some name =>
          validate_loop lines (S i) todo'
            {| current_class := Some name;
               class_markers := class_lookback lines i;
               pending_markers := [] |}
            found v
      | None =>
          let st1 := on_decorator line st in
          match Monitor.test_match line with
          | Some test_name =>
              let v1 := count_test v in
              match effective_markers st1 with
              | [] =>
                  validate_loop lines (S i) todo' (clear_pending st1)
                    (found ++ [violation_message i (location (current_class st1) test_name)])
                    (count_violation v1)
              | _ :: _ =>
                  validate_loop lines (S i) todo' (clear_pending st1) found v1
              end
          | None => validate_loop lines (S i) todo' st1 found v
          end
      end
  end.

(** [validate_file] from the point where [file_path.exists()] has answered
    [file_exists f]: the pair it returns and the updated counters.  The call
    that can fail in [exists] is [Scan.validate_file]. *)
Definition validate_file (f : File) (v : TestMarkerValidator)
  : (bool * list string) * TestMarkerValidator :=
  if negb (file_exists f) then
    ((false, [("File not found: " ++ file_path f)%string]), v)
  else
    match read_text f with
    | Raise e => ((false, [("Error reading file: " ++ exn_message e)%string]), v)
    | Ok content =>
        let lines := split_lines content in
        let '(found, v') := validate_loop lines 1 lines initial_scan [] v in
        ((Nat.eqb (length found) 0, found), v')
    end.

(** [str(rel_path)] with the fallback of the [except ValueError] branch. *)
Definition report_key (f : File) : string :=
  match relative_to_root f with
  | Ok rel => rel
  | Raise _ => file_path f
  end.

Definition record_violations (key : string) (found : list string)
    (v : TestMarkerValidator) : TestMarkerValidator :=
  {| violations := Monitor.setitem (violations v) key found;
     total_tests_checked := total_tests_checked v;
     total_violations := total_violations v |}.

(** [validate_files]: the flag [all_valid] and the validator afterwards. *)
Fixpoint validate_files_from (all_valid : bool) (files : list File)
    (v : TestMarkerValidator) : bool * TestMarkerValidator :=
  match files with
  | [] => (all_valid, v)
  | f :: files' =>
      let '((is_valid, found), v1) := validate_file f v in
      if negb is_valid
      then validate_files_from false files' (record_violations (report_key f) found v1)
      else validate_files_from all_valid files' v1
  end.

Definition validate_files (files : list File) (v : TestMarkerValidator)
  : bool * TestMarkerValidator :=
  validate_files_from true files v.

Record json_report : Type := {
  valid : bool;
  report_tests_checked : nat;
  report_violations : nat;
  report_entries : list (string * list string)
}.

Definition get_json_report (v : TestMarkerValidator) : json_report :=
  {| valid := Nat.eqb (length (violations v)) 0;
     report_tests_checked := total_tests_checked v;
     report_violations := total_violations v;
     report_entries := violations v |}.

End Validator.

(* ------------------------------------------------------------------ *)
(** ** Reference definitions that follow the specification's wording *)

Module Spec.
Import Text.

(** "uncategorized_percentage = 100 * (|all_tests| - |union of
    tests_by_marker|) / |all_tests|, zero when all_tests is empty". *)
Definition uncategorized_percentage (m : Monitor.TestPyramidMonitor) : Q :=
  let total := Monitor.len (Monitor.all_tests m) in
  if (total =? 0)%Z then 0%Q
  else (100 * (inject_Z (total - Monitor.len (Monitor.categorized_set m)))
        / inject_Z total)%Q.

(** "deviation = |actual_percentage - target_percentage|" for one tier. *)
Definition deviation (targets distribution : list (string * Q)) (mk : Marker)
  : result Q :=
  actual <- Monitor.getitem distribution (marker_name mk) ;;
  target <- Monitor.getitem targets (marker_name mk) ;;
  Ok (Qabs (actual - target)).

(** "clamp(10.0 - (sum over tiers of deviation * 0.1) - uncategorized_percentage
    * 0.2, 0.0, 10.0)". *)
Definition pyramid_score (m : Monitor.TestPyramidMonitor)
    (distribution : list (string * Q)) : result Q :=
  du <- deviation (Monitor.targets m) distribution Unit ;;
  di <- deviation (Monitor.targets m) distribution Integration ;;
  de <- deviation (Monitor.targets m) distribution E2e ;;
  Ok (Monitor.clamp (10 - (du * (1 # 10) + di * (1 # 10) + de * (1 # 10))
                     - uncategorized_percentage m * (2 # 10))%Q).

(** The deviations the scorer's loop meets, in the order of the target
    items. *)
Fixpoint deviations (items distribution : list (string * Q)) : result (list Q) :=
  match items with
  | [] => Ok []
  | (marker, target) :: items' =>
      actual <- Monitor.getitem distribution marker ;;
      rest <- deviations items' distribution ;;
      Ok (Qabs (actual - target) :: rest)
  end.

(** A line that opens no scope, defines no test and names no tier marker. *)
Definition plain_line (l : string) : Prop :=
  Monitor.class_match l = None
  /\ Monitor.test_match l = None
  /\ Monitor.search_marker l = None.

(** A line that contains none of the three marker decorators. *)
Definition no_marker (l : string) : Prop :=
  forall mk, contains ("@pytest.mark." ++ marker_name mk) l = false.


(** Two monitors with the same registry (they may differ in what was
    printed). *)
Definition same_registry (m1 m2 : Monitor.TestPyramidMonitor) : Prop :=
  Monitor.all_tests m1 = Monitor.all_tests m2
  /\ Monitor.tests_by_marker m1 = Monitor.tests_by_marker m2.



(** Convention B as the specification words it: the tier of a test is the
    label of the nearest tier-labelled [describe] that starts before it, none
    when there is no such [describe]. *)
Definition nearest_preceding_category (content : string) (pos : nat) : option Marker :=
  fold_left
    (fun cur mt =>
       if fst mt <? pos then
         match marker_of_string (lower (snd mt)) with
         | Some mk => Some mk
         | None => cur
         end
       else cur)
    (finditer Monitor.describe_at content) None.

Definition positional_js_tiers (content : string) : list (string * option Marker) :=
  map (fun mt => (snd mt, nearest_preceding_category content (fst mt)))
    (finditer Monitor.js_test_at content).

(** The tier keywords of conventions C and D. *)
Definition go_keyword (t : Marker) (line : string) : bool :=
  contains ("// +build " ++ marker_name t) line
  || contains ("//go:build " ++ marker_name t) line.

Definition rust_keyword (t : Marker) (line : string) : bool :=
  contains ("// " ++ marker_name t) (lower line).

(** The first tier, in the order unit, integration, e2e, whose keyword a
    line contains. *)
Definition first_keyword (has : Marker -> string -> bool) (line : string)
  : option Marker :=
  if has Unit line then Some Unit
  else if has Integration line then Some Integration
  else if has E2e line then Some E2e
  else None.

(** Conventions C and D as the specification words them: the five lines
    immediately preceding the line of the declaration at [pos], and the tiers
    whose keyword appears on one of them. *)
Definition five_preceding_lines (content : string) (pos : nat) : list string :=
  last_n 5 (removelast (split_lines (take pos content))).

Definition keyword_within_five (has : Marker -> string -> bool) (content : string)
    (pos : nat) (t : Marker) : bool :=
  existsb (has t) (five_preceding_lines content pos).

(** [k] blanks of indentation. *)
Fixpoint indent (k : nat) : string :=
  match k with
  | O => EmptyString
  | S k' => String " " (indent k')
  end.

(** The lines of a file the parsers take for test definitions. *)
Definition count_test_lines (lines : list string) : nat :=
  length (filter (fun l => match Monitor.test_match l with Some _ => true | None => false end)
            lines).

(** The violation list [validate_file] returns for a file. *)
Definition file_violations (f : File) : list string :=
  snd (fst (Validator.validate_file f Validator.init)).

Fixpoint Qsum (l : list Q) : Q :=
  match l with
  | [] => 0%Q
  | x :: l' => (x + Qsum l')%Q
  end.

End Spec.

(* ------------------------------------------------------------------ *)
(** ** Concrete inputs *)

Module Examples.
Import Text.

Definition nl : string := String newline EmptyString.

(** A file under the project root that can be read. *)
Definition readable (path content : string) : File :=
  {| file_path := path;
     file_exists := true;
     relative_to_root := Ok path;
     read_text := Ok content |}.

(** A file whose [read_text] raises. *)
Definition unreadable (path msg : string) : File :=
  {| file_path := path;
     file_exists := true;
     relative_to_root := Ok path;
     read_text := Raise (OSError msg) |}.

(** One test in two tiers (class level and function level) and one test
    without any marker. *)
Definition overlap_file : File :=
  readable "tests/test_overlap.py"
    ("class TestBar:" ++ nl
     ++ "    def test_b(self):" ++ nl
     ++ "        pass" ++ nl
     ++ nl
     ++ "@pytest.mark.integration" ++ nl
     ++ "class TestFoo:" ++ nl
     ++ "    @pytest.mark.unit" ++ nl
     ++ "    def test_a(self):" ++ nl
     ++ "        pass" ++ nl).

(** Scenario 1: a class-level [integration] annotation, two tests, the
    first one also annotated [unit]. *)
Definition scenario1_file : File :=
  readable "tests/test_scenario1.py"
    ("import pytest" ++ nl
     ++ nl
     ++ "@pytest.mark.integration" ++ nl
     ++ "class TestFoo:" ++ nl
     ++ "    @pytest.mark.unit" ++ nl
     ++ "    def test_a(self):" ++ nl
     ++ "        pass" ++ nl
     ++ nl
     ++ "    def test_b(self):" ++ nl
     ++ "        pass" ++ nl).

(** Scenario 4: one test, no marker anywhere before it. *)
Definition scenario4_file : File :=
  readable "tests/test_scenario4.py"
    ("import os" ++ nl
     ++ nl
     ++ "class TestBare:" ++ nl
     ++ "    def test_nothing(self):" ++ nl
     ++ "        assert True" ++ nl).

(** A marker eleven lines above the class declaration. *)
Definition eleven_above_file : File :=
  readable "tests/test_eleven.py"
    ("@pytest.mark.unit" ++ nl
     ++ nl ++ nl ++ nl ++ nl ++ nl ++ nl ++ nl ++ nl ++ nl ++ nl
     ++ "class TestA:" ++ nl
     ++ "    def test_x(self):" ++ nl
     ++ "        pass").

(** A test before any [describe], one under a [unit] block and one under an
    [e2e] block. *)
Definition two_blocks_js : string :=
  "it('boots', () => {});" ++ nl
  ++ "describe('unit: parser', () => {" ++ nl
  ++ "  it('parses', () => {});" ++ nl
  ++ "});" ++ nl
  ++ "describe('e2e: flow', () => {" ++ nl
  ++ "  test('runs', () => {});" ++ nl
  ++ "});" ++ nl.

Definition two_blocks_file : File := readable "tests/app.test.js" two_blocks_js.

(** Two build constraints on the line above a Go test. *)
Definition two_keywords_go : string :=
  "// +build e2e // +build unit" ++ nl
  ++ "func TestBoth(t *testing.T) {" ++ nl
  ++ "}" ++ nl.

Definition two_keywords_file : File := readable "pkg/both_test.go" two_keywords_go.

(** A Go file whose build constraint is on the fifth line above the test. *)
Definition five_above_go : string :=
  "//go:build integration" ++ nl
  ++ nl
  ++ "package pkg" ++ nl
  ++ nl
  ++ "import testing" ++ nl
  ++ "func TestFar(t *testing.T) {" ++ nl
  ++ "}" ++ nl.

Definition five_above_file : File := readable "pkg/far_test.go" five_above_go.

(** A Go test with an [integration] constraint two lines above it. *)
Definition tagged_go : string :=
  "package pkg" ++ nl
  ++ "//go:build integration" ++ nl
  ++ nl
  ++ "func TestTagged(t *testing.T) {" ++ nl
  ++ "}" ++ nl.

Definition tagged_go_file : File := readable "pkg/tagged_test.go" tagged_go.

Definition locked_file : File :=
  unreadable "tests/test_locked.py" "Permission denied".

Definition overlap_targets : list (string * Q) :=
  [("unit", 50%Q); ("integration", 50%Q); ("e2e", 0%Q)].

Definition on_target : list (string * Q) :=
  [("unit", 70%Q); ("integration", 20%Q); ("e2e", 10%Q)].

Definition unit_short : list (string * Q) :=
  [("unit", 60%Q); ("integration", 20%Q); ("e2e", 10%Q)].

End Examples.

(* ------------------------------------------------------------------ *)
(** ** Invariants of the registry *)

Module Registry.

(** What the parsers keep true of the registry: no identifier is listed
    twice, and every tier set lies within [all_tests]. *)
Definition well_formed (m : Monitor.TestPyramidMonitor) : Prop :=
  NoDup (Monitor.all_tests m)
  /\ forall mk,
       NoDup (Monitor.tests_of (Monitor.tests_by_marker m) mk)
       /\ incl (Monitor.tests_of (Monitor.tests_by_marker m) mk) (Monitor.all_tests m).

(** Two monitors whose registries have the same members. *)
Definition same_members (m1 m2 : Monitor.TestPyramidMonitor) : Prop :=
  (forall id, In id (Monitor.all_tests m1) <-> In id (Monitor.all_tests m2))
  /\ forall mk id,
       In id (Monitor.tests_of (Monitor.tests_by_marker m1) mk)
       <-> In id (Monitor.tests_of (Monitor.tests_by_marker m2) mk).

(** [100 * |tests_by_marker[mk]| / |all_tests|] as [calculate_distribution]
    computes it. *)
Definition percentage (m : Monitor.TestPyramidMonitor) (mk : Marker) : Q :=
  (inject_Z (Monitor.len (Monitor.tests_of (Monitor.tests_by_marker m) mk))
   / inject_Z (Monitor.len (Monitor.all_tests m)) * 100)%Q.

End Registry.

(* ------------------------------------------------------------------ *)
(** ** The tests a scan meets, in the order it meets them *)

Module Trace.

(** One test definition met by a convention-A loop: its line, the class in
    force, its name and the markers in force. *)
Record test_event : Type := {
  event_line : nat;
  event_class : option string;
  event_name : string;
  event_markers : list Marker
}.

(** The test definitions the loop of [_parse_python_test_file] meets from line
    [i] on (lines counted from 0), with the state it has at each. *)
Fixpoint python_events (lines : list string) (i : nat) (todo : list string)
    (st : Monitor.scan_state) : list test_event :=
  match todo with
  | [] => []
  | line :: todo' =>
      let st2 := Monitor.on_decorator line (Monitor.on_class lines i line st) in
      match Monitor.test_match line with
      | Some test_name =>
          {| event_line := i;
             event_class := Monitor.current_class st2;
             event_name := test_name;
             event_markers := Monitor.effective_markers st2 |}
          :: python_events lines (S i) todo' (Monitor.clear_function_markers st2)
      | None => python_events lines (S i) todo' st2
      end
  end.

(** The test definitions the loop of [validate_file] meets from line [i] on
    (lines counted from 1), with the state it has at each. *)
Fixpoint validator_events (lines : list string) (i : nat) (todo : list string)
    (st : Validator.scan_state) : list test_event :=
  match todo with
  | [] => []
  | line :: todo' =>
      match Monitor.class_match line with
      | Some name =>
          validator_events lines (S i) todo'
            {| Validator.current_class := Some name;
               Validator.class_markers := Validator.class_lookback lines i;
               Validator.pending_markers := [] |}
      | None =>
          let st1 := Validator.on_decorator line st in
          match Monitor.test_match line with
          | Some test_name =>
              {| event_line := i;
                 event_class := Validator.current_class st1;
                 event_name := test_name;
                 event_markers := Validator.effective_markers st1 |}
              :: validator_events lines (S i) todo' (Validator.clear_pending st1)
          | None => validator_events lines (S i) todo' st1
          end
      end
  end.

Definition unmarked (e : test_event) : bool :=
  match event_markers e with [] => true | _ :: _ => false end.

(** The message the validator files for an unmarked test. *)
Definition violation_of (e : test_event) : string :=
  Validator.violation_message (event_line e)
    (Validator.location (event_class e) (event_name e)).

(** A sequence of registrations: identifiers with the tiers they are added
    to. *)
Definition register_all (regs : list (string * list Marker))
    (m : Monitor.TestPyramidMonitor) : Monitor.TestPyramidMonitor :=
  fold_left (fun acc r => Monitor.register (fst r) (snd r) acc) regs m.

(** The registrations each parser makes for a file; none when the file
    cannot be read or its relative path cannot be formed. *)
Definition python_registrations (f : File) : list (string * list Marker) :=
  match read_text f, relative_to_root f with
  | Ok content, Ok rel =>
      map (fun e => (Monitor.python_test_id rel (event_class e) (event_name e),
                     event_markers e))
        (python_events (Text.split_lines content) 0 (Text.split_lines content)
           Monitor.initial_scan)
  | _, _ => []
  end.

Definition javascript_registrations (f : File) : list (string * list Marker) :=
  match read_text f, relative_to_root f with
  | Ok content, Ok rel =>
      map (fun mt => ((rel ++ "::" ++ snd mt)%string,
                      match Monitor.js_current_category content with
                      | Some mk => [mk]
                      | None => []
                      end))
        (Text.finditer Monitor.js_test_at content)
  | _, _ => []
  end.

Definition lookback_registrations (match_at : string -> option (string * nat))
    (line_marker : string -> option Marker) (f : File) : list (string * list Marker) :=
  match read_text f, relative_to_root f with
  | Ok content, Ok rel =>
      map (fun mt => ((rel ++ "::" ++ snd mt)%string,
                      Monitor.lookback_markers line_marker content (fst mt)))
        (Text.finditer match_at content)
  | _, _ => []
  end.

End Trace.

(* ------------------------------------------------------------------ *)
(** ** Conditions under which the two convention-A scans agree *)

Module Agreement.

(** No class declaration has a marker on the line eleven above it (the one
    line the validator's lookback inspects and the extractor's does not).
    [todo] are the lines from line [i] on. *)
Definition no_marker_eleven_above (lines : list string) (i : nat) (todo : list string)
  : Prop :=
  forall k l,
    nth_error todo k = Some l ->
    Monitor.class_match l <> None ->
    11 <= i + k ->
    Spec.no_marker (nth (i + k - 11) lines EmptyString).

(** What the two scans are compared on: line (counted from 1), class, name,
    and whether any marker is in force. *)
Definition seen_by_extractor (e : Trace.test_event)
  : nat * option string * string * bool :=
  (S (Trace.event_line e), Trace.event_class e, Trace.event_name e, Trace.unmarked e).

Definition seen_by_validator (e : Trace.test_event)
  : nat * option string * string * bool :=
  (Trace.event_line e, Trace.event_class e, Trace.event_name e, Trace.unmarked e).

(** The states of the two loops correspond. *)
Definition states_correspond (sm : Monitor.scan_state) (sv : Validator.scan_state)
  : Prop :=
  Monitor.current_class sm = Validator.current_class sv
  /\ (Monitor.class_markers sm = [] <-> Validator.class_markers sv = [])
  /\ (Monitor.function_markers sm = [] <-> Validator.pending_markers sv = []).

End Agreement.

(* ------------------------------------------------------------------ *)
(** ** template_engine.py: the filters of TemplateEngine *)

Module Template.
Import Text.

Definition nl : string := String newline EmptyString.

(** [sep.join(lines)] *)
Fixpoint join (sep : string) (lines : list string) : string :=
  match lines with
  | [] => EmptyString
  | l :: ls =>
      match ls with
      | [] => l
      | _ :: _ => (l ++ sep ++ join sep ls)%string
      end
  end.

Fixpoint blanks (n : nat) : string :=
  match n with
  | O => EmptyString
  | S k => String " "%char (blanks k)
  end.

(** [" " * width]: the empty string when [width] is not positive. *)
Definition spaces (width : Z) : string := blanks (Z.to_nat width).

(** [_yaml_indent(text, width, first)].  [text.split] never gives the empty
    list, so the assignment to [lines[0]] finds its element. *)
Definition _yaml_indent (text : string) (width : Z) (first : bool) : string :=
  let lines := split_lines text in
  let lines :=
    if negb first then
      match lines with
      | [] => []
      | line0 :: rest => line0 :: map (fun line => (spaces width ++ line)%string) rest
      end
    else map (fun line => (spaces width ++ line)%string) lines in
  join nl lines.

(** [_to_yaml_list(items, indent)] on items that are strings, which the
    f-string leaves as they are. *)
Definition _to_yaml_list (items : list string) (indent : Z) : string :=
  let prefix := spaces indent in
  join nl (map (fun item => (prefix ++ "- " ++ item)%string) items).

(** A string without a line break. *)
Definition one_line (s : string) : Prop := contains nl s = false.

End Template.

(* ------------------------------------------------------------------ *)
(** ** detector.py: class ProjectDetector *)

Module Detector.
Import Text.

(** What the detector asks of the file system below [self.root]: whether a
    relative path exists or is a directory, what reading it gives, and the
    paths [self.root.rglob(pattern)] yields, as [str(f)] prints them.  Each
    call answers or fails: [Path.exists] and [Path.is_dir] give [False] for a
    path that is not there and let the other errors of the file system
    through, and nothing in the class catches them. *)
Record ProjectDetector : Type := {
  root : string;
  path_exists : string -> result bool;
  path_is_dir : string -> result bool;
  path_read_text : string -> result string;
  rglob : string -> result (list string)
}.

(** Language, indicator files, extensions, in the order of the dict. *)
Definition LANGUAGE_INDICATORS : list (string * (list string * list string)) :=
  [ ("python", (["pyproject.toml"; "setup.py"; "requirements.txt"; "Pipfile"], [".py"]));
    ("javascript", (["package.json"; "tsconfig.json"], [".js"; ".jsx"; ".ts"; ".tsx"]));
    ("go", (["go.mod"; "go.sum"], [".go"]));
    ("rust", (["Cargo.toml"; "Cargo.lock"], [".rs"])) ].

(** The filter of the generator that counts source files. *)
Definition counted (f : string) : bool :=
  negb (contains "node_modules" f)
  && negb (contains ".venv" f)
  && negb (contains "target" f)
  && negb (contains "__pycache__" f).

(** The loop [for file in indicators["files"]]. *)
Fixpoint files_score (d : ProjectDetector) (files : list string) (score : nat)
    : result nat :=
  match files with
  | [] => Ok score
  | file :: files' =>
      found <- path_exists d file ;;
      files_score d files' (if found then score + 10 else score)
  end.

(** The loop [for ext in indicators["extensions"]]: the files are listed
    twice, the first count being dropped for the filtered one. *)
Fixpoint extensions_score (d : ProjectDetector) (extensions : list string) (score : nat)
    : result nat :=
  match extensions with
  | [] => Ok score
  | ext :: extensions' =>
      listed <- rglob d ("*" ++ ext)%string ;;
      let count := length listed in
      listed <- rglob d ("*" ++ ext)%string ;;
      let count := length (filter counted listed) in
      extensions_score d extensions' (score + Nat.min count 50)
  end.

Definition language_score (d : ProjectDetector) (files extensions : list string)
    : result nat :=
  score <- files_score d files 0 ;;
  extensions_score d extensions score.

(** The loop over the table, which fills the dict [scores] in its order. *)
Fixpoint scores_loop (d : ProjectDetector)
    (table : list (string * (list string * list string)))
    (scores : list (string * nat)) : result (list (string * nat)) :=
  match table with
  | [] => Ok scores
  | entry :: table' =>
      score <- language_score d (fst (snd entry)) (snd (snd entry)) ;;
      scores_loop d table'
        (if 0 <? score then scores ++ [(fst entry, score)] else scores)
  end.

(** [sorted(items, key=lambda x: x[1], reverse=True)]: the sort is stable,
    so items of equal score keep their order. *)
Fixpoint insert_by_score (x : string * nat) (l : list (string * nat))
    : list (string * nat) :=
  match l with
  | [] => [x]
  | y :: l' => if snd y <=? snd x then x :: l else y :: insert_by_score x l'
  end.

Definition sorted_by_score (l : list (string * nat)) : list (string * nat) :=
  fold_right insert_by_score [] l.

Record Languages : Type := {
  primary : option string;
  secondary : list string
}.

(** The comprehension that builds [secondary]; [scores[lang]] raises
    [KeyError] for a language that has no score. *)
Fixpoint secondary_of (scores others : list (string * nat)) : result (list string) :=
  match others with
  | [] => Ok []
  | (lang, _) :: others' =>
      score <- Monitor.getitem scores lang ;;
      rest <- secondary_of scores others' ;;
      Ok (if 10 <=? score then lang :: rest else rest)
  end.

(** [detect_languages] once the loop has filled [scores].  With a score in
    the dict the sorted list has an item, so [sorted_langs[0]] is there. *)
Definition choose_languages (scores : list (string * nat)) : result Languages :=
  match scores with
  | [] => Ok {| primary := None; secondary := [] |}
  | _ :: _ =>
      match sorted_by_score scores with
      | [] => Ok {| primary := None; secondary := [] |}
      | (top, _) :: others =>
          secondary <- secondary_of scores others ;;
          Ok {| primary := Some top; secondary := secondary |}
      end
  end.

Definition detect_languages (d : ProjectDetector) : result Languages :=
  scores <- scores_loop d LANGUAGE_INDICATORS [] ;;
  choose_languages scores.

(** [any(call(name) for name in names)]: the calls stop at the first that
    answers [True], or fails. *)
Fixpoint any (call : string -> result bool) (names : list string) : result bool :=
  match names with
  | [] => Ok false
  | name :: names' =>
      found <- call name ;;
      if found then Ok true else any call names'
  end.

Definition detect_test_framework (d : ProjectDetector) (language : string)
    : result (option string) :=
  if String.eqb language "python" then
    ini <- path_exists d "pytest.ini" ;;
    found <- (if ini then Ok true else path_exists d "conftest.py") ;;
    if found then Ok (Some "pytest")
    else
      pyproject <- path_exists d "pyproject.toml" ;;
      configured <-
        (if pyproject then
           content <- path_read_text d "pyproject.toml" ;;
           Ok (contains "pytest" content)
         else Ok false) ;;
      if configured then Ok (Some "pytest") else Ok (Some "pytest")
  else if String.eqb language "javascript" then
    vitest <- any (path_exists d) ["vitest.config.ts"; "vitest.config.js"] ;;
    if vitest then Ok (Some "vitest")
    else
      jest <- any (path_exists d)
                ["jest.config.js"; "jest.config.ts"; "jest.config.json"] ;;
      if jest then Ok (Some "jest")
      else
        pkg <- path_exists d "package.json" ;;
        if pkg then
          content <- path_read_text d "package.json" ;;
          if contains "vitest" content then Ok (Some "vitest")
          else if contains "jest" content then Ok (Some "jest")
          else Ok (Some "vitest")
        else Ok (Some "vitest")
  else if String.eqb language "go" then Ok (Some "go test")
  else if String.eqb language "rust" then Ok (Some "cargo test")
  else Ok None.

(** A name between double quotes, as [package.json] writes a dependency. *)
Definition quoted (name : string) : string :=
  String "034"%char (name ++ String "034"%char EmptyString)%string.

Definition detect_frontend_framework (d : ProjectDetector) : result (option string) :=
  pkg <- path_exists d "package.json" ;;
  if negb pkg then Ok None
  else
    content <- path_read_text d "package.json" ;;
    if contains (quoted "react") content || contains (quoted "react-dom") content then
      Ok (Some "react")
    else if contains (quoted "vue") content then Ok (Some "vue")
    else if contains (quoted "svelte") content then Ok (Some "svelte")
    else if contains (quoted "@angular/core") content then Ok (Some "angular")
    else Ok None.

(** The values [has_frontend] can return: [a or b] gives [a] when it is
    true and [b], whatever it is, when not. *)
Inductive value : Type :=
| Bool (b : bool)
| Str (s : string)
| NoneValue.

Definition of_optional (o : option string) : value :=
  match o with
  | Some s => Str s
  | None => NoneValue
  end.

(** [bool(v)] *)
Definition truthy (v : value) : bool :=
  match v with
  | Bool b => b
  | Str s => negb (is_empty s)
  | NoneValue => false
  end.

Definition frontend_indicators : list string :=
  ["frontend"; "client"; "src/components"; "pages"; "app"].

Definition has_frontend (d : ProjectDetector) : result value :=
  directory <- any (path_is_dir d) frontend_indicators ;;
  if directory then Ok (Bool true)
  else
    framework <- detect_frontend_framework d ;;
    Ok (of_optional framework).

Definition has_docker (d : ProjectDetector) : result bool :=
  dockerfile <- path_exists d "Dockerfile" ;;
  if dockerfile then Ok true else path_exists d "docker-compose.yml".

Definition has_kubernetes (d : ProjectDetector) : result bool :=
  let k8s_indicators := ["k8s"; "kubernetes"; "helm"; "kustomization.yaml"] in
  any (path_exists d) k8s_indicators.

Record Report : Type := {
  report_languages : Languages;
  report_test_framework : option string;
  report_frontend_framework : option string;
  report_has_frontend : value;
  report_has_docker : bool;
  report_has_kubernetes : bool;
  report_root : string
}.

(** [get_full_report]: the entries of the dict are computed in the order
    they are written.  A primary language is never the empty string, so
    [if primary] asks whether there is one. *)
Definition get_full_report (d : ProjectDetector) : result Report :=
  languages <- detect_languages d ;;
  test_framework <-
    match primary languages with
    | Some language => detect_test_framework d language
    | None => Ok None
    end ;;
  frontend_framework <- detect_frontend_framework d ;;
  frontend <- has_frontend d ;;
  docker <- has_docker d ;;
  kubernetes <- has_kubernetes d ;;
  Ok {| report_languages := languages;
        report_test_framework := test_framework;
        report_frontend_framework := frontend_framework;
        report_has_frontend := frontend;
        report_has_docker := docker;
        report_has_kubernetes := kubernetes;
        report_root := root d |}.

(** The score of one language, 0 for a name the table does not have. *)
Definition score_of (d : ProjectDetector) (lang : string) : result nat :=
  match Monitor.getitem LANGUAGE_INDICATORS lang with
  | Ok (files, extensions) => language_score d files extensions
  | Raise _ => Ok 0
  end.

Definition languages : list string := map fst LANGUAGE_INDICATORS.

(** The dict [scores] for a given scoring of the languages: those that score
    above zero, in the order of the table. *)
Definition positive_scores (score : string -> nat) : list (string * nat) :=
  filter (fun e => 0 <? snd e) (map (fun lang => (lang, score lang)) languages).

(** An error that one of the calls to the file system raises. *)
Definition raised_by_call (d : ProjectDetector) (e : exn) : Prop :=
  (exists path, path_exists d path = Raise e)
  \/ (exists path, path_is_dir d path = Raise e)
  \/ (exists path, path_read_text d path = Raise e)
  \/ (exists pattern, rglob d pattern = Raise e).

End Detector.

(* ------------------------------------------------------------------ *)
(** ** pyramid-monitor.py: recommendations *)

Module Advice.

(** The messages of [_generate_recommendations], each with the values its
    f-string prints. *)
Inductive recommendation : Type :=
| AddMarkers (missing : nat)
| ReduceTests (marker : string) (delta target : Q)
| AddMoreTests (marker : string) (shortfall target : Q)
| UnitCoverageLow
| E2eOverRepresented
| LooksHealthy.

(** [a > b] and [a < b] *)
Definition gt (a b : Q) : bool := negb (Qle_bool a b).
Definition lt (a b : Q) : bool := negb (Qle_bool b a).

(** The loop [for marker, target in self.targets.items()]. *)
Fixpoint targets_loop (items : list (string * Q)) (distribution : list (string * Q))
    (recommendations : list recommendation) : result (list recommendation) :=
  match items with
  | [] => Ok recommendations
  | (marker, target) :: items' =>
      actual <- Monitor.getitem distribution marker ;;
      let delta := (actual - target)%Q in
      targets_loop items' distribution
        (if gt (Qabs delta) 5 then
           if gt delta 0 then recommendations ++ [ReduceTests marker delta target]
           else recommendations ++ [AddMoreTests marker (Qabs delta) target]
         else recommendations)
  end.

Definition _generate_recommendations (m : Monitor.TestPyramidMonitor)
    (distribution : list (string * Q)) : result (list recommendation) :=
  let missing := Monitor.get_missing_markers_count m in
  let recommendations := if 0 <? missing then [AddMarkers missing] else [] in
  recommendations <- targets_loop (Monitor.targets m) distribution recommendations ;;
  unit <- Monitor.getitem distribution "unit" ;;
  let recommendations :=
    if lt unit 60 then recommendations ++ [UnitCoverageLow] else recommendations in
  e2e <- Monitor.getitem distribution "e2e" ;;
  let recommendations :=
    if gt e2e 15 then recommendations ++ [E2eOverRepresented] else recommendations in
  Ok (match recommendations with
      | [] => [LooksHealthy]
      | _ :: _ => recommendations
      end).

(** What one pass of the loop adds for a tier at [actual] percent. *)
Definition tier_advice (marker : string) (target actual : Q) : list recommendation :=
  let delta := (actual - target)%Q in
  if gt (Qabs delta) 5 then
    if gt delta 0 then [ReduceTests marker delta target]
    else [AddMoreTests marker (Qabs delta) target]
  else [].

Definition targets_advice (items distribution : list (string * Q))
    : list recommendation :=
  flat_map
    (fun item =>
       match Monitor.getitem distribution (fst item) with
       | Ok actual => tier_advice (fst item) (snd item) actual
       | Raise _ => []
       end)
    items.

End Advice.

(* ------------------------------------------------------------------ *)
(** ** pyramid-monitor.py: collecting the test files *)

Module Collector.
Import Text.


(** The monitor with the two fields the collector sets. *)
Record Collection : Type := {
  monitor : Monitor.TestPyramidMonitor;
  language : option string;
  test_files_scanned : nat
}.


(** [print(line, file=sys.stderr)] *)
Definition print (line : string) (c : Collection) : Collection :=
  {| monitor :=
       {| Monitor.targets := Monitor.targets (monitor c);
          Monitor.tests_by_marker := Monitor.tests_by_marker (monitor c);
          Monitor.all_tests := Monitor.all_tests (monitor c);
          Monitor.stderr := Monitor.stderr (monitor c) ++ [line] |};
     language := language c;
     test_files_scanned := test_files_scanned c |}.


(** The common end of the four collectors: count the files, parse each,
    report the total. *)
Definition scan
    (parse : File -> Monitor.TestPyramidMonitor -> Monitor.TestPyramidMonitor)
    (kind : string) (test_files : list File) (c : Collection) : bool * Collection :=
  let c := {| monitor := monitor c;
              language := language c;
              test_files_scanned := length test_files |} in
  let c := print ("Found " ++ str_of_nat (length test_files) ++ kind)%string c in
  let c := {| monitor := fold_left (fun m f => parse f m) test_files (monitor c);
              language := language c;
              test_files_scanned := test_files_scanned c |} in
  (true,
   print ("Collected " ++ str_of_nat (length (Monitor.all_tests (monitor c)))
          ++ " tests total")%string c).







End Collector.

(* ------------------------------------------------------------------ *)
(** ** validate-markers.py: finding the files, the exit status *)

Module Cli.
Import Text.







End Cli.

(* ------------------------------------------------------------------ *)
(** ** pyramid-monitor.py: what a failing file leaves behind *)

Module Extraction.
Import Text.






(** The loop [for test_file in test_files] of a collector. *)
Definition scan
    (parse : File -> Monitor.TestPyramidMonitor -> Monitor.TestPyramidMonitor)
    (files : list File) (m : Monitor.TestPyramidMonitor) : Monitor.TestPyramidMonitor :=
  fold_left (fun acc f => parse f acc) files m.

End Extraction.

(* ------------------------------------------------------------------ *)
(** ** validate-markers.py: the existence check *)

Module Scan.

(** A path handed to the validator.  [file_path.exists()] answers with a
    boolean, the [file_exists] of the file, or fails with [exists_raises]:
    [Path.exists] gives [False] for a path that is not there and lets the
    other errors of the file system through, such as a directory that may
    not be searched. *)
Record Path : Type := {
  file : File;
  exists_raises : option exn
}.

(** [validate_file].  The call to [exists] stands before the [try], so what
    it raises leaves the function; the rest is [Validator.validate_file].
    The result is the outcome and the validator as the call leaves it. *)
Definition validate_file (p : Path) (v : Validator.TestMarkerValidator)
    : result (bool * list string) * Validator.TestMarkerValidator :=
  match exists_raises p with
  | Some e => (Raise e, v)
  | None =>
      let '(outcome, v') := Validator.validate_file (file p) v in
      (Ok outcome, v')
  end.

(** [validate_files]: nothing catches what [validate_file] raises, so the
    loop ends there, with the entries made so far. *)
Fixpoint validate_files_from (all_valid : bool) (paths : list Path)
    (v : Validator.TestMarkerValidator)
    : result bool * Validator.TestMarkerValidator :=
  match paths with
  | [] => (Ok all_valid, v)
  | p :: paths' =>
      match validate_file p v with
      | (Raise e, v1) => (Raise e, v1)
      | (Ok (is_valid, found), v1) =>
          if negb is_valid
          then validate_files_from false paths'
                 (Validator.record_violations (Validator.report_key (file p)) found v1)
          else validate_files_from all_valid paths' v1
      end
  end.

Definition validate_files (paths : list Path) (v : Validator.TestMarkerValidator)
    : result bool * Validator.TestMarkerValidator :=
  validate_files_from true paths v.



End Scan.

(* ------------------------------------------------------------------ *)
(** * Properties *)

Import Text.

(** ** Dictionaries *)

Lemma getitem_setitem_same {A : Type} (d : list (string * A)) k v :
  Monitor.getitem (Monitor.setitem d k v) k = Ok v.
Proof.
  induction d as [|[k' v'] d IH]; simpl.
  - now rewrite String.eqb_refl.
  - destruct (String.eqb k k') eqn:E; simpl; rewrite E; auto.
Qed.

Lemma getitem_setitem_other {A : Type} (d : list (string * A)) k k' v :
  k <> k' -> Monitor.getitem (Monitor.setitem d k v) k' = Monitor.getitem d k'.
Proof.
  intros Hne. induction d as [|[k0 v0] d IH]; simpl.
  - destruct (String.eqb k' k) eqn:E; [apply String.eqb_eq in E; congruence|].
    reflexivity.
  - destruct (String.eqb k k0) eqn:E; simpl.
    + apply String.eqb_eq in E; subst k0.
      destruct (String.eqb k' k) eqn:E'; [apply String.eqb_eq in E'; congruence|].
      reflexivity.
    + destruct (String.eqb k' k0); auto.
Qed.

Lemma zero_fill_getitem (keys : list string) :
  forall (d : list (string * Q)) k,
    (In k keys \/ Monitor.getitem d k = Ok 0%Q) ->
    (forall k', Monitor.getitem d k' = Ok 0%Q \/ Monitor.getitem d k' = Raise (KeyError k')) ->
    Monitor.getitem (fold_left (fun d marker => Monitor.setitem d marker 0%Q) keys d) k
    = Ok 0%Q.
Proof.
  induction keys as [|key keys IH]; intros d k Hk Hd; simpl.
  - destruct Hk as [[]|Hk]; exact Hk.
  - apply IH.
    + destruct (string_dec key k) as [->|Hne].
      * right. apply getitem_setitem_same.
      * destruct Hk as [[Hk|Hk]|Hk]; [congruence|now left|].
        right. now rewrite getitem_setitem_other.
    + intros k'. destruct (string_dec key k') as [->|Hne].
      * left. apply getitem_setitem_same.
      * rewrite getitem_setitem_other by assumption. apply Hd.
Qed.

Lemma zero_fill_values (keys : list string) :
  forall (d : list (string * Q)),
    (forall k v, In (k, v) d -> v = 0%Q) ->
    forall k v,
      In (k, v) (fold_left (fun d marker => Monitor.setitem d marker 0%Q) keys d) ->
      v = 0%Q.
Proof.
  assert (Hset : forall (d : list (string * Q)) key,
             (forall k v, In (k, v) d -> v = 0%Q) ->
             forall k v, In (k, v) (Monitor.setitem d key 0%Q) -> v = 0%Q).
  { induction d as [|[k0 v0] d IH]; simpl; intros key Hd k v Hin.
    - destruct Hin as [Hin|[]]. now inversion Hin.
    - destruct (String.eqb key k0); simpl in Hin; destruct Hin as [Hin|Hin].
      + now inversion Hin.
      + eapply Hd; right; eassumption.
      + eapply Hd; left; eassumption.
      + eapply IH; [|eassumption]. intros; eapply Hd; right; eassumption. }
  induction keys as [|key keys IH]; intros d Hd k v Hin; simpl in Hin.
  - eapply Hd; eassumption.
  - eapply IH; [|eassumption]. intros; eapply Hset; eassumption.
Qed.

(** ** The scorer's loop *)

Lemma score_loop_zero_distribution (items : list (string * Q)) :
  forall (d : list (string * Q)) (score : Q),
    (forall marker, In marker (map fst items) -> Monitor.getitem d marker = Ok 0%Q) ->
    exists s, Monitor.score_loop items d score = Ok s.
Proof.
  induction items as [|[marker target] items IH]; intros d score Hd; simpl.
  - eauto.
  - rewrite (Hd marker) by (simpl; auto). simpl.
    apply IH. intros; apply Hd; simpl; auto.
Qed.

Lemma score_loop_sum (items : list (string * Q)) :
  forall d score devs s,
    Spec.deviations items d = Ok devs ->
    Monitor.score_loop items d score = Ok s ->
    (s == score - Spec.Qsum devs * (1 # 10))%Q.
Proof.
  induction items as [|[marker target] items IH]; intros d score devs s Hdev Hs;
    cbn [Spec.deviations Monitor.score_loop] in *.
  - inversion Hdev; inversion Hs; subst; cbn [Spec.Qsum]. lra.
  - destruct (Monitor.getitem d marker) as [actual|e]; cbn [bind] in *; [|discriminate].
    destruct (Spec.deviations items d) as [rest|e] eqn:Erest; cbn [bind] in *;
      [|discriminate].
    replace devs with (Qabs (actual - target) :: rest) by congruence.
    cbn [Spec.Qsum]. rewrite (IH _ _ _ _ Erest Hs). ring.
Qed.

Lemma clamp_monotone (x y : Q) : (x <= y)%Q -> (Monitor.clamp x <= Monitor.clamp y)%Q.
Proof.
  intros H. unfold Monitor.clamp.
  apply Q.max_le_compat_l. now apply Q.min_le_compat_l.
Qed.

Lemma clamp_bounds (x : Q) : (0 <= Monitor.clamp x <= 10)%Q.
Proof.
  unfold Monitor.clamp. split.
  - apply Q.le_max_l.
  - apply Q.max_lub; [lra|apply Q.le_min_l].
Qed.

Lemma Qsum_app (l1 l2 : list Q) : (Spec.Qsum (l1 ++ l2) == Spec.Qsum l1 + Spec.Qsum l2)%Q.
Proof. induction l1 as [|x l1 IH]; simpl; [lra|rewrite IH; lra]. Qed.

Lemma Qsum_Forall2 (l1 l2 : list Q) : Forall2 Qeq l1 l2 -> (Spec.Qsum l1 == Spec.Qsum l2)%Q.
Proof. induction 1; simpl; [reflexivity|]. rewrite H, IHForall2. reflexivity. Qed.

Lemma deviations_score_loop (items : list (string * Q)) :
  forall d devs score,
    Spec.deviations items d = Ok devs ->
    exists s, Monitor.score_loop items d score = Ok s.
Proof.
  induction items as [|[marker target] items IH]; intros d devs score Hdev;
    cbn [Spec.deviations Monitor.score_loop] in *.
  - eauto.
  - destruct (Monitor.getitem d marker) as [actual|e]; cbn [bind] in *; [|discriminate].
    destruct (Spec.deviations items d) as [rest|e] eqn:Erest; cbn [bind] in *;
      [|discriminate].
    eapply IH; eassumption.
Qed.

Lemma truediv_nonzero (a b : Z) :
  (b <> 0)%Z -> Monitor.truediv a b = Ok (inject_Z a / inject_Z b)%Q.
Proof.
  intros Hb. unfold Monitor.truediv.
  destruct (Z.eqb_spec b 0); [contradiction|reflexivity].
Qed.

(** What [calculate_score] returns once its loop has returned [s0]: the
    clamped [s0] less a penalty that depends on the registry only. *)
Lemma calculate_score_after_loop (m : Monitor.TestPyramidMonitor) d s0 :
  Monitor.score_loop (Monitor.targets m) d 10%Q = Ok s0 ->
  Monitor.calculate_score m d
  = Ok (Monitor.clamp
          (if (0 <? Monitor.len (Monitor.all_tests m) - Monitor.categorized_count m)%Z
              && (0 <? Monitor.len (Monitor.all_tests m))%Z
           then (s0 - (inject_Z (Monitor.len (Monitor.all_tests m)
                                 - Monitor.categorized_count m)
                       / inject_Z (Monitor.len (Monitor.all_tests m)) * 100)
                      * (2 # 10))%Q
           else s0)).
Proof.
  intros Hs0. unfold Monitor.calculate_score. rewrite Hs0. cbn [bind].
  destruct ((0 <? Monitor.len (Monitor.all_tests m) - Monitor.categorized_count m)%Z
            && (0 <? Monitor.len (Monitor.all_tests m))%Z) eqn:G; [|reflexivity].
  apply andb_prop in G. destruct G as [_ G]. apply Z.ltb_lt in G.
  rewrite truediv_nonzero by lia. reflexivity.
Qed.

(** ** Tier sets that do not overlap *)

Lemma set_add_length_new (x : string) (s : str_set) :
  ~ In x s -> length (set_add string_dec x s) = S (length s).
Proof.
  induction s as [|y s IH]; intros Hnot; cbn; [reflexivity|].
  destruct (string_dec x y) as [->|Hne]; [exfalso; apply Hnot; now left|].
  cbn. rewrite IH; [reflexivity|]. intros Hin. apply Hnot. now right.
Qed.

Lemma set_union_length_disjoint (a b : str_set) :
  NoDup b ->
  (forall x, In x a -> ~ In x b) ->
  length (set_union string_dec a b) = length a + length b.
Proof.
  induction b as [|y b IH]; intros Hnd Hdis; cbn [set_union length]; [lia|].
  inversion Hnd as [|? ? Hy Hb]; subst.
  rewrite set_add_length_new.
  - rewrite IH; [lia|exact Hb|]. intros x Hx Hin. apply (Hdis x Hx). now right.
  - intros Hin. apply set_union_elim in Hin. destruct Hin as [Hin|Hin]; [|auto].
    apply (Hdis y Hin). now left.
Qed.

Lemma clamp_Qeq (x y : Q) : (x == y)%Q -> (Monitor.clamp x == Monitor.clamp y)%Q.
Proof.
  intros E. apply Qle_antisym; apply clamp_monotone; rewrite E; apply Qle_refl.
Qed.

(** When no test is in two tiers the sum of the tier sizes is the size of
    their union, and the scorer agrees with the formula of the
    specification. *)
Lemma calculate_score_without_overlap (m : Monitor.TestPyramidMonitor)
    (d : list (string * Q)) (tu ti te claimed : Q) :
  Monitor.targets m = [("unit", tu); ("integration", ti); ("e2e", te)] ->
  NoDup (Monitor.unit_tests (Monitor.tests_by_marker m)) ->
  NoDup (Monitor.integration_tests (Monitor.tests_by_marker m)) ->
  NoDup (Monitor.e2e_tests (Monitor.tests_by_marker m)) ->
  (forall x mk, In x (Monitor.tests_of (Monitor.tests_by_marker m) mk) ->
                In x (Monitor.all_tests m)) ->
  (forall x mk mk', mk <> mk' ->
                    In x (Monitor.tests_of (Monitor.tests_by_marker m) mk) ->
                    ~ In x (Monitor.tests_of (Monitor.tests_by_marker m) mk')) ->
  Spec.pyramid_score m d = Ok claimed ->
  exists s, Monitor.calculate_score m d = Ok s /\ (s == claimed)%Q.
Proof.
  intros Htargets Hu Hi He Hsub Hdis Hclaimed.
  set (U := Monitor.unit_tests (Monitor.tests_by_marker m)) in *.
  set (I := Monitor.integration_tests (Monitor.tests_by_marker m)) in *.
  set (E := Monitor.e2e_tests (Monitor.tests_by_marker m)) in *.
  assert (Ecat : Monitor.categorized_set m
                 = set_union string_dec
                     (set_union string_dec (set_union string_dec [] U) I) E)
    by reflexivity.
  assert (HinU : forall x, In x (set_union string_dec [] U) <-> In x U).
  { intros x. rewrite set_union_iff. cbn. tauto. }
  assert (Hlen : Monitor.len (Monitor.categorized_set m) = Monitor.categorized_count m).
  { unfold Monitor.categorized_count, Monitor.len. fold U I E. rewrite Ecat.
    rewrite !set_union_length_disjoint; cbn [length]; try assumption; try lia.
    - intros x [].
    - intros x Hx. apply HinU in Hx.
      apply (Hdis x Unit Integration); [discriminate|exact Hx].
    - intros x Hx. apply set_union_iff in Hx. destruct Hx as [Hx|Hx].
      + apply HinU in Hx. apply (Hdis x Unit E2e); [discriminate|exact Hx].
      + apply (Hdis x Integration E2e); [discriminate|exact Hx]. }
  assert (Hle : (Monitor.len (Monitor.categorized_set m)
                 <= Monitor.len (Monitor.all_tests m))%Z).
  { unfold Monitor.len. apply inj_le. apply NoDup_incl_length.
    - rewrite Ecat. repeat apply set_union_nodup; try assumption. constructor.
    - intros x Hx. rewrite Ecat in Hx.
      apply set_union_iff in Hx. destruct Hx as [Hx|Hx]; [|apply (Hsub x E2e Hx)].
      apply set_union_iff in Hx. destruct Hx as [Hx|Hx]; [|apply (Hsub x Integration Hx)].
      apply HinU in Hx. apply (Hsub x Unit Hx). }
  unfold Spec.pyramid_score, Spec.deviation in Hclaimed. rewrite Htargets in Hclaimed.
  cbn [marker_name] in Hclaimed.
  destruct (Monitor.getitem d "unit") as [au|] eqn:Eu; cbn [bind] in Hclaimed;
    [|discriminate].
  destruct (Monitor.getitem d "integration") as [ai|] eqn:Ei; cbn [bind] in Hclaimed;
    [|discriminate].
  destruct (Monitor.getitem d "e2e") as [ae|] eqn:Ee; cbn [bind] in Hclaimed;
    [|discriminate].
  cbn [Monitor.getitem String.eqb Ascii.eqb Bool.eqb bind] in Hclaimed.
  assert (Hloop : Monitor.score_loop (Monitor.targets m) d 10%Q
                  = Ok (10 - Qabs (au - tu) * (1 # 10) - Qabs (ai - ti) * (1 # 10)
                        - Qabs (ae - te) * (1 # 10))%Q).
  { rewrite Htargets. cbn [Monitor.score_loop]. rewrite Eu, Ei, Ee. reflexivity. }
  eexists. split; [apply (calculate_score_after_loop _ _ _ Hloop)|].
  replace claimed with
    (Monitor.clamp
       (10 - (Qabs (au - tu) * (1 # 10) + Qabs (ai - ti) * (1 # 10)
              + Qabs (ae - te) * (1 # 10))
        - Spec.uncategorized_percentage m * (2 # 10))%Q) by congruence.
  apply clamp_Qeq. unfold Spec.uncategorized_percentage. rewrite Hlen.
  set (total := Monitor.len (Monitor.all_tests m)) in *.
  set (cat := Monitor.categorized_count m) in *.
  destruct (Z.eqb_spec total 0) as [E0|Hne].
  - rewrite E0. replace (0 <? 0)%Z with false by reflexivity.
    rewrite andb_false_r. ring.
  - assert (Hpos : (0 <? total)%Z = true).
    { apply Z.ltb_lt. unfold total, Monitor.len in *. lia. }
    rewrite Hpos, andb_true_r.
    destruct (Z.ltb_spec 0 (total - cat)) as [Hlt|Hge].
    + unfold Qdiv. ring.
    + assert (Ezero : (total - cat = 0)%Z) by lia.
      rewrite Ezero. unfold Qdiv. ring.
Qed.

(** ** The scorer: C1, C8, C9 *)

(** C1.  The specification equates the scorer with the formula whose
    uncategorized percentage counts the tests outside the union of the tier
    sets.  The scorer instead subtracts the sum of the sizes of the tier sets,
    so a test in two tiers hides an unmarked one: on a file with one unmarked
    test and one test marked at class and at function level,
    [get_missing_markers_count] is 1, the formula of the specification gives
    the score 0 and [calculate_score] gives 10.  (Where no test is in two
    tiers the two agree: [calculate_score_without_overlap].) *)
Theorem C1_overlap_hides_uncategorized :
  let m := Monitor._parse_python_test_file Examples.overlap_file
             (Monitor.init Examples.overlap_targets) in
  Monitor.all_tests m
  = ["tests/test_overlap.py::TestBartest_b"; "tests/test_overlap.py::TestFootest_a"]
  /\ Monitor.tests_by_marker m
     = {| Monitor.unit_tests := ["tests/test_overlap.py::TestFootest_a"];
          Monitor.integration_tests := ["tests/test_overlap.py::TestFootest_a"];
          Monitor.e2e_tests := [] |}
  /\ Monitor.get_missing_markers_count m = 1
  /\ exists d code_score claimed_score,
       Monitor.calculate_distribution m = Ok d
       /\ Monitor.calculate_score m d = Ok code_score
       /\ Spec.pyramid_score m d = Ok claimed_score
       /\ (code_score == 10)%Q
       /\ (claimed_score == 0)%Q.
Proof.
  cbv zeta. split; [vm_compute; reflexivity|].
  split; [vm_compute; reflexivity|].
  split; [vm_compute; reflexivity|].
  eexists. eexists. eexists.
  split; [vm_compute; reflexivity|].
  split; [vm_compute; reflexivity|].
  split; [vm_compute; reflexivity|].
  split; vm_compute; reflexivity.
Qed.

(** C8.  With [all_tests] empty, [calculate_distribution] returns normally
    and every percentage in it is exactly 0, and [calculate_score] returns
    normally without subtracting anything for uncategorized tests (the
    percentage of the specification is 0): neither divides. *)
Theorem C8_empty_registry_no_division (m : Monitor.TestPyramidMonitor) :
  Monitor.all_tests m = [] ->
  exists d,
    Monitor.calculate_distribution m = Ok d
    /\ (forall marker, In marker (map fst (Monitor.targets m)) ->
                       Monitor.getitem d marker = Ok 0%Q)
    /\ (forall marker pct, In (marker, pct) d -> pct = 0%Q)
    /\ Spec.uncategorized_percentage m = 0%Q
    /\ exists s0,
         Monitor.score_loop (Monitor.targets m) d 10%Q = Ok s0
         /\ Monitor.calculate_score m d = Ok (Monitor.clamp s0).
Proof.
  intros Hall.
  exists (fold_left (fun d marker => Monitor.setitem d marker 0%Q)
            (map fst (Monitor.targets m)) []).
  assert (Hget : forall marker, In marker (map fst (Monitor.targets m)) ->
            Monitor.getitem
              (fold_left (fun d marker => Monitor.setitem d marker 0%Q)
                 (map fst (Monitor.targets m)) []) marker = Ok 0%Q).
  { intros marker Hin. apply zero_fill_getitem; [now left|].
    intros k'. right. reflexivity. }
  split; [unfold Monitor.calculate_distribution; rewrite Hall; reflexivity|].
  split; [exact Hget|].
  split; [apply zero_fill_values; intros k v []|].
  split; [unfold Spec.uncategorized_percentage; rewrite Hall; reflexivity|].
  destruct (score_loop_zero_distribution (Monitor.targets m) _ 10%Q Hget) as [s0 Hs0].
  exists s0. split; [exact Hs0|].
  rewrite (calculate_score_after_loop _ _ _ Hs0), Hall.
  cbn [length Monitor.len Z.of_nat Z.ltb Z.compare].
  now rewrite andb_false_r.
Qed.

Lemma C8_empty_registry_witness :
  Monitor.all_tests (Monitor.init []) = []
  /\ exists d,
       Monitor.calculate_distribution (Monitor.init []) = Ok d
       /\ (forall marker, In marker (map fst (Monitor.targets (Monitor.init []))) ->
                          Monitor.getitem d marker = Ok 0%Q)
       /\ (forall marker pct, In (marker, pct) d -> pct = 0%Q)
       /\ Spec.uncategorized_percentage (Monitor.init []) = 0%Q
       /\ exists s0,
            Monitor.score_loop (Monitor.targets (Monitor.init [])) d 10%Q = Ok s0
            /\ Monitor.calculate_score (Monitor.init []) d = Ok (Monitor.clamp s0).
Proof.
  split; [reflexivity|].
  apply (C8_empty_registry_no_division (Monitor.init [])). reflexivity.
Defined.

(** C9.  Two runs of the scorer on the same registry (so the same
    uncategorized percentage) whose tier deviations agree except for one tier,
    where the second run has the larger deviation: both return, and the second
    score is not above the first, the clamp to [0, 10] included. *)
Theorem C9_score_monotone_in_one_deviation
    (m m' : Monitor.TestPyramidMonitor) (d d' : list (string * Q))
    (before after before' after' : list Q) (dev dev' : Q) :
  Monitor.all_tests m' = Monitor.all_tests m ->
  Monitor.tests_by_marker m' = Monitor.tests_by_marker m ->
  Spec.deviations (Monitor.targets m) d = Ok (before ++ dev :: after) ->
  Spec.deviations (Monitor.targets m') d' = Ok (before' ++ dev' :: after') ->
  Forall2 Qeq before before' ->
  Forall2 Qeq after after' ->
  (dev <= dev')%Q ->
  exists s s',
    Monitor.calculate_score m d = Ok s
    /\ Monitor.calculate_score m' d' = Ok s'
    /\ (s' <= s)%Q
    /\ (0 <= s' <= 10)%Q /\ (0 <= s <= 10)%Q.
Proof.
  intros Hall Hby Hdev Hdev' Hbefore Hafter Hle.
  destruct (deviations_score_loop _ _ _ 10%Q Hdev) as [s0 Hs0].
  destruct (deviations_score_loop _ _ _ 10%Q Hdev') as [s0' Hs0'].
  pose proof (score_loop_sum _ _ _ _ _ Hdev Hs0) as E.
  pose proof (score_loop_sum _ _ _ _ _ Hdev' Hs0') as E'.
  rewrite Qsum_app in E, E'. cbn [Spec.Qsum] in E, E'.
  apply Qsum_Forall2 in Hbefore, Hafter.
  assert (Hs : (s0' <= s0)%Q) by (rewrite E, E', Hbefore, Hafter; lra).
  eexists. eexists.
  split; [apply (calculate_score_after_loop _ _ _ Hs0)|].
  split; [apply (calculate_score_after_loop _ _ _ Hs0')|].
  split; [|split; apply clamp_bounds].
  unfold Monitor.categorized_count. rewrite Hall, Hby.
  apply clamp_monotone.
  destruct (_ && _); lra.
Qed.

Lemma C9_score_monotone_witness :
  exists s s',
    Monitor.calculate_score (Monitor.init []) Examples.on_target = Ok s
    /\ Monitor.calculate_score (Monitor.init []) Examples.unit_short = Ok s'
    /\ (s' <= s)%Q
    /\ (0 <= s' <= 10)%Q /\ (0 <= s <= 10)%Q.
Proof.
  apply (C9_score_monotone_in_one_deviation
           (Monitor.init []) (Monitor.init [])
           Examples.on_target Examples.unit_short
           [] [Qabs (20 - 20); Qabs (10 - 10)] [] [Qabs (20 - 20); Qabs (10 - 10)]
           (Qabs (70 - 70)) (Qabs (60 - 70))).
  - reflexivity.
  - reflexivity.
  - reflexivity.
  - reflexivity.
  - constructor.
  - repeat constructor; reflexivity.
  - vm_compute. discriminate.
Defined.

(** ** Text *)

Lemma strip_prefix_Some (p : string) :
  forall s r, strip_prefix p s = Some r -> s = (p ++ r)%string.
Proof.
  induction p as [|a p IH]; intros s r H; simpl in *.
  - congruence.
  - destruct s as [|b s]; [discriminate|].
    destruct (Ascii.eqb_spec a b); [|discriminate].
    subst b. f_equal. now apply IH.
Qed.

Lemma strip_prefix_app (p r : string) : strip_prefix p (p ++ r) = Some r.
Proof. induction p as [|a p IH]; simpl; [reflexivity|]. now rewrite Ascii.eqb_refl. Qed.

Lemma take_drop_while (f : ascii -> bool) (s : string) :
  s = (take_while f s ++ drop_while f s)%string.
Proof.
  induction s as [|c s IH]; simpl; [reflexivity|].
  destruct (f c); simpl; [now rewrite <- IH|reflexivity].
Qed.

Lemma take_while_idem (f : ascii -> bool) (s : string) :
  take_while f (take_while f s) = take_while f s.
Proof.
  induction s as [|c s IH]; simpl; [reflexivity|].
  destruct (f c) eqn:E; simpl; [rewrite E, IH|]; reflexivity.
Qed.

Lemma is_empty_false (s : string) : is_empty s = false -> s <> EmptyString.
Proof. destruct s; simpl; congruence. Qed.

(** The lines a pattern of the shape "literal, then [\w+]" accepts. *)
Lemma literal_then_word_Some (lit keep line name : string) :
  Monitor.literal_then_word lit keep line = Some name ->
  exists w tail,
    line = (lit ++ w ++ tail)%string
    /\ name = (keep ++ w)%string
    /\ w <> EmptyString
    /\ take_while is_word w = w.
Proof.
  unfold Monitor.literal_then_word. intros H.
  destruct (strip_prefix lit line) as [rest|] eqn:E; [|discriminate].
  destruct (is_empty (take_while is_word rest)) eqn:Ew; [discriminate|].
  injection H as <-.
  exists (take_while is_word rest), (drop_while is_word rest).
  split; [|split; [reflexivity|split]].
  - rewrite <- take_drop_while. now apply strip_prefix_Some.
  - now apply is_empty_false.
  - apply take_while_idem.
Qed.

Lemma class_line_is_no_test (line name : string) :
  Monitor.class_match line = Some name ->
  Monitor.test_match line = None
  /\ startswith "@pytest.mark." (strip line) = false.
Proof.
  unfold Monitor.class_match. intros H.
  apply literal_then_word_Some in H. destruct H as (w & tail & -> & _).
  split; reflexivity.
Qed.

Lemma test_line_is_no_class (line name : string) :
  Monitor.test_match line = Some name ->
  Monitor.class_match line = None
  /\ startswith "@pytest.mark." (strip line) = false.
Proof.
  unfold Monitor.test_match. intros H.
  apply literal_then_word_Some in H. destruct H as (w & tail & -> & _).
  split; reflexivity.
Qed.

(** ** The convention-A loop of the monitor *)

Lemma on_plain_line (lines : list string) (i : nat) (line : string)
    (st : Monitor.scan_state) :
  Monitor.class_match line = None ->
  Monitor.search_marker line = None ->
  Monitor.on_decorator line (Monitor.on_class lines i line st) = st.
Proof.
  intros Hc Hm. unfold Monitor.on_class, Monitor.on_decorator. rewrite Hc, Hm.
  now destruct (startswith _ _).
Qed.

Lemma python_loop_plain (f : File) (lines : list string) (ls : list string) :
  forall i rest st m,
    Forall Spec.plain_line ls ->
    Monitor.python_loop f lines i (ls ++ rest) st m
    = Monitor.python_loop f lines (i + length ls) rest st m.
Proof.
  induction ls as [|l ls IH]; intros i rest st m Hplain.
  - simpl. now rewrite Nat.add_0_r.
  - inversion Hplain as [|? ? (Hc & Ht & Hm) Hrest]; subst.
    cbn [app Monitor.python_loop length]. rewrite Ht, on_plain_line by assumption.
    rewrite IH by assumption. f_equal. lia.
Qed.

(** Lines without test definitions leave the registry alone. *)
Lemma python_loop_no_tests (f : File) (lines : list string) (ls : list string) :
  forall i rest st m,
    Forall (fun l => Monitor.test_match l = None) ls ->
    exists st',
      Monitor.python_loop f lines i (ls ++ rest) st m
      = Monitor.python_loop f lines (i + length ls) rest st' m.
Proof.
  induction ls as [|l ls IH]; intros i rest st m Hno.
  - exists st. simpl. now rewrite Nat.add_0_r.
  - inversion Hno as [|? ? Ht Hrest]; subst.
    cbn [app Monitor.python_loop length]. rewrite Ht.
    destruct (IH (S i) rest
                (Monitor.on_decorator l (Monitor.on_class lines i l st)) m Hrest)
      as [st' E].
    exists st'. rewrite E. f_equal. lia.
Qed.

Lemma add_marker_same (mk : Marker) : Monitor.add_marker mk [mk] = [mk].
Proof. unfold Monitor.add_marker. simpl. now destruct (Marker_eq_dec mk mk). Qed.

Lemma lookback_fold_single (lines : list string) (mk : Marker) (js : list nat) :
  forall acc,
    (acc = [] \/ acc = [mk]) ->
    (forall j, In j js ->
       Monitor.search_marker (nth j lines EmptyString) = None
       \/ Monitor.search_marker (nth j lines EmptyString) = Some mk) ->
    let r := fold_left
               (fun acc j =>
                  match Monitor.search_marker (nth j lines EmptyString) with
                  | Some mk' => Monitor.add_marker mk' acc
                  | None => acc
                  end) js acc in
    (r = [] \/ r = [mk])
    /\ ((acc = [mk]
         \/ exists j, In j js /\ Monitor.search_marker (nth j lines EmptyString) = Some mk)
        -> r = [mk]).
Proof.
  induction js as [|j js IH]; intros acc Hacc Hjs; cbn [fold_left].
  - split; [exact Hacc|]. intros [H|(j & [] & _)]. exact H.
  - assert (Hstep :
      let acc' := match Monitor.search_marker (nth j lines EmptyString) with
                  | Some mk' => Monitor.add_marker mk' acc
                  | None => acc
                  end in
      (acc' = [] \/ acc' = [mk])
      /\ (acc = [mk] \/ Monitor.search_marker (nth j lines EmptyString) = Some mk
          -> acc' = [mk])).
    { destruct (Hjs j (or_introl eq_refl)) as [E|E]; rewrite E; cbv zeta.
      - split; [exact Hacc|]. intros [H|H]; [exact H|discriminate].
      - destruct Hacc as [->| ->].
        + split; [right; reflexivity|reflexivity].
        + rewrite add_marker_same. split; [now right|reflexivity]. }
    cbv zeta in Hstep. destruct Hstep as [Hacc' Hhit].
    destruct (IH _ Hacc' (fun j' Hj' => Hjs j' (or_intror Hj'))) as [Hr Hr'].
    split; [exact Hr|].
    intros [H|(j' & [->|Hin] & E)].
    + apply Hr'. left. apply Hhit. now left.
    + apply Hr'. left. apply Hhit. now right.
    + apply Hr'. right. eauto.
Qed.

Lemma class_lookback_single (lines : list string) (i : nat) (mk : Marker) :
  (forall j, i - 10 <= j -> j < i ->
     Monitor.search_marker (nth j lines EmptyString) = None
     \/ Monitor.search_marker (nth j lines EmptyString) = Some mk) ->
  (exists j, i - 10 <= j /\ j < i
             /\ Monitor.search_marker (nth j lines EmptyString) = Some mk) ->
  Monitor.class_lookback lines i = [mk].
Proof.
  intros Hall (j & Hlo & Hhi & Hj).
  unfold Monitor.class_lookback, Monitor.range.
  apply (lookback_fold_single lines mk (seq (i - 10) (i - (i - 10))) []).
  - now left.
  - intros j' Hin. apply in_seq in Hin. apply Hall; lia.
  - right. exists j. split; [apply in_seq; lia|exact Hj].
Qed.

Lemma nth_before_cases (pre gap rest : list string) (x : string) (j : nat) :
  j < length pre + 1 + length gap ->
  In (nth j (pre ++ x :: gap ++ rest) EmptyString) pre
  \/ (j = length pre /\ nth j (pre ++ x :: gap ++ rest) EmptyString = x)
  \/ In (nth j (pre ++ x :: gap ++ rest) EmptyString) gap.
Proof.
  intros Hj. destruct (Nat.lt_ge_cases j (length pre)) as [Hlt|Hge].
  - left. rewrite app_nth1 by assumption. now apply nth_In.
  - rewrite app_nth2 by assumption.
    destruct (j - length pre) as [|k] eqn:E.
    + right. left. split; [lia|reflexivity].
    + right. right. cbn [nth]. rewrite app_nth1 by lia. apply nth_In. lia.
Qed.

Lemma python_loop_class (f : File) (lines : list string) (i : nat) (l name : string)
    (rest : list string) (st : Monitor.scan_state) (m : Monitor.TestPyramidMonitor) :
  Monitor.class_match l = Some name ->
  Monitor.python_loop f lines i (l :: rest) st m
  = Monitor.python_loop f lines (S i) rest
      {| Monitor.class_markers := Monitor.class_lookback lines i;
         Monitor.function_markers := [];
         Monitor.current_class := Some name |} m.
Proof.
  intros Hc. destruct (class_line_is_no_test _ _ Hc) as [Ht Hd].
  cbn [Monitor.python_loop]. rewrite Ht.
  unfold Monitor.on_decorator, Monitor.on_class. now rewrite Hd, Hc.
Qed.

Lemma python_loop_decorator (f : File) (lines : list string) (i : nat) (l : string)
    (mk : Marker) (rest : list string) (st : Monitor.scan_state)
    (m : Monitor.TestPyramidMonitor) :
  Monitor.class_match l = None ->
  Monitor.test_match l = None ->
  startswith "@pytest.mark." (strip l) = true ->
  Monitor.search_marker l = Some mk ->
  Monitor.python_loop f lines i (l :: rest) st m
  = Monitor.python_loop f lines (S i) rest
      {| Monitor.class_markers := Monitor.class_markers st;
         Monitor.function_markers := Monitor.add_marker mk (Monitor.function_markers st);
         Monitor.current_class := Monitor.current_class st |} m.
Proof.
  intros Hc Ht Hd Hm. cbn [Monitor.python_loop]. rewrite Ht.
  unfold Monitor.on_decorator, Monitor.on_class. now rewrite Hc, Hd, Hm.
Qed.

Lemma python_loop_test (f : File) (lines : list string) (i : nat) (l name rel : string)
    (rest : list string) (st : Monitor.scan_state) (m : Monitor.TestPyramidMonitor) :
  Monitor.test_match l = Some name ->
  relative_to_root f = Ok rel ->
  Monitor.python_loop f lines i (l :: rest) st m
  = Monitor.python_loop f lines (S i) rest
      (Monitor.clear_function_markers st)
      (Monitor.register (Monitor.python_test_id rel (Monitor.current_class st) name)
         (Monitor.effective_markers st) m).
Proof.
  intros Ht Hrel. destruct (test_line_is_no_class _ _ Ht) as [Hc Hd].
  cbn [Monitor.python_loop]. rewrite Ht, Hrel.
  unfold Monitor.on_decorator, Monitor.on_class. now rewrite Hc, Hd.
Qed.

(** ** The convention-A extractor: C5 *)

(** C5.  A file whose lines are: a line carrying the [integration]
    annotation, fewer than ten lines, a Test-prefixed class declaration, a
    decorator line carrying [unit], a first test definition and a second test
    definition, with any plain lines in between and around.  The extractor
    classifies both tests as integration and the first one also as unit: the
    class markers found in the ten lines before the declaration, united with
    the function markers met since the previous test.  No test is
    uncategorized. *)
Theorem C5_class_and_function_markers_union
    (f : File) (rel content : string) (tgts : list (string * Q))
    (pre gap mid0 mid1 mid2 post : list string)
    (ann cls dec t1 t2 cname n1 n2 : string) :
  read_text f = Ok content ->
  relative_to_root f = Ok rel ->
  split_lines content
  = pre ++ ann :: gap ++ cls :: mid0 ++ dec :: mid1 ++ t1 :: mid2 ++ t2 :: post ->
  Forall Spec.plain_line pre -> Forall Spec.plain_line gap ->
  Forall Spec.plain_line mid0 -> Forall Spec.plain_line mid1 ->
  Forall Spec.plain_line mid2 -> Forall Spec.plain_line post ->
  Monitor.search_marker ann = Some Integration ->
  Monitor.test_match ann = None ->
  length gap < 10 ->
  Monitor.class_match cls = Some cname ->
  startswith "@pytest.mark." (strip dec) = true ->
  Monitor.search_marker dec = Some Unit ->
  Monitor.class_match dec = None ->
  Monitor.test_match dec = None ->
  Monitor.test_match t1 = Some n1 ->
  Monitor.test_match t2 = Some n2 ->
  let m := Monitor._parse_python_test_file f (Monitor.init tgts) in
  let id1 := Monitor.python_test_id rel (Some cname) n1 in
  let id2 := Monitor.python_test_id rel (Some cname) n2 in
  Monitor.all_tests m = add id2 [id1]
  /\ Monitor.integration_tests (Monitor.tests_by_marker m) = add id2 [id1]
  /\ Monitor.unit_tests (Monitor.tests_by_marker m) = [id1]
  /\ Monitor.e2e_tests (Monitor.tests_by_marker m) = []
  /\ Monitor.get_missing_markers_count m = 0
  /\ Monitor.stderr m = [].
Proof.
  intros Hread Hrel Hsplit Hpre Hgap Hmid0 Hmid1 Hmid2 Hpost
         Hann Hann_t Hlen Hcls Hdec_d Hdec_m Hdec_c Hdec_t Ht1 Ht2 m id1 id2.
  assert (Em : m = Monitor.register id2 [Integration]
                     (Monitor.register id1 [Integration; Unit] (Monitor.init tgts))).
  { unfold m, Monitor._parse_python_test_file. rewrite Hread, Hsplit.
    set (lines :=
           pre ++ ann :: gap ++ cls :: mid0 ++ dec :: mid1 ++ t1 :: mid2 ++ t2 :: post).
    set (tail := cls :: mid0 ++ dec :: mid1 ++ t1 :: mid2 ++ t2 :: post).
    assert (Elines : lines = (pre ++ ann :: gap) ++ tail).
    { unfold lines, tail. now rewrite <- app_assoc. }
    assert (Hno : Forall (fun l => Monitor.test_match l = None) (pre ++ ann :: gap)).
    { apply Forall_app. split; [|constructor; [exact Hann_t|]].
      - eapply Forall_impl; [|exact Hpre]. intros l (_ & H & _). exact H.
      - eapply Forall_impl; [|exact Hgap]. intros l (_ & H & _). exact H. }
    rewrite Elines at 2.
    destruct (python_loop_no_tests f lines _ 0 tail Monitor.initial_scan
                (Monitor.init tgts) Hno) as [st0 ->].
    unfold tail.
    rewrite (python_loop_class _ _ _ _ _ _ _ _ Hcls).
    assert (Hlook : Monitor.class_lookback lines (0 + length (pre ++ ann :: gap))
                    = [Integration]).
    { rewrite length_app. cbn [length plus].
      apply class_lookback_single.
      - intros j _ Hj. unfold lines.
        destruct (nth_before_cases pre gap
                    (cls :: mid0 ++ dec :: mid1 ++ t1 :: mid2 ++ t2 :: post) ann j)
          as [Hin|[[_ ->]|Hin]]; [lia| | |].
        + left. rewrite Forall_forall in Hpre. apply (Hpre _ Hin).
        + now right.
        + left. rewrite Forall_forall in Hgap. apply (Hgap _ Hin).
      - exists (length pre). split; [lia|]. split; [lia|].
        unfold lines. rewrite app_nth2 by lia. rewrite Nat.sub_diag. exact Hann. }
    rewrite Hlook.
    rewrite python_loop_plain by assumption.
    rewrite (python_loop_decorator _ _ _ _ _ _ _ _ Hdec_c Hdec_t Hdec_d Hdec_m).
    rewrite python_loop_plain by assumption.
    rewrite (python_loop_test _ _ _ _ _ _ _ _ _ Ht1 Hrel).
    rewrite python_loop_plain by assumption.
    rewrite (python_loop_test _ _ _ _ _ _ _ _ _ Ht2 Hrel).
    rewrite <- (app_nil_r post), python_loop_plain by assumption.
    reflexivity. }
  rewrite Em. clear Em m.
  unfold Monitor.get_missing_markers_count, Monitor.categorized_set, add.
  cbn -[string_dec id1 id2].
  destruct (string_dec id2 id1) as [E|E]; cbn -[string_dec id1 id2];
    repeat (match goal with
            | |- context [string_dec ?a ?a] =>
                destruct (string_dec a a); [|congruence]
            | |- context [string_dec ?a ?b] =>
                destruct (string_dec a b); [congruence|]
            end; cbn -[string_dec id1 id2]);
    repeat split; reflexivity.
Qed.

Lemma C5_class_and_function_markers_witness :
  let m := Monitor._parse_python_test_file Examples.scenario1_file (Monitor.init []) in
  Monitor.all_tests m
  = add "tests/test_scenario1.py::TestFootest_b" ["tests/test_scenario1.py::TestFootest_a"]
  /\ Monitor.integration_tests (Monitor.tests_by_marker m)
     = add "tests/test_scenario1.py::TestFootest_b" ["tests/test_scenario1.py::TestFootest_a"]
  /\ Monitor.unit_tests (Monitor.tests_by_marker m)
     = ["tests/test_scenario1.py::TestFootest_a"]
  /\ Monitor.e2e_tests (Monitor.tests_by_marker m) = []
  /\ Monitor.get_missing_markers_count m = 0
  /\ Monitor.stderr m = [].
Proof.
  apply (C5_class_and_function_markers_union
           Examples.scenario1_file "tests/test_scenario1.py"
           ("import pytest" ++ Examples.nl ++ Examples.nl
            ++ "@pytest.mark.integration" ++ Examples.nl
            ++ "class TestFoo:" ++ Examples.nl
            ++ "    @pytest.mark.unit" ++ Examples.nl
            ++ "    def test_a(self):" ++ Examples.nl
            ++ "        pass" ++ Examples.nl
            ++ Examples.nl
            ++ "    def test_b(self):" ++ Examples.nl
            ++ "        pass" ++ Examples.nl)%string
           []
           ["import pytest"; EmptyString] [] [] [] ["        pass"; EmptyString]
           ["        pass"; EmptyString]
           "@pytest.mark.integration" "class TestFoo:" "    @pytest.mark.unit"
           "    def test_a(self):" "    def test_b(self):" "TestFoo" "test_a" "test_b");
    try reflexivity;
    try (repeat (constructor; [repeat split; reflexivity|]); constructor).
  simpl. lia.
Defined.

(** ** The validator's loop *)

Lemma no_marker_empty : Spec.no_marker EmptyString.
Proof. intros []; reflexivity. Qed.

Lemma add_markers_in_no_marker (l : string) (acc : Validator.marker_set) :
  Spec.no_marker l -> Validator.add_markers_in l acc = acc.
Proof.
  intros H. pose proof (H Unit) as HU. pose proof (H Integration) as HI.
  pose proof (H E2e) as HE.
  unfold Validator.add_markers_in, Validator.PYRAMID_MARKERS, all_markers.
  cbn [fold_left]. now rewrite HU, HI, HE.
Qed.





(** The list of violations does not depend on the counters. *)
Lemma validate_loop_found_indep (lines : list string) (todo : list string) :
  forall i st found v v0,
    fst (Validator.validate_loop lines i todo st found v)
    = fst (Validator.validate_loop lines i todo st found v0).
Proof.
  induction todo as [|l todo IH]; intros i st found v v0; [reflexivity|].
  cbn [Validator.validate_loop].
  destruct (Monitor.class_match l); [apply IH|].
  destruct (Monitor.test_match l); [|apply IH].
  destruct (Validator.effective_markers _); apply IH.
Qed.

Lemma validate_loop_entries (lines : list string) (todo : list string) :
  forall i st found v,
    Validator.violations (snd (Validator.validate_loop lines i todo st found v))
    = Validator.violations v.
Proof.
  induction todo as [|l todo IH]; intros i st found v; [reflexivity|].
  cbn [Validator.validate_loop].
  destruct (Monitor.class_match l); [apply IH|].
  destruct (Monitor.test_match l); [|apply IH].
  destruct (Validator.effective_markers _); rewrite IH; reflexivity.
Qed.

Lemma validate_file_violations (f : File) (v : Validator.TestMarkerValidator) :
  snd (fst (Validator.validate_file f v)) = Spec.file_violations f.
Proof.
  unfold Spec.file_violations, Validator.validate_file.
  destruct (negb (file_exists f)); [reflexivity|].
  destruct (read_text f) as [content|e]; [|reflexivity].
  pose proof (validate_loop_found_indep (split_lines content) (split_lines content)
                1 Validator.initial_scan [] v Validator.init) as E.
  destruct (Validator.validate_loop _ 1 _ _ [] v) as [found v'].
  destruct (Validator.validate_loop _ 1 _ _ [] Validator.init) as [found0 v0].
  exact E.
Qed.

Lemma validate_file_flag (f : File) (v : Validator.TestMarkerValidator) :
  fst (fst (Validator.validate_file f v)) = true
  <-> snd (fst (Validator.validate_file f v)) = [].
Proof.
  unfold Validator.validate_file.
  destruct (negb (file_exists f)); [cbn; split; discriminate|].
  destruct (read_text f) as [content|e]; [|cbn; split; discriminate].
  destruct (Validator.validate_loop _ 1 _ _ [] v) as [found v']. cbn.
  destruct found; cbn; split; congruence.
Qed.

Lemma validate_file_entries (f : File) (v : Validator.TestMarkerValidator) :
  Validator.violations (snd (Validator.validate_file f v)) = Validator.violations v.
Proof.
  unfold Validator.validate_file.
  destruct (negb (file_exists f)); [reflexivity|].
  destruct (read_text f) as [content|e]; [|reflexivity].
  pose proof (validate_loop_entries (split_lines content) (split_lines content)
                1 Validator.initial_scan [] v) as E.
  destruct (Validator.validate_loop _ 1 _ _ [] v) as [found v']. exact E.
Qed.

Lemma setitem_not_nil {A : Type} (d : list (string * A)) k v :
  Monitor.setitem d k v <> [].
Proof. destruct d as [|[k' v'] d]; cbn; [|destruct (String.eqb k k')]; discriminate. Qed.

Lemma validate_files_from_spec (files : list File) :
  forall all_valid v,
    let r := Validator.validate_files_from all_valid files v in
    (fst r = true
     <-> all_valid = true /\ forall f, In f files -> Spec.file_violations f = [])
    /\ (Validator.violations (snd r) = []
        <-> Validator.violations v = []
            /\ forall f, In f files -> Spec.file_violations f = []).
Proof.
  induction files as [|f files IH]; intros all_valid v; cbv zeta.
  - cbn. split; (split; [intros H; split; [exact H|intros f []]|intros [H _]; exact H]).
  - cbn [Validator.validate_files_from].
    pose proof (validate_file_violations f v) as Hfound.
    pose proof (validate_file_flag f v) as Hflag.
    pose proof (validate_file_entries f v) as Hentries.
    destruct (Validator.validate_file f v) as [[is_valid found] v1].
    cbn [fst snd] in Hfound, Hflag, Hentries.
    destruct is_valid; cbn [negb].
    + assert (Hnil : Spec.file_violations f = []) by (rewrite <- Hfound; now apply Hflag).
      destruct (IH all_valid v1) as [IH1 IH2]. rewrite Hentries in IH2.
      split.
      * rewrite IH1. split; intros [Ha Hfs]; (split; [exact Ha|]).
        -- intros f' [<-|Hin]; auto.
        -- intros f' Hin; apply Hfs; now right.
      * rewrite IH2. split; intros [Ha Hfs]; (split; [exact Ha|]).
        -- intros f' [<-|Hin]; auto.
        -- intros f' Hin; apply Hfs; now right.
    + assert (Hnot : Spec.file_violations f <> []).
      { rewrite <- Hfound. intros E. apply Hflag in E. discriminate. }
      destruct (IH false (Validator.record_violations (Validator.report_key f) found v1))
        as [IH1 IH2].
      split.
      * rewrite IH1. split; [intros [? _]; discriminate|].
        intros [_ Hfs]. exfalso. apply Hnot, Hfs. now left.
      * rewrite IH2. split.
        -- intros [E _]. exfalso. cbn in E. exact (setitem_not_nil _ _ _ E).
        -- intros [_ Hfs]. exfalso. apply Hnot, Hfs. now left.
Qed.

Lemma count_test_lines_cons (l : string) (ls : list string) :
  Spec.count_test_lines (l :: ls)
  = (match Monitor.test_match l with Some _ => 1 | None => 0 end)
    + Spec.count_test_lines ls.
Proof.
  unfold Spec.count_test_lines. cbn [filter].
  now destruct (Monitor.test_match l).
Qed.

Lemma validate_loop_counters (lines : list string) (todo : list string) :
  forall i st found v,
    let r := Validator.validate_loop lines i todo st found v in
    Validator.total_tests_checked (snd r)
    = Validator.total_tests_checked v + Spec.count_test_lines todo
    /\ Validator.total_violations (snd r) + length found
       = Validator.total_violations v + length (fst r)
    /\ length (fst r) <= length found + Spec.count_test_lines todo.
Proof.
  induction todo as [|l todo IH]; intros i st found v; cbv zeta.
  - cbn. lia.
  - cbn [Validator.validate_loop]. rewrite count_test_lines_cons.
    destruct (Monitor.class_match l) as [name|] eqn:Hc.
    + destruct (class_line_is_no_test _ _ Hc) as [-> _]. apply IH.
    + destruct (Monitor.test_match l) as [test_name|]; [|apply IH].
      destruct (Validator.effective_markers _).
      * match goal with
        | |- context [Validator.validate_loop lines (S i) todo ?st' ?found' ?v'] =>
            destruct (IH (S i) st' found' v') as (IH1 & IH2 & IH3)
        end.
        rewrite length_app in IH2, IH3. cbn in IH1, IH2, IH3 |- *. lia.
      * match goal with
        | |- context [Validator.validate_loop lines (S i) todo ?st' ?found' ?v'] =>
            destruct (IH (S i) st' found' v') as (IH1 & IH2 & IH3)
        end.
        cbn in IH1, IH2, IH3 |- *. lia.
Qed.




(** ** The validator: C6 *)



(** ** Test definitions are recognised at one indentation only *)

Lemma register_all_tests (tid : string) (mks : list Marker)
    (m : Monitor.TestPyramidMonitor) (id : string) :
  In id (Monitor.all_tests (Monitor.register tid mks m))
  <-> id = tid \/ In id (Monitor.all_tests m).
Proof.
  cbn [Monitor.register Monitor.with_registry Monitor.all_tests]. unfold add.
  rewrite set_add_iff. tauto.
Qed.

Lemma python_loop_all_tests (f : File) (lines : list string) (todo : list string) :
  forall i st m id,
    In id (Monitor.all_tests (fst (Monitor.python_loop f lines i todo st m))) ->
    In id (Monitor.all_tests m)
    \/ exists line cls name rel,
         In line todo
         /\ Monitor.test_match line = Some name
         /\ relative_to_root f = Ok rel
         /\ id = Monitor.python_test_id rel cls name.
Proof.
  induction todo as [|l todo IH]; intros i st m id Hin; [now left|].
  cbn [Monitor.python_loop] in Hin.
  destruct (Monitor.test_match l) as [name|] eqn:Ht.
  - destruct (relative_to_root f) as [rel|e] eqn:Hrel; [|now left].
    apply IH in Hin. destruct Hin as [Hin|(line & cls & name' & rel' & H1 & H2 & H3 & H4)].
    + apply register_all_tests in Hin. destruct Hin as [->|Hin]; [|now left].
      right. exists l. eexists. exists name, rel.
      split; [now left|]. split; [exact Ht|]. split; reflexivity.
    + right. exists line, cls, name', rel'. split; [now right|]. now rewrite <- H3.
  - apply IH in Hin. destruct Hin as [Hin|(line & cls & name' & rel' & H1 & H2)];
      [now left|].
    right. exists line, cls, name', rel'. split; [now right|exact H2].
Qed.

Lemma validate_loop_messages (lines : list string) (todo : list string) :
  forall i st found v,
    exists new,
      fst (Validator.validate_loop lines i todo st found v) = found ++ new
      /\ Forall
           (fun msg =>
              exists k line cls name,
                nth_error todo k = Some line
                /\ Monitor.test_match line = Some name
                /\ msg = Validator.violation_message (i + k)
                           (Validator.location cls name))
           new.
Proof.
  induction todo as [|l todo IH]; intros i st found v.
  - exists []. cbn. rewrite app_nil_r. split; [reflexivity|constructor].
  - assert (Hshift : forall new,
              Forall
                (fun msg =>
                   exists k line cls name,
                     nth_error todo k = Some line
                     /\ Monitor.test_match line = Some name
                     /\ msg = Validator.violation_message (S i + k)
                                (Validator.location cls name)) new ->
              Forall
                (fun msg =>
                   exists k line cls name,
                     nth_error (l :: todo) k = Some line
                     /\ Monitor.test_match line = Some name
                     /\ msg = Validator.violation_message (i + k)
                                (Validator.location cls name)) new).
    { intros new Hnew. eapply Forall_impl; [|exact Hnew].
      intros msg (k & line & cls & name & H1 & H2 & H3).
      exists (S k), line, cls, name. split; [exact H1|]. split; [exact H2|].
      rewrite H3. f_equal. lia. }
    cbn [Validator.validate_loop].
    destruct (Monitor.class_match l) as [cname|].
    + destruct (IH (S i)
                  {| Validator.current_class := Some cname;
                     Validator.class_markers := Validator.class_lookback lines i;
                     Validator.pending_markers := [] |} found v) as (new & E & Hnew).
      exists new. split; [exact E|now apply Hshift].
    + destruct (Monitor.test_match l) as [name|] eqn:Ht.
      * destruct (Validator.effective_markers _).
        -- match goal with
           | |- context [Validator.validate_loop lines (S i) todo ?st' (found ++ [?msg]) ?v'] =>
               destruct (IH (S i) st' (found ++ [msg]) v') as (new & E & Hnew);
               exists (msg :: new)
           end.
           split; [rewrite E, <- app_assoc; reflexivity|].
           constructor; [|now apply Hshift].
           exists 0, l. eexists. exists name.
           split; [reflexivity|]. split; [exact Ht|]. now rewrite Nat.add_0_r.
        -- match goal with
           | |- context [Validator.validate_loop lines (S i) todo ?st' found ?v'] =>
               destruct (IH (S i) st' found v') as (new & E & Hnew)
           end.
           exists new. split; [exact E|now apply Hshift].
      * destruct (IH (S i) (Validator.on_decorator l st) found v) as (new & E & Hnew).
        exists new. split; [exact E|now apply Hshift].
Qed.

Lemma misindented_is_no_test (k : nat) (rest : string) :
  k <> 4 -> Monitor.test_match (Spec.indent k ++ "def " ++ rest) = None.
Proof.
  intros Hk. destruct k as [|[|[|[|[|k]]]]]; try reflexivity. congruence.
Qed.

(** C10.  A line is a test definition for the extractor and for the
    validator only if it consists of exactly four blanks, [def test_] and at
    least one word character; [def] at any other indentation is not.  For
    every readable file, whatever markers it contains, each identifier the
    extractor adds comes from such a line, the validator counts exactly such
    lines as tests checked, and each violation it reports points at such a
    line. *)
Theorem C10_tests_only_at_four_blanks
    (f : File) (content : string) (m : Monitor.TestPyramidMonitor)
    (v : Validator.TestMarkerValidator) :
  file_exists f = true ->
  read_text f = Ok content ->
  let lines := split_lines content in
  let checked := Validator.validate_file f v in
  (forall line name,
      Monitor.test_match line = Some name ->
      exists w tail,
        line = ("    def test_" ++ w ++ tail)%string
        /\ name = ("test_" ++ w)%string
        /\ w <> EmptyString
        /\ take_while is_word w = w)
  /\ (forall k rest,
         k <> 4 -> Monitor.test_match (Spec.indent k ++ "def " ++ rest) = None)
  /\ (forall id,
         In id (Monitor.all_tests (Monitor._parse_python_test_file f m)) ->
         In id (Monitor.all_tests m)
         \/ exists line cls name rel,
              In line lines
              /\ Monitor.test_match line = Some name
              /\ relative_to_root f = Ok rel
              /\ id = Monitor.python_test_id rel cls name)
  /\ Validator.total_tests_checked (snd checked)
     = Validator.total_tests_checked v + Spec.count_test_lines lines
  /\ Validator.total_violations (snd checked)
     = Validator.total_violations v + length (snd (fst checked))
  /\ length (snd (fst checked)) <= Spec.count_test_lines lines
  /\ Forall
       (fun msg =>
          exists k line cls name,
            nth_error lines k = Some line
            /\ Monitor.test_match line = Some name
            /\ msg = Validator.violation_message (S k) (Validator.location cls name))
       (snd (fst checked)).
Proof.
  intros Hex Hread lines checked.
  split; [intros line name H; now apply literal_then_word_Some in H|].
  split; [apply misindented_is_no_test|].
  split.
  - intros id Hin. unfold Monitor._parse_python_test_file in Hin.
    rewrite Hread in Hin. fold lines in Hin.
    apply (python_loop_all_tests f lines lines 0 Monitor.initial_scan m id).
    destruct (Monitor.python_loop f lines 0 lines Monitor.initial_scan m) as [m' [e|]];
      exact Hin.
  - unfold checked, Validator.validate_file. rewrite Hex, Hread. cbn [negb].
    fold lines.
    destruct (validate_loop_counters lines lines 1 Validator.initial_scan [] v)
      as (H1 & H2 & H3).
    destruct (validate_loop_messages lines lines 1 Validator.initial_scan [] v)
      as (new & E & Hnew).
    destruct (Validator.validate_loop lines 1 lines Validator.initial_scan [] v)
      as [found v'].
    cbn [fst snd length app] in *. subst new.
    split; [exact H1|]. split; [lia|]. split; [lia|exact Hnew].
Qed.

Lemma C10_tests_only_at_four_blanks_witness :
  Validator.total_tests_checked
    (snd (Validator.validate_file Examples.scenario4_file Validator.init))
  = 0 + Spec.count_test_lines
          (split_lines
             ("import os" ++ Examples.nl ++ Examples.nl
              ++ "class TestBare:" ++ Examples.nl
              ++ "    def test_nothing(self):" ++ Examples.nl
              ++ "        assert True" ++ Examples.nl)).
Proof.
  apply (C10_tests_only_at_four_blanks
           Examples.scenario4_file
           ("import os" ++ Examples.nl ++ Examples.nl
            ++ "class TestBare:" ++ Examples.nl
            ++ "    def test_nothing(self):" ++ Examples.nl
            ++ "        assert True" ++ Examples.nl)%string
           (Monitor.init []) Validator.init); reflexivity.
Defined.

(** ** Files that cannot be read *)

Lemma python_loop_no_relative (f : File) (lines : list string) (e : exn)
    (todo : list string) :
  relative_to_root f = Raise e ->
  forall i st m,
    Monitor.python_loop f lines i todo st m = (m, None)
    \/ Monitor.python_loop f lines i todo st m = (m, Some e).
Proof.
  intros Hrel. induction todo as [|l todo IH]; intros i st m; [now left|].
  cbn [Monitor.python_loop]. rewrite Hrel.
  destruct (Monitor.test_match l); [now right|apply IH].
Qed.

Lemma register_same_registry (tid : string) (mks : list Marker)
    (m1 m2 : Monitor.TestPyramidMonitor) :
  Spec.same_registry m1 m2 ->
  Spec.same_registry (Monitor.register tid mks m1) (Monitor.register tid mks m2).
Proof.
  intros [Ha Hb]. unfold Spec.same_registry, Monitor.register, Monitor.with_registry.
  cbn. now rewrite Ha, Hb.
Qed.

Lemma python_loop_same_registry (f : File) (lines : list string) (todo : list string) :
  forall i st m1 m2,
    Spec.same_registry m1 m2 ->
    Spec.same_registry (fst (Monitor.python_loop f lines i todo st m1))
                       (fst (Monitor.python_loop f lines i todo st m2)).
Proof.
  induction todo as [|l todo IH]; intros i st m1 m2 Hsame; [exact Hsame|].
  cbn [Monitor.python_loop].
  destruct (Monitor.test_match l); [|now apply IH].
  destruct (relative_to_root f); [|exact Hsame].
  apply IH. now apply register_same_registry.
Qed.

Lemma same_registry_warn (m : Monitor.TestPyramidMonitor) (f : File) (e : exn) :
  Spec.same_registry (Monitor.warn m f e) m.
Proof. split; reflexivity. Qed.

Lemma same_registry_trans (m1 m2 m3 : Monitor.TestPyramidMonitor) :
  Spec.same_registry m1 m2 -> Spec.same_registry m2 m3 -> Spec.same_registry m1 m3.
Proof. intros [A B] [C D]. split; congruence. Qed.

Lemma same_registry_sym (m1 m2 : Monitor.TestPyramidMonitor) :
  Spec.same_registry m1 m2 -> Spec.same_registry m2 m1.
Proof. intros [A B]. split; congruence. Qed.

Lemma parse_python_same_registry (f : File) (m1 m2 : Monitor.TestPyramidMonitor) :
  Spec.same_registry m1 m2 ->
  Spec.same_registry (Monitor._parse_python_test_file f m1)
                     (Monitor._parse_python_test_file f m2).
Proof.
  intros Hsame. unfold Monitor._parse_python_test_file.
  destruct (read_text f) as [content|e].
  - pose proof (python_loop_same_registry f (split_lines content) (split_lines content)
                  0 Monitor.initial_scan m1 m2 Hsame) as H.
    destruct (Monitor.python_loop f _ 0 _ _ m1) as [m1' o1].
    destruct (Monitor.python_loop f _ 0 _ _ m2) as [m2' o2].
    cbn [fst] in H.
    assert (H1 : Spec.same_registry
                   (match o1 with Some e => Monitor.warn m1' f e | None => m1' end) m1').
    { destruct o1; [apply same_registry_warn|split; reflexivity]. }
    assert (H2 : Spec.same_registry
                   (match o2 with Some e => Monitor.warn m2' f e | None => m2' end) m2').
    { destruct o2; [apply same_registry_warn|split; reflexivity]. }
    eapply same_registry_trans; [exact H1|].
    eapply same_registry_trans; [exact H|]. now apply same_registry_sym.
  - eapply same_registry_trans; [apply same_registry_warn|].
    eapply same_registry_trans; [exact Hsame|].
    apply same_registry_sym, same_registry_warn.
Qed.

Lemma collect_python_same_registry (files : list File) :
  forall m1 m2,
    Spec.same_registry m1 m2 ->
    Spec.same_registry (Monitor.collect_python_files files m1)
                       (Monitor.collect_python_files files m2).
Proof.
  induction files as [|f files IH]; intros m1 m2 Hsame; [exact Hsame|].
  cbn. apply IH. now apply parse_python_same_registry.
Qed.

(** A file that cannot be read, or whose identifier cannot be formed, leaves
    the monitor as it was, up to one warning. *)
Lemma parse_python_failing (f : File) (m : Monitor.TestPyramidMonitor) :
  (exists e, read_text f = Raise e) \/ (exists e, relative_to_root f = Raise e) ->
  Monitor._parse_python_test_file f m = m
  \/ exists e, Monitor._parse_python_test_file f m = Monitor.warn m f e.
Proof.
  unfold Monitor._parse_python_test_file.
  intros [[e Hread]|[e Hrel]].
  - rewrite Hread. right. now exists e.
  - destruct (read_text f) as [content|e']; [|right; now exists e'].
    destruct (python_loop_no_relative f (split_lines content) e (split_lines content)
                Hrel 0 Monitor.initial_scan m) as [-> | ->];
      [now left|right; now exists e].
Qed.

Lemma collect_python_app (files1 files2 : list File) (m : Monitor.TestPyramidMonitor) :
  Monitor.collect_python_files (files1 ++ files2) m
  = Monitor.collect_python_files files2 (Monitor.collect_python_files files1 m).
Proof. apply fold_left_app. Qed.

(** The validator *)








Lemma validate_files_from_app (files1 files2 : list File) :
  forall b v,
    Validator.validate_files_from b (files1 ++ files2) v
    = Validator.validate_files_from
        (fst (Validator.validate_files_from b files1 v)) files2
        (snd (Validator.validate_files_from b files1 v)).
Proof.
  induction files1 as [|f files1 IH]; intros b v; [reflexivity|].
  cbn [app Validator.validate_files_from].
  destruct (Validator.validate_file f v) as [[ok found] v'].
  destruct (negb ok); apply IH.
Qed.


(** ** Files that fail: C7 *)



(** ** The two class-level lookbacks *)

Lemma marker_at_None (s : string) :
  Monitor.marker_at s = None
  <-> forall mk, startswith ("@pytest.mark." ++ marker_name mk) s = false.
Proof.
  unfold Monitor.marker_at. split.
  - intros H mk.
    destruct (startswith "@pytest.mark.unit" s) eqn:EU; [discriminate|].
    destruct (startswith "@pytest.mark.integration" s) eqn:EI; [discriminate|].
    destruct (startswith "@pytest.mark.e2e" s) eqn:EE; [discriminate|].
    destruct mk; assumption.
  - intros H. pose proof (H Unit) as HU. pose proof (H Integration) as HI.
    pose proof (H E2e) as HE. cbn [append marker_name] in HU, HI, HE.
    now rewrite HU, HI, HE.
Qed.

Lemma search_marker_None (s : string) :
  Monitor.search_marker s = None <-> Spec.no_marker s.
Proof.
  unfold Spec.no_marker. induction s as [|c s IH].
  - split; [intros _ []; reflexivity|reflexivity].
  - cbn [Monitor.search_marker contains]. split.
    + intros H mk.
      destruct (Monitor.marker_at (String c s)) eqn:E; [discriminate|].
      rewrite (proj1 (marker_at_None _) E mk). cbn [orb].
      now apply IH.
    + intros H.
      assert (E : Monitor.marker_at (String c s) = None).
      { apply marker_at_None. intros mk. specialize (H mk).
        now apply orb_false_elim in H. }
      rewrite E. apply IH. intros mk. specialize (H mk).
      now apply orb_false_elim in H.
Qed.

Lemma add_marker_not_nil (mk : Marker) (acc : Monitor.marker_set) :
  Monitor.add_marker mk acc <> [].
Proof.
  unfold Monitor.add_marker. destruct acc as [|x acc]; cbn; [discriminate|].
  destruct (Marker_eq_dec mk x); discriminate.
Qed.

Lemma monitor_lookback_fold_nil (lines : list string) (js : list nat) :
  forall acc,
    fold_left
      (fun acc j =>
         match Monitor.search_marker (nth j lines EmptyString) with
         | Some mk => Monitor.add_marker mk acc
         | None => acc
         end) js acc = []
    <-> acc = [] /\ forall j, In j js -> Spec.no_marker (nth j lines EmptyString).
Proof.
  induction js as [|j js IH]; intros acc; cbn [fold_left].
  - split; [intros H; split; [exact H|intros j []]|intros [H _]; exact H].
  - rewrite IH. destruct (Monitor.search_marker (nth j lines EmptyString)) as [mk|] eqn:E.
    + split.
      * intros [H _]. exfalso. exact (add_marker_not_nil _ _ H).
      * intros [_ H]. specialize (H j (or_introl eq_refl)).
        apply search_marker_None in H. congruence.
    + apply search_marker_None in E. split; intros [Ha Hjs]; (split; [exact Ha|]).
      * intros j' [<-|Hin]; auto.
      * intros j' Hin. apply Hjs. now right.
Qed.

Lemma add_markers_in_nil (l : string) (acc : Validator.marker_set) :
  Validator.add_markers_in l acc = [] <-> acc = [] /\ Spec.no_marker l.
Proof.
  split.
  - unfold Validator.add_markers_in, Validator.PYRAMID_MARKERS, all_markers.
    cbn [fold_left]. intros H.
    assert (Hadd : forall mk (s : Validator.marker_set), set_add Marker_eq_dec mk s <> [])
      by (intros mk s; apply (add_marker_not_nil mk s)).
    destruct (contains ("@pytest.mark." ++ marker_name E2e) l) eqn:EE;
      [exfalso; exact (Hadd _ _ H)|].
    destruct (contains ("@pytest.mark." ++ marker_name Integration) l) eqn:EI;
      [exfalso; exact (Hadd _ _ H)|].
    destruct (contains ("@pytest.mark." ++ marker_name Unit) l) eqn:EU;
      [exfalso; exact (Hadd _ _ H)|].
    split; [exact H|]. intros []; assumption.
  - intros [-> H]. now apply add_markers_in_no_marker.
Qed.

Lemma validator_lookback_fold_nil (lines : list string) (js : list nat) :
  forall acc,
    fold_left
      (fun acc j =>
         Validator.add_markers_in
           (if 0 <? j then nth (j - 1) lines EmptyString else EmptyString) acc) js acc
    = []
    <-> acc = []
        /\ forall j, In j js -> 0 < j -> Spec.no_marker (nth (j - 1) lines EmptyString).
Proof.
  induction js as [|j js IH]; intros acc; cbn [fold_left].
  - split; [intros H; split; [exact H|intros j []]|intros [H _]; exact H].
  - rewrite IH, add_markers_in_nil. split.
    + intros [[Ha Hj] Hjs]. split; [exact Ha|].
      intros j' [<-|Hin] Hpos; [|now apply Hjs].
      destruct (Nat.ltb_spec 0 j); [exact Hj|lia].
    + intros [Ha Hjs]. split; [split; [exact Ha|]|].
      * destruct (Nat.ltb_spec 0 j); [|apply no_marker_empty].
        apply Hjs; [now left|assumption].
      * intros j' Hin. apply Hjs. now right.
Qed.

(** At a class declaration on line [i] (counted from zero) the validator
    inspects the ten lines the extractor inspects and, in addition, the line
    eleven above the declaration. *)
Lemma lookbacks_differ_by_one_line (lines : list string) (i : nat) :
  Validator.class_lookback lines (S i) = []
  <-> Monitor.class_lookback lines i = []
      /\ (11 <= i -> Spec.no_marker (nth (i - 11) lines EmptyString)).
Proof.
  unfold Validator.class_lookback, Monitor.class_lookback, Monitor.range.
  rewrite validator_lookback_fold_nil, monitor_lookback_fold_nil. split.
  - intros [_ H]. split; [split; [reflexivity|]|].
    + intros j Hj. apply in_seq in Hj.
      replace j with (S j - 1) by lia. apply H; [apply in_seq|]; lia.
    + intros Hi. replace (i - 11) with (S (i - 11) - 1) by lia.
      apply H; [apply in_seq|]; lia.
  - intros [[_ H] H11]. split; [reflexivity|].
    intros j Hj Hpos. apply in_seq in Hj.
    destruct (Nat.eq_dec (j - 1) (i - 11)) as [E|Hne].
    + destruct (Nat.le_gt_cases 11 i) as [Hi|Hi].
      * rewrite E. now apply H11.
      * apply H. apply in_seq. lia.
    + apply H. apply in_seq. lia.
Qed.

(** ** Where the two tools and the specification part: C3, C2 *)

(** C3.  The file has [@pytest.mark.unit] on its first line, ten empty
    lines, [class TestA:] and one test.  The extractor looks ten lines back
    from the class line, finds no marker and registers the test without a
    tier; the validator looks eleven lines back, finds the marker and reports
    no violation.  The two do not agree on the markers of this test. *)
Theorem C3_validator_looks_back_eleven_lines :
  let m := Monitor._parse_python_test_file Examples.eleven_above_file (Monitor.init []) in
  Monitor.all_tests m = ["tests/test_eleven.py::TestAtest_x"]
  /\ Monitor.tests_by_marker m = Monitor.empty_by_marker
  /\ Monitor.get_missing_markers_count m = 1
  /\ Validator.validate_file Examples.eleven_above_file Validator.init
     = ((true, []),
        {| Validator.violations := [];
           Validator.total_tests_checked := 1;
           Validator.total_violations := 0 |})
  /\ Monitor.class_lookback
       (split_lines
          ("@pytest.mark.unit" ++ Examples.nl
           ++ Examples.nl ++ Examples.nl ++ Examples.nl ++ Examples.nl ++ Examples.nl
           ++ Examples.nl ++ Examples.nl ++ Examples.nl ++ Examples.nl ++ Examples.nl
           ++ "class TestA:" ++ Examples.nl
           ++ "    def test_x(self):" ++ Examples.nl
           ++ "        pass")) 11 = []
  /\ Validator.class_lookback
       (split_lines
          ("@pytest.mark.unit" ++ Examples.nl
           ++ Examples.nl ++ Examples.nl ++ Examples.nl ++ Examples.nl ++ Examples.nl
           ++ Examples.nl ++ Examples.nl ++ Examples.nl ++ Examples.nl ++ Examples.nl
           ++ "class TestA:" ++ Examples.nl
           ++ "    def test_x(self):" ++ Examples.nl
           ++ "        pass")) 12 = [Unit].
Proof. cbv zeta. repeat split; vm_compute; reflexivity. Qed.

(** C2.  The file has a test before any [describe], a test inside a
    [unit:] block and a test inside an [e2e:] block.  Read positionally, as
    the specification does, the tests have no tier, unit and e2e.  The extractor runs
    through all [describe] matches before it looks at any test, so all three
    tests are registered as e2e, the label of the last block. *)
Theorem C2_every_test_gets_the_last_label :
  let m := Monitor._parse_javascript_test_file Examples.two_blocks_file (Monitor.init []) in
  Spec.positional_js_tiers Examples.two_blocks_js
  = [("boots", None); ("parses", Some Unit); ("runs", Some E2e)]
  /\ Monitor.js_current_category Examples.two_blocks_js = Some E2e
  /\ Monitor.all_tests m
     = ["tests/app.test.js::boots"; "tests/app.test.js::parses"; "tests/app.test.js::runs"]
  /\ Monitor.tests_by_marker m
     = {| Monitor.unit_tests := [];
          Monitor.integration_tests := [];
          Monitor.e2e_tests :=
            ["tests/app.test.js::boots"; "tests/app.test.js::parses";
             "tests/app.test.js::runs"] |}.
Proof. cbv zeta. repeat split; vm_compute; reflexivity. Qed.

(** ** The lookback of conventions C and D *)

Lemma add_test_tests_of (mk t : Marker) (tid id : string) (d : Monitor.by_marker) :
  In id (Monitor.tests_of (Monitor.add_test mk tid d) t)
  <-> In id (Monitor.tests_of d t) \/ (id = tid /\ mk = t).
Proof.
  destruct mk, t; cbn; unfold add; rewrite ?set_add_iff;
    split; intros H; try tauto;
    destruct H as [H|[_ H]]; try discriminate; auto.
Qed.

Lemma register_tests_of (tid : string) (mks : list Marker)
    (m : Monitor.TestPyramidMonitor) (id : string) (t : Marker) :
  In id (Monitor.tests_of (Monitor.tests_by_marker (Monitor.register tid mks m)) t)
  <-> In id (Monitor.tests_of (Monitor.tests_by_marker m) t) \/ (id = tid /\ In t mks).
Proof.
  cbn [Monitor.register Monitor.with_registry Monitor.tests_by_marker].
  generalize (Monitor.tests_by_marker m) as d.
  induction mks as [|mk mks IH]; intros d; cbn [fold_left In].
  - tauto.
  - rewrite IH, add_test_tests_of. split; intros H.
    + destruct H as [[H|[H1 H2]]|[H1 H2]]; auto.
    + destruct H as [H|[H1 [H2|H2]]]; auto.
Qed.

Lemma in_lookback_markers (line_marker : string -> option Marker) (content : string)
    (pos : nat) (t : Marker) :
  In t (Monitor.lookback_markers line_marker content pos)
  <-> exists line,
        In line (Monitor.lines_before content pos) /\ line_marker line = Some t.
Proof.
  unfold Monitor.lookback_markers. rewrite in_flat_map.
  split; intros (line & Hin & H); exists line; (split; [exact Hin|]).
  - destruct (line_marker line) as [mk|]; [|destruct H].
    destruct H as [->|[]]. reflexivity.
  - rewrite H. now left.
Qed.

Lemma lookback_loop_tests_of (line_marker : string -> option Marker) (f : File)
    (rel content : string) (matches : list (nat * string)) :
  relative_to_root f = Ok rel ->
  forall m id t,
    In id (Monitor.tests_of
             (Monitor.tests_by_marker
                (fst (Monitor.lookback_loop line_marker f content matches m))) t)
    <-> In id (Monitor.tests_of (Monitor.tests_by_marker m) t)
        \/ exists pos name,
             In (pos, name) matches
             /\ id = (rel ++ "::" ++ name)%string
             /\ In t (Monitor.lookback_markers line_marker content pos).
Proof.
  intros Hrel. induction matches as [|[pos name] matches IH]; intros m id t.
  - cbn. split; [auto|]. intros [H|(? & ? & [] & _)]. exact H.
  - cbn [Monitor.lookback_loop]. rewrite Hrel, IH, register_tests_of.
    split; intros H.
    + destruct H as [[H|[-> H]]|(pos' & name' & H1 & H2)]; auto.
      * right. exists pos, name. split; [now left|auto].
      * right. exists pos', name'. split; [now right|exact H2].
    + destruct H as [H|(pos' & name' & [E|H1] & H2 & H3)]; auto.
      * injection E as -> ->. left. right. auto.
      * right. exists pos', name'. auto.
Qed.

Lemma parse_with_lookback_tests_of (match_at : string -> option (string * nat))
    (line_marker : string -> option Marker) (f : File) (rel content : string)
    (tgts : list (string * Q)) (id : string) (t : Marker) :
  read_text f = Ok content ->
  relative_to_root f = Ok rel ->
  In id (Monitor.tests_of
           (Monitor.tests_by_marker
              (Monitor.parse_with_lookback match_at line_marker f (Monitor.init tgts))) t)
  <-> exists pos name line,
        In (pos, name) (finditer match_at content)
        /\ id = (rel ++ "::" ++ name)%string
        /\ In line (Monitor.lines_before content pos)
        /\ line_marker line = Some t.
Proof.
  intros Hread Hrel. unfold Monitor.parse_with_lookback. rewrite Hread.
  pose proof (lookback_loop_tests_of line_marker f rel content
                (finditer match_at content) Hrel (Monitor.init tgts) id t) as H.
  destruct (Monitor.lookback_loop line_marker f content (finditer match_at content)
              (Monitor.init tgts)) as [m' o].
  cbn [fst] in H.
  assert (E : Monitor.tests_by_marker
                (match o with Some e => Monitor.warn m' f e | None => m' end)
              = Monitor.tests_by_marker m') by now destruct o.
  rewrite E, H. split.
  - intros [Hin|(pos & name & H1 & H2 & H3)].
    + destruct t; destruct Hin.
    + apply in_lookback_markers in H3. destruct H3 as (line & H3 & H4).
      exists pos, name, line. auto.
  - intros (pos & name & line & H1 & H2 & H3 & H4). right.
    exists pos, name. split; [exact H1|]. split; [exact H2|].
    apply in_lookback_markers. eauto.
Qed.

Lemma last_n_covers {A : Type} (ls later : list A) (x : A) :
  length later <= 4 -> In x (last_n 5 (ls ++ x :: later)).
Proof.
  intros Hlen. unfold last_n. rewrite length_app. cbn [length].
  rewrite skipn_app.
  apply in_or_app. right.
  replace (length ls + S (length later) - 5 - length ls) with 0 by lia.
  now left.
Qed.

Lemma last_n_suffix {A : Type} (far near : list A) :
  5 <= length near ->
  exists skipped, near = skipped ++ last_n 5 (far ++ near).
Proof.
  intros Hlen. unfold last_n. rewrite length_app, skipn_app.
  replace (skipn (length far + length near - 5) far) with (@nil A)
    by (symmetry; apply skipn_all2; lia).
  replace (length far + length near - 5 - length far) with (length near - 5) by lia.
  exists (firstn (length near - 5) near). cbn [app].
  symmetry. apply firstn_skipn.
Qed.

Lemma go_line_marker_first_keyword (line : string) :
  Monitor.go_line_marker line = Spec.first_keyword Spec.go_keyword line.
Proof. reflexivity. Qed.

Lemma rust_line_marker_first_keyword (line : string) :
  Monitor.rust_line_marker line = Spec.first_keyword Spec.rust_keyword line.
Proof. reflexivity. Qed.

(** ** Convention B: one category for the whole file *)

Lemma js_loop_tests_of (f : File) (rel : string) (category : option Marker)
    (matches : list (nat * string)) :
  relative_to_root f = Ok rel ->
  forall m id t,
    In id (Monitor.tests_of
             (Monitor.tests_by_marker (fst (Monitor.js_loop f category matches m))) t)
    <-> In id (Monitor.tests_of (Monitor.tests_by_marker m) t)
        \/ (category = Some t
            /\ exists pos name, In (pos, name) matches /\ id = (rel ++ "::" ++ name)%string).
Proof.
  intros Hrel. induction matches as [|[pos name] matches IH]; intros m id t.
  - cbn. split; [auto|]. intros [H|(_ & ? & ? & [] & _)]. exact H.
  - cbn [Monitor.js_loop]. rewrite Hrel, IH, register_tests_of.
    split; intros H.
    + destruct H as [[H|[-> H]]|(Hc & pos' & name' & H1 & H2)]; auto.
      * right. destruct category as [mk|]; [|destruct H].
        destruct H as [->|[]]. split; [reflexivity|].
        exists pos, name. split; [now left|reflexivity].
      * right. split; [exact Hc|]. exists pos', name'. split; [now right|exact H2].
    + destruct H as [H|(Hc & pos' & name' & [E|H1] & H2)]; auto.
      * injection E as -> ->. left. right. split; [exact H2|].
        rewrite Hc. now left.
      * right. split; [exact Hc|]. exists pos', name'. auto.
Qed.

(** The last of the five pieces the lookback keeps is the text before the
    match on its own line: a constraint on the fifth line above a Go test is
    not among them. *)
Lemma go_fifth_line_above_is_not_inspected :
  finditer Monitor.go_test_at Examples.five_above_go = [(52, "TestFar")]
  /\ Monitor.lines_before Examples.five_above_go 52
     = [EmptyString; "package pkg"; EmptyString; "import testing"; EmptyString]
  /\ Spec.five_preceding_lines Examples.five_above_go 52
     = ["//go:build integration"; EmptyString; "package pkg"; EmptyString;
        "import testing"]
  /\ Monitor.tests_by_marker
       (Monitor._parse_go_test_file Examples.five_above_file (Monitor.init []))
     = Monitor.empty_by_marker.
Proof. repeat split; vm_compute; reflexivity. Qed.

(** ** Conventions C and D: C4 *)

(** C4, as stated, fails: the line above the Go test carries the keywords of
    e2e and of unit.  The e2e keyword lies within the five preceding lines,
    yet the test is assigned unit only, because the parser takes one tier per
    line, the first of unit, integration, e2e. *)
Lemma C4_one_tier_per_line :
  let m := Monitor._parse_go_test_file Examples.two_keywords_file (Monitor.init []) in
  finditer Monitor.go_test_at Examples.two_keywords_go = [(29, "TestBoth")]
  /\ Spec.five_preceding_lines Examples.two_keywords_go 29
     = ["// +build e2e // +build unit"]
  /\ Spec.keyword_within_five Spec.go_keyword Examples.two_keywords_go 29 E2e = true
  /\ Monitor.all_tests m = ["pkg/both_test.go::TestBoth"]
  /\ Monitor.tests_by_marker m
     = {| Monitor.unit_tests := ["pkg/both_test.go::TestBoth"];
          Monitor.integration_tests := [];
          Monitor.e2e_tests := [] |}
  /\ ~ (forall t,
          In "pkg/both_test.go::TestBoth"
             (Monitor.tests_of (Monitor.tests_by_marker m) t)
          <-> Spec.keyword_within_five Spec.go_keyword Examples.two_keywords_go 29 t
              = true).
Proof.
  cbv zeta. repeat split; try (vm_compute; reflexivity).
  intros H. specialize (H E2e). destruct H as [_ H].
  assert (Hin : In "pkg/both_test.go::TestBoth" []) by (apply H; vm_compute; reflexivity).
  destruct Hin.
Qed.

(** C4, amended.  For conventions C (Go) and D (Rust) a discovered test is
    assigned tier [t] exactly when one of the lines the lookback inspects has
    [t]'s keyword as the first keyword it contains, in the order unit,
    integration, e2e.  The lookback inspects only text before the start of the
    match ([func] for C, the [#[test]] attribute for D): it covers the text
    before the match on the match's own line and the lines up to four above
    that line, and it never reaches a line more than five above it. *)
Theorem C4_lookback_window
    (f : File) (rel content : string) (tgts : list (string * Q))
    (id : string) (t : Marker) :
  read_text f = Ok content ->
  relative_to_root f = Ok rel ->
  (In id (Monitor.tests_of
            (Monitor.tests_by_marker (Monitor._parse_go_test_file f (Monitor.init tgts))) t)
   <-> exists pos name line,
         In (pos, name) (finditer Monitor.go_test_at content)
         /\ id = (rel ++ "::" ++ name)%string
         /\ In line (Monitor.lines_before content pos)
         /\ Spec.first_keyword Spec.go_keyword line = Some t)
  /\ (In id (Monitor.tests_of
               (Monitor.tests_by_marker
                  (Monitor._parse_rust_test_file f (Monitor.init tgts))) t)
      <-> exists pos name line,
            In (pos, name) (finditer Monitor.rust_test_at content)
            /\ id = (rel ++ "::" ++ name)%string
            /\ In line (Monitor.lines_before content pos)
            /\ Spec.first_keyword Spec.rust_keyword line = Some t)
  /\ (forall pos ls line later,
         split_lines (take pos content) = ls ++ line :: later ->
         length later <= 4 ->
         In line (Monitor.lines_before content pos))
  /\ (forall pos far near,
         split_lines (take pos content) = far ++ near ->
         6 <= length near ->
         exists skipped, near = skipped ++ Monitor.lines_before content pos).
Proof.
  intros Hread Hrel. split; [|split; [|split]].
  - apply (parse_with_lookback_tests_of Monitor.go_test_at Monitor.go_line_marker
             f rel content tgts id t Hread Hrel).
  - apply (parse_with_lookback_tests_of Monitor.rust_test_at Monitor.rust_line_marker
             f rel content tgts id t Hread Hrel).
  - intros pos ls line later E Hlen. unfold Monitor.lines_before. rewrite E.
    now apply last_n_covers.
  - intros pos far near E Hlen. unfold Monitor.lines_before. rewrite E.
    apply last_n_suffix. lia.
Qed.

Lemma C4_lookback_window_witness :
  In "pkg/tagged_test.go::TestTagged"
     (Monitor.tests_of
        (Monitor.tests_by_marker
           (Monitor._parse_go_test_file Examples.tagged_go_file (Monitor.init [])))
        Integration)
  <-> exists pos name line,
        In (pos, name) (finditer Monitor.go_test_at Examples.tagged_go)
        /\ "pkg/tagged_test.go::TestTagged" = ("pkg/tagged_test.go" ++ "::" ++ name)%string
        /\ In line (Monitor.lines_before Examples.tagged_go pos)
        /\ Spec.first_keyword Spec.go_keyword line = Some Integration.
Proof.
  exact (proj1 (C4_lookback_window Examples.tagged_go_file "pkg/tagged_test.go"
                  Examples.tagged_go [] "pkg/tagged_test.go::TestTagged" Integration
                  eq_refl eq_refl)).
Defined.

(* ------------------------------------------------------------------ *)
(** * Further properties of the code *)

(** ** The scorer and the distribution calculator on arbitrary targets *)

Lemma getitem_cases {A : Type} (d : list (string * A)) (k : string) :
  (exists a, Monitor.getitem d k = Ok a) \/ Monitor.getitem d k = Raise (KeyError k).
Proof.
  induction d as [|[k' v] d IH]; cbn; [now right|].
  destruct (String.eqb k k'); [left; eauto|exact IH].
Qed.

Lemma score_loop_cases (items : list (string * Q)) :
  forall d score,
    match Monitor.score_loop items d score with
    | Ok _ => forall k, In k (map fst items) -> exists a, Monitor.getitem d k = Ok a
    | Raise e =>
        exists k, e = KeyError k /\ In k (map fst items)
                  /\ Monitor.getitem d k = Raise (KeyError k)
    end.
Proof.
  induction items as [|[marker target] items IH]; intros d score;
    cbn [Monitor.score_loop map fst].
  - intros k [].
  - destruct (getitem_cases d marker) as [[a Ha]|Hraise].
    + rewrite Ha. cbn [bind].
      specialize (IH d (score - Qabs (a - target) * (1 # 10))%Q).
      destruct (Monitor.score_loop items d _) as [s|e].
      * intros k [<-|Hin]; [eauto|now apply IH].
      * destruct IH as (k & -> & Hin & Hk). exists k. split; [reflexivity|].
        split; [now right|exact Hk].
    + rewrite Hraise. cbn [bind]. exists marker. split; [reflexivity|].
      split; [now left|exact Hraise].
Qed.

(** X1.  Whatever the registry, the targets and the distribution passed in,
    [calculate_score] either returns a score between 0 and 10, and then the
    distribution has an entry for every target key, or raises the [KeyError]
    of a target key that the distribution lacks.  It raises nothing else. *)
Theorem calculate_score_bounded_or_key_error
    (m : Monitor.TestPyramidMonitor) (d : list (string * Q)) :
  match Monitor.calculate_score m d with
  | Ok s =>
      (0 <= s <= 10)%Q
      /\ forall k, In k (map fst (Monitor.targets m)) ->
                   exists a, Monitor.getitem d k = Ok a
  | Raise e =>
      exists k, e = KeyError k
                /\ In k (map fst (Monitor.targets m))
                /\ Monitor.getitem d k = Raise (KeyError k)
  end.
Proof.
  pose proof (score_loop_cases (Monitor.targets m) d 10%Q) as H.
  destruct (Monitor.score_loop (Monitor.targets m) d 10%Q) as [s0|e] eqn:E.
  - rewrite (calculate_score_after_loop m d s0 E). split; [apply clamp_bounds|exact H].
  - unfold Monitor.calculate_score. rewrite E. exact H.
Qed.

Lemma percentage_bounds (a b : Z) :
  (0 <= a <= b)%Z -> (0 < b)%Z ->
  (0 <= inject_Z a / inject_Z b * 100 <= 100)%Q.
Proof.
  intros Hab Hb.
  assert (Hb' : (0 < inject_Z b)%Q).
  { change 0%Q with (inject_Z 0). rewrite <- Zlt_Qlt. exact Hb. }
  assert (H0 : (0 <= inject_Z a / inject_Z b)%Q).
  { apply Qle_shift_div_l; [exact Hb'|]. rewrite Qmult_0_l.
    change 0%Q with (inject_Z 0). rewrite <- Zle_Qle. lia. }
  assert (H1 : (inject_Z a / inject_Z b <= 1)%Q).
  { apply Qle_shift_div_r; [exact Hb'|]. rewrite Qmult_1_l.
    rewrite <- Zle_Qle. lia. }
  split; lra.
Qed.

Lemma distribution_loop_ok (m : Monitor.TestPyramidMonitor) (total : Z)
    (keys : list string) :
  (total <> 0)%Z ->
  (forall k, In k keys -> marker_of_string k <> None) ->
  forall d,
  exists d',
    Monitor.distribution_loop m total keys d = Ok d'
    /\ (forall k mk,
          In k keys -> marker_of_string k = Some mk ->
          Monitor.getitem d' k
          = Ok (inject_Z (Monitor.len (Monitor.tests_of (Monitor.tests_by_marker m) mk))
                / inject_Z total * 100)%Q)
    /\ (forall k, ~ In k keys -> Monitor.getitem d' k = Monitor.getitem d k).
Proof.
  intros Htotal. induction keys as [|key keys IH]; intros Hkeys d.
  - exists d. split; [reflexivity|]. split; [intros k mk []|reflexivity].
  - cbn [Monitor.distribution_loop]. unfold Monitor.tests_by_marker_getitem.
    destruct (marker_of_string key) as [mk0|] eqn:Ekey;
      [|exfalso; apply (Hkeys key); [now left|exact Ekey]].
    cbn [bind]. rewrite truediv_nonzero by assumption. cbn [bind].
    set (v := (inject_Z (Monitor.len (Monitor.tests_of (Monitor.tests_by_marker m) mk0))
               / inject_Z total * 100)%Q).
    destruct (IH (fun k Hk => Hkeys k (or_intror Hk)) (Monitor.setitem d key v))
      as (d' & Hd' & Hin & Hout).
    exists d'. split; [exact Hd'|]. split.
    + intros k mk Hk Hmk. destruct (in_dec string_dec k keys) as [Hk'|Hk'].
      * now apply Hin.
      * destruct Hk as [->|Hk]; [|contradiction].
        rewrite Hout by assumption. rewrite getitem_setitem_same.
        unfold v. congruence.
    + intros k Hk. rewrite Hout by (intros H; apply Hk; now right).
      apply getitem_setitem_other. intros ->. apply Hk. now left.
Qed.

Lemma len_nonneg (s : str_set) : (0 <= Monitor.len s)%Z.
Proof. unfold Monitor.len. lia. Qed.

Lemma well_formed_len (m : Monitor.TestPyramidMonitor) (mk : Marker) :
  Registry.well_formed m ->
  (Monitor.len (Monitor.tests_of (Monitor.tests_by_marker m) mk)
   <= Monitor.len (Monitor.all_tests m))%Z.
Proof.
  intros [_ H]. destruct (H mk) as [Hnd Hincl].
  unfold Monitor.len. apply inj_le. now apply NoDup_incl_length.
Qed.

(** X2.  When every key of the targets names a tier, the distribution
    calculator followed by the scorer never raises, whatever the registry: the
    distribution has an entry for each target key, the score lies between 0
    and 10, and on a well-formed registry every percentage lies between 0
    and 100. *)
Theorem distribution_then_score_total (m : Monitor.TestPyramidMonitor) :
  (forall k, In k (map fst (Monitor.targets m)) -> marker_of_string k <> None) ->
  exists d s,
    Monitor.calculate_distribution m = Ok d
    /\ Monitor.calculate_score m d = Ok s
    /\ (0 <= s <= 10)%Q
    /\ (Registry.well_formed m ->
        forall k, In k (map fst (Monitor.targets m)) ->
                  exists pct, Monitor.getitem d k = Ok pct /\ (0 <= pct <= 100)%Q).
Proof.
  intros Hkeys.
  assert (Hd : exists d,
             Monitor.calculate_distribution m = Ok d
             /\ (forall k, In k (map fst (Monitor.targets m)) ->
                           exists a, Monitor.getitem d k = Ok a)
             /\ (Registry.well_formed m ->
                 forall k, In k (map fst (Monitor.targets m)) ->
                           exists pct, Monitor.getitem d k = Ok pct
                                       /\ (0 <= pct <= 100)%Q)).
  { unfold Monitor.calculate_distribution.
    destruct (Z.eqb_spec (Monitor.len (Monitor.all_tests m)) 0) as [E0|Hne].
    - eexists. split; [reflexivity|].
      assert (Hz : forall k, In k (map fst (Monitor.targets m)) ->
                Monitor.getitem
                  (fold_left (fun d marker => Monitor.setitem d marker 0%Q)
                     (map fst (Monitor.targets m)) []) k = Ok 0%Q).
      { intros k Hk. apply zero_fill_getitem; [now left|]. intros k'. now right. }
      split.
      + intros k Hk. exists 0%Q. now apply Hz.
      + intros _ k Hk. exists 0%Q. split; [now apply Hz|lra].
    - destruct (distribution_loop_ok m _ (map fst (Monitor.targets m)) Hne Hkeys [])
        as (d & Hd & Hin & _).
      exists d. split; [exact Hd|]. split.
      + intros k Hk. destruct (marker_of_string k) as [mk|] eqn:Ek;
          [|exfalso; now apply (Hkeys k)].
        eexists. now apply (Hin k mk).
      + intros Hwf k Hk. destruct (marker_of_string k) as [mk|] eqn:Ek;
          [|exfalso; now apply (Hkeys k)].
        eexists. split; [now apply (Hin k mk)|].
        apply percentage_bounds.
        * split; [apply len_nonneg|now apply well_formed_len].
        * pose proof (len_nonneg (Monitor.all_tests m)). lia. }
  destruct Hd as (d & Hd & Hall & Hpct).
  pose proof (score_loop_cases (Monitor.targets m) d 10%Q) as Hs.
  destruct (Monitor.score_loop (Monitor.targets m) d 10%Q) as [s0|e] eqn:Es.
  - eexists d, _. split; [exact Hd|].
    split; [exact (calculate_score_after_loop m d s0 Es)|].
    split; [apply clamp_bounds|exact Hpct].
  - destruct Hs as (k & _ & Hin & Hk). destruct (Hall k Hin) as [a Ha]. congruence.
Qed.

Lemma distribution_then_score_total_witness :
  exists d s,
    Monitor.calculate_distribution (Monitor.init []) = Ok d
    /\ Monitor.calculate_score (Monitor.init []) d = Ok s
    /\ (0 <= s <= 10)%Q
    /\ (Registry.well_formed (Monitor.init []) ->
        forall k, In k (map fst (Monitor.targets (Monitor.init []))) ->
                  exists pct, Monitor.getitem d k = Ok pct /\ (0 <= pct <= 100)%Q).
Proof.
  apply (distribution_then_score_total (Monitor.init [])).
  intros k [<-|[<-|[<-|[]]]]; discriminate.
Defined.

(** X3.  Once a test has been collected, a target key that names no tier
    makes the distribution calculator raise the [KeyError] of the first such
    key (with no test collected it returns zeros instead). *)
Theorem calculate_distribution_key_error
    (m : Monitor.TestPyramidMonitor) (tiers rest : list (string * Q))
    (key : string) (target : Q) :
  Monitor.all_tests m <> [] ->
  Monitor.targets m = tiers ++ (key, target) :: rest ->
  (forall k, In k (map fst tiers) -> marker_of_string k <> None) ->
  marker_of_string key = None ->
  Monitor.calculate_distribution m = Raise (KeyError key).
Proof.
  intros Hall Htargets Htiers Hkey. unfold Monitor.calculate_distribution.
  assert (Hne : (Monitor.len (Monitor.all_tests m) <> 0)%Z).
  { unfold Monitor.len. destruct (Monitor.all_tests m); [congruence|cbn; lia]. }
  destruct (Z.eqb_spec (Monitor.len (Monitor.all_tests m)) 0); [contradiction|].
  rewrite Htargets, map_app. cbn [map fst]. clear Htargets.
  generalize (@nil (string * Q)) as d. revert Htiers.
  induction tiers as [|[k t] tiers IH]; intros Htiers d;
    cbn [map fst app Monitor.distribution_loop].
  - unfold Monitor.tests_by_marker_getitem. now rewrite Hkey.
  - unfold Monitor.tests_by_marker_getitem at 1.
    destruct (marker_of_string k) as [mk|] eqn:Ek;
      [|exfalso; apply (Htiers k); [now left|exact Ek]].
    cbn [bind]. rewrite truediv_nonzero by assumption. cbn [bind].
    apply IH. intros k' Hk'. apply Htiers. now right.
Qed.

Lemma calculate_distribution_key_error_witness :
  Monitor.calculate_distribution
    {| Monitor.targets := [("unit", 70%Q); ("smoke", 30%Q)];
       Monitor.tests_by_marker := Monitor.empty_by_marker;
       Monitor.all_tests := ["tests/test_a.py::test_one"];
       Monitor.stderr := [] |}
  = Raise (KeyError "smoke").
Proof.
  apply (calculate_distribution_key_error _ [("unit", 70%Q)] [] "smoke" 30%Q).
  - discriminate.
  - reflexivity.
  - intros k [<-|[]]. discriminate.
  - reflexivity.
Defined.

(** ** What every parser keeps true of the registry *)

Lemma add_test_other (mk t : Marker) (tid : string) (d : Monitor.by_marker) :
  mk <> t -> Monitor.tests_of (Monitor.add_test mk tid d) t = Monitor.tests_of d t.
Proof. destruct mk, t; intros H; try reflexivity; congruence. Qed.

Lemma add_test_same (mk : Marker) (tid : string) (d : Monitor.by_marker) :
  Monitor.tests_of (Monitor.add_test mk tid d) mk = add tid (Monitor.tests_of d mk).
Proof. destruct mk; reflexivity. Qed.

Lemma fold_add_test_nodup (tid : string) (mks : list Marker) (t : Marker) :
  forall d,
    NoDup (Monitor.tests_of d t) ->
    NoDup (Monitor.tests_of (fold_left (fun d mk => Monitor.add_test mk tid d) mks d) t).
Proof.
  induction mks as [|mk mks IH]; intros d Hd; cbn [fold_left]; [exact Hd|].
  apply IH. destruct (Marker_eq_dec mk t) as [->|Hne].
  - rewrite add_test_same. now apply set_add_nodup.
  - now rewrite add_test_other.
Qed.

Lemma well_formed_init (tgts : list (string * Q)) : Registry.well_formed (Monitor.init tgts).
Proof.
  split; [constructor|]. intros mk. split; [destruct mk; constructor|].
  intros x Hx. destruct mk; destruct Hx.
Qed.

Lemma register_well_formed (tid : string) (mks : list Marker)
    (m : Monitor.TestPyramidMonitor) :
  Registry.well_formed m -> Registry.well_formed (Monitor.register tid mks m).
Proof.
  intros [Hall Htiers]. split.
  - cbn. now apply set_add_nodup.
  - intros mk. destruct (Htiers mk) as [Hnd Hincl]. split.
    + cbn [Monitor.register Monitor.with_registry Monitor.tests_by_marker].
      now apply fold_add_test_nodup.
    + intros x Hx. apply register_tests_of in Hx. apply register_all_tests.
      destruct Hx as [Hx|[-> _]]; [right; now apply Hincl|now left].
Qed.

Lemma warn_well_formed (m : Monitor.TestPyramidMonitor) (f : File) (e : exn) :
  Registry.well_formed m -> Registry.well_formed (Monitor.warn m f e).
Proof. intros H. exact H. Qed.

Lemma python_loop_well_formed (f : File) (lines : list string) (todo : list string) :
  forall i st m,
    Registry.well_formed m ->
    Registry.well_formed (fst (Monitor.python_loop f lines i todo st m)).
Proof.
  induction todo as [|l todo IH]; intros i st m Hm; [exact Hm|].
  cbn [Monitor.python_loop].
  destruct (Monitor.test_match l); [|now apply IH].
  destruct (relative_to_root f); [|exact Hm].
  apply IH. now apply register_well_formed.
Qed.

Lemma js_loop_well_formed (f : File) (category : option Marker)
    (matches : list (nat * string)) :
  forall m,
    Registry.well_formed m ->
    Registry.well_formed (fst (Monitor.js_loop f category matches m)).
Proof.
  induction matches as [|[pos name] matches IH]; intros m Hm; [exact Hm|].
  cbn [Monitor.js_loop]. destruct (relative_to_root f); [|exact Hm].
  apply IH. now apply register_well_formed.
Qed.

Lemma lookback_loop_well_formed (line_marker : string -> option Marker) (f : File)
    (content : string) (matches : list (nat * string)) :
  forall m,
    Registry.well_formed m ->
    Registry.well_formed (fst (Monitor.lookback_loop line_marker f content matches m)).
Proof.
  induction matches as [|[pos name] matches IH]; intros m Hm; [exact Hm|].
  cbn [Monitor.lookback_loop]. destruct (relative_to_root f); [|exact Hm].
  apply IH. now apply register_well_formed.
Qed.

Lemma finish_well_formed (f : File) (r : Monitor.TestPyramidMonitor * option exn) :
  Registry.well_formed (fst r) ->
  Registry.well_formed
    (let (m', o) := r in match o with Some e => Monitor.warn m' f e | None => m' end).
Proof. destruct r as [m' [e|]]; intros H; exact H. Qed.

Lemma parse_with_lookback_well_formed (match_at : string -> option (string * nat))
    (line_marker : string -> option Marker) (f : File) (m : Monitor.TestPyramidMonitor) :
  Registry.well_formed m ->
  Registry.well_formed (Monitor.parse_with_lookback match_at line_marker f m).
Proof.
  intros Hm. unfold Monitor.parse_with_lookback.
  destruct (read_text f) as [content|e]; [|exact Hm].
  apply finish_well_formed. now apply lookback_loop_well_formed.
Qed.

Lemma set_diff_length (a b : str_set) :
  NoDup a -> NoDup b -> incl b a ->
  length (set_diff string_dec a b) + length b = length a.
Proof.
  intros Ha Hb Hincl. rewrite <- length_app.
  apply Permutation_length. apply NoDup_Permutation.
  - apply NoDup_app; [now apply set_diff_nodup|exact Hb|].
    intros x Hx Hx'. apply set_diff_iff in Hx. tauto.
  - exact Ha.
  - intros x. rewrite in_app_iff, set_diff_iff. split.
    + intros [[H _]|H]; [exact H|now apply Hincl].
    + intros H. destruct (in_dec string_dec x b); [now right|now left].
Qed.

Lemma categorized_set_iff (m : Monitor.TestPyramidMonitor) (id : string) :
  In id (Monitor.categorized_set m)
  <-> exists mk, In id (Monitor.tests_of (Monitor.tests_by_marker m) mk).
Proof.
  unfold Monitor.categorized_set, all_markers. cbn [fold_left].
  rewrite !set_union_iff. cbn [In]. split.
  - intros [[[[]|H]|H]|H]; [exists Unit|exists Integration|exists E2e]; exact H.
  - intros [[] H]; tauto.
Qed.

Lemma categorized_set_nodup (m : Monitor.TestPyramidMonitor) :
  Registry.well_formed m -> NoDup (Monitor.categorized_set m).
Proof.
  intros [_ H]. unfold Monitor.categorized_set, all_markers. cbn [fold_left].
  repeat apply set_union_nodup; try constructor; apply H.
Qed.

Lemma parse_python_well_formed (f : File) (m : Monitor.TestPyramidMonitor) :
  Registry.well_formed m -> Registry.well_formed (Monitor._parse_python_test_file f m).
Proof.
  intros Hm. unfold Monitor._parse_python_test_file.
  destruct (read_text f) as [content|e]; [|exact Hm].
  apply finish_well_formed. now apply python_loop_well_formed.
Qed.

Lemma collect_python_well_formed (files : list File) :
  forall m, Registry.well_formed m ->
            Registry.well_formed (Monitor.collect_python_files files m).
Proof.
  induction files as [|f files IH]; intros m Hm; [exact Hm|].
  cbn. apply IH. now apply parse_python_well_formed.
Qed.

(** X4.  Each of the four parsers, and the loop of the Python collector,
    takes a well-formed registry to a well-formed registry: no identifier is
    listed twice and the tier sets stay within [all_tests].  So the tests that
    carry some tier are never more than the tests. *)
Theorem parsers_keep_registry_well_formed
    (f : File) (files : list File) (m : Monitor.TestPyramidMonitor) :
  Registry.well_formed m ->
  Registry.well_formed (Monitor._parse_python_test_file f m)
  /\ Registry.well_formed (Monitor._parse_javascript_test_file f m)
  /\ Registry.well_formed (Monitor._parse_go_test_file f m)
  /\ Registry.well_formed (Monitor._parse_rust_test_file f m)
  /\ Registry.well_formed (Monitor.collect_python_files files m)
  /\ length (Monitor.categorized_set m) <= length (Monitor.all_tests m).
Proof.
  intros Hm.
  split; [now apply parse_python_well_formed|]. split; [|split; [|split; [|split]]].
  - unfold Monitor._parse_javascript_test_file.
    destruct (read_text f) as [content|e]; [|exact Hm].
    apply finish_well_formed. now apply js_loop_well_formed.
  - now apply parse_with_lookback_well_formed.
  - now apply parse_with_lookback_well_formed.
  - now apply collect_python_well_formed.
  - apply NoDup_incl_length; [now apply categorized_set_nodup|].
    intros x Hx. apply categorized_set_iff in Hx. destruct Hx as [mk Hx].
    destruct Hm as [_ H]. now apply (H mk).
Qed.

Lemma parsers_keep_registry_well_formed_witness :
  Registry.well_formed
    (Monitor._parse_python_test_file Examples.scenario1_file (Monitor.init [])).
Proof.
  exact (proj1 (parsers_keep_registry_well_formed Examples.scenario1_file []
                  (Monitor.init []) (well_formed_init []))).
Defined.

(** X5.  On a well-formed registry the count of tests without markers and
    the count of tests with some tier add up to the number of tests, and the
    count is 0 exactly when every test is in some tier. *)
Theorem missing_markers_count_complement (m : Monitor.TestPyramidMonitor) :
  Registry.well_formed m ->
  Monitor.get_missing_markers_count m + length (Monitor.categorized_set m)
  = length (Monitor.all_tests m)
  /\ (Monitor.get_missing_markers_count m = 0
      <-> forall id, In id (Monitor.all_tests m) ->
                     exists mk, In id (Monitor.tests_of (Monitor.tests_by_marker m) mk)).
Proof.
  intros Hm. split.
  - unfold Monitor.get_missing_markers_count. apply set_diff_length.
    + apply Hm.
    + now apply categorized_set_nodup.
    + intros x Hx. apply categorized_set_iff in Hx. destruct Hx as [mk Hx].
      destruct Hm as [_ H]. now apply (H mk).
  - unfold Monitor.get_missing_markers_count. rewrite length_zero_iff_nil. split.
    + intros E id Hid. apply categorized_set_iff.
      destruct (in_dec string_dec id (Monitor.categorized_set m)) as [H|H]; [exact H|].
      assert (Hin : In id (set_diff string_dec (Monitor.all_tests m)
                             (Monitor.categorized_set m)))
        by (apply set_diff_iff; auto).
      rewrite E in Hin. destruct Hin.
    + intros H.
      destruct (set_diff string_dec (Monitor.all_tests m) (Monitor.categorized_set m))
        as [|x l] eqn:E; [reflexivity|].
      assert (Hin : In x (set_diff string_dec (Monitor.all_tests m)
                            (Monitor.categorized_set m)))
        by (rewrite E; now left).
      apply set_diff_iff in Hin. destruct Hin as [Hall Hnot].
      exfalso. apply Hnot. apply categorized_set_iff. now apply H.
Qed.

Lemma missing_markers_count_complement_witness :
  Monitor.get_missing_markers_count
    (Monitor._parse_python_test_file Examples.overlap_file (Monitor.init []))
  + length (Monitor.categorized_set
              (Monitor._parse_python_test_file Examples.overlap_file (Monitor.init [])))
  = length (Monitor.all_tests
              (Monitor._parse_python_test_file Examples.overlap_file (Monitor.init []))).
Proof.
  apply (missing_markers_count_complement
           (Monitor._parse_python_test_file Examples.overlap_file (Monitor.init []))).
  apply parse_python_well_formed, well_formed_init.
Defined.

(** ** Every parser is a sequence of registrations that depends on the file only *)

Lemma python_loop_trace (f : File) (rel : string) (lines : list string)
    (todo : list string) :
  relative_to_root f = Ok rel ->
  forall i st m,
    Monitor.python_loop f lines i todo st m
    = (Trace.register_all
         (map (fun e => (Monitor.python_test_id rel (Trace.event_class e)
                           (Trace.event_name e), Trace.event_markers e))
            (Trace.python_events lines i todo st)) m, None).
Proof.
  intros Hrel. induction todo as [|l todo IH]; intros i st m; [reflexivity|].
  cbn [Monitor.python_loop Trace.python_events].
  destruct (Monitor.test_match l) as [name|]; [|apply IH].
  rewrite Hrel, IH. reflexivity.
Qed.

Lemma js_loop_trace (f : File) (rel : string) (category : option Marker)
    (matches : list (nat * string)) :
  relative_to_root f = Ok rel ->
  forall m,
    Monitor.js_loop f category matches m
    = (Trace.register_all
         (map (fun mt => ((rel ++ "::" ++ snd mt)%string,
                          match category with Some mk => [mk] | None => [] end))
            matches) m, None).
Proof.
  intros Hrel. induction matches as [|[pos name] matches IH]; intros m; [reflexivity|].
  cbn [Monitor.js_loop]. rewrite Hrel, IH. reflexivity.
Qed.

Lemma lookback_loop_trace (line_marker : string -> option Marker) (f : File)
    (rel content : string) (matches : list (nat * string)) :
  relative_to_root f = Ok rel ->
  forall m,
    Monitor.lookback_loop line_marker f content matches m
    = (Trace.register_all
         (map (fun mt => ((rel ++ "::" ++ snd mt)%string,
                          Monitor.lookback_markers line_marker content (fst mt)))
            matches) m, None).
Proof.
  intros Hrel. induction matches as [|[pos name] matches IH]; intros m; [reflexivity|].
  cbn [Monitor.lookback_loop]. rewrite Hrel, IH. reflexivity.
Qed.

Lemma js_loop_no_relative (f : File) (e : exn) (category : option Marker)
    (matches : list (nat * string)) (m : Monitor.TestPyramidMonitor) :
  relative_to_root f = Raise e ->
  fst (Monitor.js_loop f category matches m) = m.
Proof.
  intros Hrel. destruct matches as [|[pos name] matches]; [reflexivity|].
  cbn [Monitor.js_loop]. now rewrite Hrel.
Qed.

Lemma lookback_loop_no_relative (line_marker : string -> option Marker) (f : File)
    (e : exn) (content : string) (matches : list (nat * string))
    (m : Monitor.TestPyramidMonitor) :
  relative_to_root f = Raise e ->
  fst (Monitor.lookback_loop line_marker f content matches m) = m.
Proof.
  intros Hrel. destruct matches as [|[pos name] matches]; [reflexivity|].
  cbn [Monitor.lookback_loop]. now rewrite Hrel.
Qed.

Lemma same_registry_refl (m : Monitor.TestPyramidMonitor) : Spec.same_registry m m.
Proof. split; reflexivity. Qed.

Lemma same_registry_finish (f : File) (r : Monitor.TestPyramidMonitor * option exn) :
  Spec.same_registry
    (let (m', o) := r in match o with Some e => Monitor.warn m' f e | None => m' end)
    (fst r).
Proof. destruct r as [m' [e|]]; [apply same_registry_warn|apply same_registry_refl]. Qed.

Lemma parse_python_registrations (f : File) (m : Monitor.TestPyramidMonitor) :
  Spec.same_registry (Monitor._parse_python_test_file f m)
                     (Trace.register_all (Trace.python_registrations f) m).
Proof.
  unfold Monitor._parse_python_test_file, Trace.python_registrations.
  destruct (read_text f) as [content|e]; [|apply same_registry_warn].
  eapply same_registry_trans; [apply same_registry_finish|].
  destruct (relative_to_root f) as [rel|e] eqn:Hrel.
  - rewrite (python_loop_trace f rel _ _ Hrel). apply same_registry_refl.
  - destruct (python_loop_no_relative f (split_lines content) e (split_lines content)
                Hrel 0 Monitor.initial_scan m) as [-> | ->]; apply same_registry_refl.
Qed.

Lemma parse_javascript_registrations (f : File) (m : Monitor.TestPyramidMonitor) :
  Spec.same_registry (Monitor._parse_javascript_test_file f m)
                     (Trace.register_all (Trace.javascript_registrations f) m).
Proof.
  unfold Monitor._parse_javascript_test_file, Trace.javascript_registrations.
  destruct (read_text f) as [content|e]; [|apply same_registry_warn].
  eapply same_registry_trans; [apply same_registry_finish|].
  destruct (relative_to_root f) as [rel|e] eqn:Hrel.
  - rewrite (js_loop_trace f rel _ _ Hrel). apply same_registry_refl.
  - rewrite (js_loop_no_relative f e _ _ _ Hrel). apply same_registry_refl.
Qed.

Lemma parse_with_lookback_registrations (match_at : string -> option (string * nat))
    (line_marker : string -> option Marker) (f : File) (m : Monitor.TestPyramidMonitor) :
  Spec.same_registry (Monitor.parse_with_lookback match_at line_marker f m)
                     (Trace.register_all
                        (Trace.lookback_registrations match_at line_marker f) m).
Proof.
  unfold Monitor.parse_with_lookback, Trace.lookback_registrations.
  destruct (read_text f) as [content|e]; [|apply same_registry_warn].
  eapply same_registry_trans; [apply same_registry_finish|].
  destruct (relative_to_root f) as [rel|e] eqn:Hrel.
  - rewrite (lookback_loop_trace line_marker f rel content _ Hrel).
    apply same_registry_refl.
  - rewrite (lookback_loop_no_relative line_marker f e content _ _ Hrel).
    apply same_registry_refl.
Qed.

(** Membership after a sequence of registrations. *)
Lemma register_all_all_tests (regs : list (string * list Marker)) :
  forall m id,
    In id (Monitor.all_tests (Trace.register_all regs m))
    <-> In id (Monitor.all_tests m) \/ exists mks, In (id, mks) regs.
Proof.
  induction regs as [|[tid mks] regs IH]; intros m id; cbn [Trace.register_all fold_left].
  - split; [auto|]. intros [H|[? []]]. exact H.
  - fold (Trace.register_all regs (Monitor.register tid mks m)).
    rewrite IH, register_all_tests. cbn [fst snd]. split.
    + intros [[->|H]|[mks' H]]; auto.
      * right. exists mks. now left.
      * right. exists mks'. now right.
    + intros [H|[mks' [E|H]]]; auto.
      * injection E as -> ->. auto.
      * right. eauto.
Qed.

Lemma register_all_tests_of (regs : list (string * list Marker)) :
  forall m id t,
    In id (Monitor.tests_of (Monitor.tests_by_marker (Trace.register_all regs m)) t)
    <-> In id (Monitor.tests_of (Monitor.tests_by_marker m) t)
        \/ exists mks, In (id, mks) regs /\ In t mks.
Proof.
  induction regs as [|[tid mks] regs IH]; intros m id t;
    cbn [Trace.register_all fold_left].
  - split; [auto|]. intros [H|(? & [] & _)]. exact H.
  - fold (Trace.register_all regs (Monitor.register tid mks m)).
    rewrite IH, register_tests_of. cbn [fst snd]. split.
    + intros [[H|[-> H]]|(mks' & H1 & H2)]; auto.
      * right. exists mks. split; [now left|exact H].
      * right. exists mks'. split; [now right|exact H2].
    + intros [H|(mks' & [E|H1] & H2)]; auto.
      * injection E as -> ->. auto.
      * right. eauto.
Qed.

Lemma set_add_present (x : string) (s : str_set) :
  In x s -> set_add string_dec x s = s.
Proof.
  induction s as [|y s IH]; intros Hin; [destruct Hin|].
  cbn. destruct (string_dec x y) as [->|Hne]; [reflexivity|].
  destruct Hin as [->|Hin]; [congruence|]. now rewrite IH.
Qed.

Lemma add_test_present (mk : Marker) (tid : string) (d : Monitor.by_marker) :
  In tid (Monitor.tests_of d mk) -> Monitor.add_test mk tid d = d.
Proof.
  destruct mk, d; cbn; intros H; unfold add; now rewrite set_add_present.
Qed.

Lemma register_present (tid : string) (mks : list Marker)
    (m : Monitor.TestPyramidMonitor) :
  In tid (Monitor.all_tests m) ->
  (forall mk, In mk mks -> In tid (Monitor.tests_of (Monitor.tests_by_marker m) mk)) ->
  Monitor.register tid mks m = m.
Proof.
  intros Hall Hmks. unfold Monitor.register, Monitor.with_registry, add.
  rewrite set_add_present by assumption.
  assert (E : fold_left (fun d mk => Monitor.add_test mk tid d) mks
                (Monitor.tests_by_marker m) = Monitor.tests_by_marker m).
  { induction mks as [|mk mks IH]; [reflexivity|]. cbn [fold_left].
    rewrite add_test_present by (apply Hmks; now left).
    apply IH. intros mk' H. apply Hmks. now right. }
  rewrite E. now destruct m.
Qed.

Lemma register_all_present (regs : list (string * list Marker))
    (m : Monitor.TestPyramidMonitor) :
  (forall tid mks, In (tid, mks) regs ->
     In tid (Monitor.all_tests m)
     /\ forall mk, In mk mks -> In tid (Monitor.tests_of (Monitor.tests_by_marker m) mk)) ->
  Trace.register_all regs m = m.
Proof.
  induction regs as [|[tid mks] regs IH]; intros H; [reflexivity|].
  cbn [Trace.register_all fold_left fst snd].
  destruct (H tid mks (or_introl eq_refl)) as [Hall Hmks].
  rewrite register_present by assumption.
  apply IH. intros tid' mks' Hin. apply H. now right.
Qed.

Lemma register_all_app (regs1 regs2 : list (string * list Marker))
    (m : Monitor.TestPyramidMonitor) :
  Trace.register_all (regs1 ++ regs2) m
  = Trace.register_all regs2 (Trace.register_all regs1 m).
Proof. apply fold_left_app. Qed.

(** Registrations made once more are absorbed. *)
Lemma register_all_absorbed (regs regs0 : list (string * list Marker))
    (m : Monitor.TestPyramidMonitor) :
  incl regs regs0 ->
  Trace.register_all regs (Trace.register_all regs0 m) = Trace.register_all regs0 m.
Proof.
  intros Hincl. apply register_all_present. intros tid mks Hin. split.
  - apply register_all_all_tests. right. exists mks. now apply Hincl.
  - intros mk Hmk. apply register_all_tests_of. right. exists mks.
    split; [now apply Hincl|exact Hmk].
Qed.

Lemma register_all_same_registry (regs : list (string * list Marker)) :
  forall m1 m2,
    Spec.same_registry m1 m2 ->
    Spec.same_registry (Trace.register_all regs m1) (Trace.register_all regs m2).
Proof.
  induction regs as [|[tid mks] regs IH]; intros m1 m2 H; [exact H|].
  cbn [Trace.register_all fold_left]. apply IH. now apply register_same_registry.
Qed.

Lemma same_registry_members (m1 m2 : Monitor.TestPyramidMonitor) :
  Spec.same_registry m1 m2 -> Registry.same_members m1 m2.
Proof. intros [Ha Hb]. split; [intros id|intros mk id]; now rewrite ?Ha, ?Hb. Qed.

Section Parsers.

(** A parser whose effect on the registry is a sequence of registrations
    read off the file. *)
Variable parse : File -> Monitor.TestPyramidMonitor -> Monitor.TestPyramidMonitor.
Variable registrations : File -> list (string * list Marker).
Hypothesis parse_registrations :
  forall f m, Spec.same_registry (parse f m) (Trace.register_all (registrations f) m).

Lemma parser_twice (f : File) (m : Monitor.TestPyramidMonitor) :
  Spec.same_registry (parse f (parse f m)) (parse f m).
Proof.
  eapply same_registry_trans; [apply parse_registrations|].
  eapply same_registry_trans;
    [apply register_all_same_registry, parse_registrations|].
  rewrite register_all_absorbed by apply incl_refl.
  apply same_registry_sym, parse_registrations.
Qed.

Lemma parser_all_tests (f : File) (m : Monitor.TestPyramidMonitor) (id : string) :
  In id (Monitor.all_tests (parse f m))
  <-> In id (Monitor.all_tests m) \/ exists mks, In (id, mks) (registrations f).
Proof.
  destruct (parse_registrations f m) as [E _]. rewrite E.
  apply register_all_all_tests.
Qed.

Lemma parser_tests_of (f : File) (m : Monitor.TestPyramidMonitor) (id : string)
    (t : Marker) :
  In id (Monitor.tests_of (Monitor.tests_by_marker (parse f m)) t)
  <-> In id (Monitor.tests_of (Monitor.tests_by_marker m) t)
      \/ exists mks, In (id, mks) (registrations f) /\ In t mks.
Proof.
  destruct (parse_registrations f m) as [_ E]. rewrite E.
  apply register_all_tests_of.
Qed.

(** The registry after a parse is the registry before, joined with what
    the file gives on an empty registry. *)
Lemma parser_joins (f : File) (m : Monitor.TestPyramidMonitor) (tgts : list (string * Q)) :
  (forall id,
      In id (Monitor.all_tests (parse f m))
      <-> In id (Monitor.all_tests m)
          \/ In id (Monitor.all_tests (parse f (Monitor.init tgts))))
  /\ (forall t id,
         In id (Monitor.tests_of (Monitor.tests_by_marker (parse f m)) t)
         <-> In id (Monitor.tests_of (Monitor.tests_by_marker m) t)
             \/ In id (Monitor.tests_of
                         (Monitor.tests_by_marker (parse f (Monitor.init tgts))) t)).
Proof.
  split.
  - intros id. rewrite !parser_all_tests. cbn [Monitor.init Monitor.all_tests In].
    tauto.
  - intros t id. rewrite !parser_tests_of.
    assert (Hempty : ~ In id (Monitor.tests_of
                                (Monitor.tests_by_marker (Monitor.init tgts)) t))
      by (destruct t; intros []).
    tauto.
Qed.

End Parsers.

(** X6.  For each of the four parsers the registry after parsing a file is
    the registry before joined with what the file contributes, and the
    contribution is what the file gives on an empty registry: nothing is ever
    removed, and what is added does not depend on what was there. *)
Theorem parsers_join_the_file_contribution
    (f : File) (m : Monitor.TestPyramidMonitor) (id : string) (t : Marker) :
  (In id (Monitor.all_tests (Monitor._parse_python_test_file f m))
   <-> In id (Monitor.all_tests m)
       \/ In id (Monitor.all_tests (Monitor._parse_python_test_file f (Monitor.init []))))
  /\ (In id (Monitor.tests_of
               (Monitor.tests_by_marker (Monitor._parse_python_test_file f m)) t)
      <-> In id (Monitor.tests_of (Monitor.tests_by_marker m) t)
          \/ In id (Monitor.tests_of
                      (Monitor.tests_by_marker
                         (Monitor._parse_python_test_file f (Monitor.init []))) t))
  /\ (In id (Monitor.all_tests (Monitor._parse_javascript_test_file f m))
      <-> In id (Monitor.all_tests m)
          \/ In id (Monitor.all_tests
                      (Monitor._parse_javascript_test_file f (Monitor.init []))))
  /\ (In id (Monitor.tests_of
               (Monitor.tests_by_marker (Monitor._parse_javascript_test_file f m)) t)
      <-> In id (Monitor.tests_of (Monitor.tests_by_marker m) t)
          \/ In id (Monitor.tests_of
                      (Monitor.tests_by_marker
                         (Monitor._parse_javascript_test_file f (Monitor.init []))) t))
  /\ (In id (Monitor.all_tests (Monitor._parse_go_test_file f m))
      <-> In id (Monitor.all_tests m)
          \/ In id (Monitor.all_tests (Monitor._parse_go_test_file f (Monitor.init []))))
  /\ (In id (Monitor.tests_of
               (Monitor.tests_by_marker (Monitor._parse_go_test_file f m)) t)
      <-> In id (Monitor.tests_of (Monitor.tests_by_marker m) t)
          \/ In id (Monitor.tests_of
                      (Monitor.tests_by_marker
                         (Monitor._parse_go_test_file f (Monitor.init []))) t))
  /\ (In id (Monitor.all_tests (Monitor._parse_rust_test_file f m))
      <-> In id (Monitor.all_tests m)
          \/ In id (Monitor.all_tests (Monitor._parse_rust_test_file f (Monitor.init []))))
  /\ (In id (Monitor.tests_of
               (Monitor.tests_by_marker (Monitor._parse_rust_test_file f m)) t)
      <-> In id (Monitor.tests_of (Monitor.tests_by_marker m) t)
          \/ In id (Monitor.tests_of
                      (Monitor.tests_by_marker
                         (Monitor._parse_rust_test_file f (Monitor.init []))) t)).
Proof.
  destruct (parser_joins _ _ parse_python_registrations f m []) as [A1 A2].
  destruct (parser_joins _ _ parse_javascript_registrations f m []) as [B1 B2].
  destruct (parser_joins _ _
              (parse_with_lookback_registrations Monitor.go_test_at Monitor.go_line_marker)
              f m []) as [C1 C2].
  destruct (parser_joins _ _
              (parse_with_lookback_registrations Monitor.rust_test_at
                 Monitor.rust_line_marker) f m []) as [D1 D2].
  repeat split; try apply A1; try apply A2; try apply B1; try apply B2;
    try apply C1; try apply C2; try apply D1; try apply D2.
Qed.

(** X7.  Parsing a file a second time changes nothing in the registry, for
    each of the four parsers: identifiers and tier memberships are sets, and a
    repeated registration is absorbed. *)
Theorem parsing_twice_changes_nothing (f : File) (m : Monitor.TestPyramidMonitor) :
  Spec.same_registry
    (Monitor._parse_python_test_file f (Monitor._parse_python_test_file f m))
    (Monitor._parse_python_test_file f m)
  /\ Spec.same_registry
       (Monitor._parse_javascript_test_file f (Monitor._parse_javascript_test_file f m))
       (Monitor._parse_javascript_test_file f m)
  /\ Spec.same_registry
       (Monitor._parse_go_test_file f (Monitor._parse_go_test_file f m))
       (Monitor._parse_go_test_file f m)
  /\ Spec.same_registry
       (Monitor._parse_rust_test_file f (Monitor._parse_rust_test_file f m))
       (Monitor._parse_rust_test_file f m).
Proof.
  split; [apply (parser_twice _ _ parse_python_registrations)|].
  split; [apply (parser_twice _ _ parse_javascript_registrations)|].
  split.
  - apply (parser_twice _ _
             (parse_with_lookback_registrations Monitor.go_test_at Monitor.go_line_marker)).
  - apply (parser_twice _ _
             (parse_with_lookback_registrations Monitor.rust_test_at
                Monitor.rust_line_marker)).
Qed.

(** ** The order of the files *)

Lemma collect_python_all_tests (files : list File) :
  forall m id,
    In id (Monitor.all_tests (Monitor.collect_python_files files m))
    <-> In id (Monitor.all_tests m)
        \/ exists f mks, In f files /\ In (id, mks) (Trace.python_registrations f).
Proof.
  induction files as [|f files IH]; intros m id.
  - cbn. split; [auto|]. intros [H|(? & ? & [] & _)]. exact H.
  - change (Monitor.collect_python_files (f :: files) m)
      with (Monitor.collect_python_files files (Monitor._parse_python_test_file f m)).
    rewrite IH, (parser_all_tests _ _ parse_python_registrations). split.
    + intros [[H|[mks H]]|(f' & mks & H1 & H2)]; auto.
      * right. exists f, mks. split; [now left|exact H].
      * right. exists f', mks. split; [now right|exact H2].
    + intros [H|(f' & mks & [<-|H1] & H2)]; auto.
      * left. right. eauto.
      * right. eauto.
Qed.

Lemma collect_python_tests_of (files : list File) :
  forall m id t,
    In id (Monitor.tests_of
             (Monitor.tests_by_marker (Monitor.collect_python_files files m)) t)
    <-> In id (Monitor.tests_of (Monitor.tests_by_marker m) t)
        \/ exists f mks, In f files /\ In (id, mks) (Trace.python_registrations f)
                         /\ In t mks.
Proof.
  induction files as [|f files IH]; intros m id t.
  - cbn. split; [auto|]. intros [H|(? & ? & [] & _)]. exact H.
  - change (Monitor.collect_python_files (f :: files) m)
      with (Monitor.collect_python_files files (Monitor._parse_python_test_file f m)).
    rewrite IH, (parser_tests_of _ _ parse_python_registrations). split.
    + intros [[H|(mks & H & H')]|(f' & mks & H1 & H2)]; auto.
      * right. exists f, mks. split; [now left|auto].
      * right. exists f', mks. split; [now right|exact H2].
    + intros [H|(f' & mks & [<-|H1] & H2)]; auto.
      * left. right. eauto.
      * right. eauto.
Qed.

Lemma register_targets (tid : string) (mks : list Marker) (m : Monitor.TestPyramidMonitor) :
  Monitor.targets (Monitor.register tid mks m) = Monitor.targets m.
Proof. reflexivity. Qed.

Lemma python_loop_targets (f : File) (lines : list string) (todo : list string) :
  forall i st m,
    Monitor.targets (fst (Monitor.python_loop f lines i todo st m)) = Monitor.targets m.
Proof.
  induction todo as [|l todo IH]; intros i st m; [reflexivity|].
  cbn [Monitor.python_loop].
  destruct (Monitor.test_match l); [|apply IH].
  destruct (relative_to_root f); [|reflexivity].
  now rewrite IH.
Qed.

Lemma parse_python_targets (f : File) (m : Monitor.TestPyramidMonitor) :
  Monitor.targets (Monitor._parse_python_test_file f m) = Monitor.targets m.
Proof.
  unfold Monitor._parse_python_test_file.
  destruct (read_text f) as [content|e]; [|reflexivity].
  pose proof (python_loop_targets f (split_lines content) (split_lines content) 0
                Monitor.initial_scan m) as H.
  destruct (Monitor.python_loop f _ 0 _ _ m) as [m' [e|]]; exact H.
Qed.

Lemma collect_python_targets (files : list File) :
  forall m, Monitor.targets (Monitor.collect_python_files files m) = Monitor.targets m.
Proof.
  induction files as [|f files IH]; intros m; [reflexivity|].
  cbn. fold (Monitor.collect_python_files files (Monitor._parse_python_test_file f m)).
  now rewrite IH, parse_python_targets.
Qed.

Lemma same_members_lengths (m1 m2 : Monitor.TestPyramidMonitor) :
  Registry.same_members m1 m2 ->
  Registry.well_formed m1 -> Registry.well_formed m2 ->
  Monitor.len (Monitor.all_tests m1) = Monitor.len (Monitor.all_tests m2)
  /\ forall mk,
       Monitor.len (Monitor.tests_of (Monitor.tests_by_marker m1) mk)
       = Monitor.len (Monitor.tests_of (Monitor.tests_by_marker m2) mk).
Proof.
  intros [Ha Ht] [N1 T1] [N2 T2]. unfold Monitor.len. split.
  - f_equal. apply Permutation_length, NoDup_Permutation; assumption.
  - intros mk. f_equal. apply Permutation_length, NoDup_Permutation.
    + apply T1.
    + apply T2.
    + apply Ht.
Qed.

Lemma distribution_loop_lengths (m1 m2 : Monitor.TestPyramidMonitor) (total : Z)
    (keys : list string) :
  (forall mk,
      Monitor.len (Monitor.tests_of (Monitor.tests_by_marker m1) mk)
      = Monitor.len (Monitor.tests_of (Monitor.tests_by_marker m2) mk)) ->
  forall d,
    Monitor.distribution_loop m1 total keys d = Monitor.distribution_loop m2 total keys d.
Proof.
  intros Hlen. induction keys as [|key keys IH]; intros d; [reflexivity|].
  cbn [Monitor.distribution_loop]. unfold Monitor.tests_by_marker_getitem.
  destruct (marker_of_string key) as [mk|]; [|reflexivity].
  cbn [bind]. rewrite Hlen.
  destruct (Monitor.truediv _ total); [|reflexivity]. cbn [bind]. apply IH.
Qed.

Lemma same_lengths_same_numbers (m1 m2 : Monitor.TestPyramidMonitor) :
  Monitor.targets m1 = Monitor.targets m2 ->
  Monitor.len (Monitor.all_tests m1) = Monitor.len (Monitor.all_tests m2) ->
  (forall mk,
      Monitor.len (Monitor.tests_of (Monitor.tests_by_marker m1) mk)
      = Monitor.len (Monitor.tests_of (Monitor.tests_by_marker m2) mk)) ->
  Monitor.calculate_distribution m1 = Monitor.calculate_distribution m2
  /\ forall d, Monitor.calculate_score m1 d = Monitor.calculate_score m2 d.
Proof.
  intros Ht Ha Hm. split.
  - unfold Monitor.calculate_distribution. rewrite Ht, Ha.
    destruct (_ =? 0)%Z; [reflexivity|]. now apply distribution_loop_lengths.
  - intros d. unfold Monitor.calculate_score, Monitor.categorized_count.
    rewrite Ht, Ha.
    change (Monitor.unit_tests (Monitor.tests_by_marker m1))
      with (Monitor.tests_of (Monitor.tests_by_marker m1) Unit).
    change (Monitor.integration_tests (Monitor.tests_by_marker m1))
      with (Monitor.tests_of (Monitor.tests_by_marker m1) Integration).
    change (Monitor.e2e_tests (Monitor.tests_by_marker m1))
      with (Monitor.tests_of (Monitor.tests_by_marker m1) E2e).
    rewrite !Hm. reflexivity.
Qed.

Lemma same_members_missing (m1 m2 : Monitor.TestPyramidMonitor) :
  Registry.same_members m1 m2 ->
  Registry.well_formed m1 -> Registry.well_formed m2 ->
  Monitor.get_missing_markers_count m1 = Monitor.get_missing_markers_count m2.
Proof.
  intros [Ha Ht] W1 W2. unfold Monitor.get_missing_markers_count.
  apply Permutation_length, NoDup_Permutation.
  - apply set_diff_nodup, W1.
  - apply set_diff_nodup, W2.
  - intros x. rewrite !set_diff_iff, !categorized_set_iff, Ha.
    split; intros [H1 H2]; (split; [exact H1|]); intros [mk H]; apply H2; exists mk;
      now apply Ht.
Qed.

(** X8.  The order in which the Python collector is handed the files does
    not matter: two enumerations of the same files give registries with the
    same members, hence the same distribution, the same score and the same
    count of tests without markers. *)
Theorem file_order_does_not_matter
    (files files' : list File) (m : Monitor.TestPyramidMonitor) :
  Permutation files files' ->
  Registry.well_formed m ->
  let m1 := Monitor.collect_python_files files m in
  let m2 := Monitor.collect_python_files files' m in
  Registry.same_members m1 m2
  /\ Monitor.calculate_distribution m1 = Monitor.calculate_distribution m2
  /\ (forall d, Monitor.calculate_score m1 d = Monitor.calculate_score m2 d)
  /\ Monitor.get_missing_markers_count m1 = Monitor.get_missing_markers_count m2.
Proof.
  intros Hperm Hm m1 m2.
  assert (Hsame : Registry.same_members m1 m2).
  { split.
    - intros id. unfold m1, m2. rewrite !collect_python_all_tests.
      split; intros [H|(f & mks & H1 & H2)]; auto; right; exists f, mks;
        (split; [|exact H2]).
      + eapply Permutation_in; eassumption.
      + eapply Permutation_in; [apply Permutation_sym|]; eassumption.
    - intros mk id. unfold m1, m2. rewrite !collect_python_tests_of.
      split; intros [H|(f & mks & H1 & H2)]; auto; right; exists f, mks;
        (split; [|exact H2]).
      + eapply Permutation_in; eassumption.
      + eapply Permutation_in; [apply Permutation_sym|]; eassumption. }
  assert (W1 : Registry.well_formed m1) by now apply collect_python_well_formed.
  assert (W2 : Registry.well_formed m2) by now apply collect_python_well_formed.
  destruct (same_members_lengths m1 m2 Hsame W1 W2) as [La Lt].
  assert (Ht : Monitor.targets m1 = Monitor.targets m2)
    by (unfold m1, m2; now rewrite !collect_python_targets).
  destruct (same_lengths_same_numbers m1 m2 Ht La Lt) as [Hd Hs].
  split; [exact Hsame|]. split; [exact Hd|]. split; [exact Hs|].
  now apply same_members_missing.
Qed.

Lemma file_order_does_not_matter_witness :
  Monitor.calculate_distribution
    (Monitor.collect_python_files
       [Examples.scenario1_file; Examples.overlap_file] (Monitor.init []))
  = Monitor.calculate_distribution
      (Monitor.collect_python_files
         [Examples.overlap_file; Examples.scenario1_file] (Monitor.init [])).
Proof.
  apply (file_order_does_not_matter
           [Examples.scenario1_file; Examples.overlap_file]
           [Examples.overlap_file; Examples.scenario1_file] (Monitor.init [])).
  - apply perm_swap.
  - apply well_formed_init.
Defined.

(** ** The validator as a trace, and its agreement with the extractor *)

Lemma validate_loop_trace (lines : list string) (todo : list string) :
  forall i st found v,
    Validator.validate_loop lines i todo st found v
    = (found ++ map Trace.violation_of
                  (filter Trace.unmarked (Trace.validator_events lines i todo st)),
       {| Validator.violations := Validator.violations v;
          Validator.total_tests_checked :=
            Validator.total_tests_checked v
            + length (Trace.validator_events lines i todo st);
          Validator.total_violations :=
            Validator.total_violations v
            + length (filter Trace.unmarked (Trace.validator_events lines i todo st)) |}).
Proof.
  induction todo as [|l todo IH]; intros i st found v.
  - cbn. rewrite app_nil_r, !Nat.add_0_r. now destruct v.
  - cbn [Validator.validate_loop Trace.validator_events].
    destruct (Monitor.class_match l) as [cname|]; [apply IH|].
    destruct (Monitor.test_match l) as [name|]; [|apply IH].
    destruct (Validator.effective_markers (Validator.on_decorator l st)) as [|mk mks] eqn:E.
    + rewrite IH. cbn [filter Trace.unmarked Trace.event_markers].
      cbn [map length]. rewrite <- app_assoc. cbn [app].
      unfold Trace.violation_of at 2. cbn [Trace.event_line Trace.event_class
                                             Trace.event_name].
      f_equal. destruct v. cbn. f_equal; lia.
    + rewrite IH. cbn [filter Trace.unmarked Trace.event_markers].
      cbn [length]. f_equal. destruct v. cbn. f_equal; lia.
Qed.

Lemma set_union_nil (a b : list Marker) :
  set_union Marker_eq_dec a b = [] <-> a = [] /\ b = [].
Proof.
  destruct b as [|x b]; cbn [set_union].
  - split; [auto|]. intros [H _]. exact H.
  - split; [|intros [_ H]; discriminate].
    intros H. exfalso. exact (add_marker_not_nil x _ H).
Qed.

Lemma nil_iff_unmarked (a b : list Marker) :
  (a = [] <-> b = []) ->
  match a with [] => true | _ :: _ => false end
  = match b with [] => true | _ :: _ => false end.
Proof.
  intros [H1 H2]. destruct a, b; try reflexivity.
  - specialize (H1 eq_refl). discriminate.
  - specialize (H2 eq_refl). discriminate.
Qed.

Lemma traces_agree (lines : list string) (todo : list string) :
  forall i sm sv,
    Agreement.states_correspond sm sv ->
    Agreement.no_marker_eleven_above lines i todo ->
    map Agreement.seen_by_extractor (Trace.python_events lines i todo sm)
    = map Agreement.seen_by_validator (Trace.validator_events lines (S i) todo sv).
Proof.
  induction todo as [|l todo IH]; intros i sm sv (Hc & Hcm & Hfm) Hclean; [reflexivity|].
  assert (Hrest : Agreement.no_marker_eleven_above lines (S i) todo).
  { intros k l' Hk Hcl Hge. replace (S i + k) with (i + S k) in * by lia.
    now apply (Hclean (S k) l'). }
  cbn [Trace.python_events Trace.validator_events].
  destruct (Monitor.class_match l) as [cname|] eqn:Hcl.
  - destruct (class_line_is_no_test _ _ Hcl) as [Ht Hd].
    rewrite Ht. unfold Monitor.on_class, Monitor.on_decorator. rewrite Hcl, Hd.
    apply IH; [|exact Hrest].
    split; [reflexivity|]. split; [|tauto]. cbn [Monitor.class_markers Validator.class_markers Monitor.function_markers
           Validator.pending_markers Monitor.current_class Validator.current_class
           Monitor.clear_function_markers Validator.clear_pending].
    rewrite lookbacks_differ_by_one_line. split; [|tauto].
    intros H. split; [exact H|]. intros Hi.
    pose proof (Hclean 0 l eq_refl) as H0. rewrite Hcl, Nat.add_0_r in H0.
    apply H0; [discriminate|exact Hi].
  - assert (Hstep : Agreement.states_correspond
                      (Monitor.on_decorator l (Monitor.on_class lines i l sm))
                      (Validator.on_decorator l sv)).
    { unfold Monitor.on_class, Monitor.on_decorator, Validator.on_decorator.
      rewrite Hcl. destruct (startswith "@pytest.mark." (strip l)).
      - destruct (Monitor.search_marker l) as [mk|] eqn:Hs.
        + split; [exact Hc|]. split; [exact Hcm|]. cbn [Monitor.class_markers Validator.class_markers Monitor.function_markers
           Validator.pending_markers Monitor.current_class Validator.current_class
           Monitor.clear_function_markers Validator.clear_pending]. split.
          * intros H. exfalso. exact (add_marker_not_nil _ _ H).
          * intros H. apply add_markers_in_nil in H. destruct H as [_ H].
            apply search_marker_None in H. congruence.
        + split; [exact Hc|]. split; [exact Hcm|]. cbn [Monitor.class_markers Validator.class_markers Monitor.function_markers
           Validator.pending_markers Monitor.current_class Validator.current_class
           Monitor.clear_function_markers Validator.clear_pending].
          rewrite add_markers_in_nil. apply search_marker_None in Hs. tauto.
      - split; [exact Hc|]. split; assumption. }
    destruct Hstep as (Hc' & Hcm' & Hfm').
    destruct (Monitor.test_match l) as [name|].
    + cbn [map]. f_equal.
      * unfold Agreement.seen_by_extractor, Agreement.seen_by_validator, Trace.unmarked.
        cbn [Trace.event_line Trace.event_class Trace.event_name Trace.event_markers].
        rewrite Hc'. f_equal. apply nil_iff_unmarked.
        unfold Monitor.effective_markers, Validator.effective_markers.
        rewrite !set_union_nil. tauto.
      * apply IH; [|exact Hrest].
        unfold Monitor.clear_function_markers, Validator.clear_pending.
        split; [exact Hc'|]. split; [exact Hcm'|]. cbn [Monitor.class_markers Validator.class_markers Monitor.function_markers
           Validator.pending_markers Monitor.current_class Validator.current_class
           Monitor.clear_function_markers Validator.clear_pending]. tauto.
    + apply IH; [|exact Hrest]. split; [exact Hc'|]. split; assumption.
Qed.

Lemma filter_map_seen (evs evs' : list Trace.test_event) :
  map Agreement.seen_by_extractor evs = map Agreement.seen_by_validator evs' ->
  map Trace.violation_of (filter Trace.unmarked evs')
  = map (fun e => Validator.violation_message (S (Trace.event_line e))
                    (Validator.location (Trace.event_class e) (Trace.event_name e)))
      (filter Trace.unmarked evs)
  /\ length evs' = length evs.
Proof.
  revert evs'. induction evs as [|e evs IH]; intros [|e' evs'] H; try discriminate.
  - split; reflexivity.
  - cbn [map] in H. injection H as H1 H2 H3 H4 H.
    destruct (IH evs' H) as [IH1 IH2]. cbn [filter length]. rewrite H4.
    split; [|now rewrite IH2].
    destruct (Trace.unmarked e'); [|exact IH1].
    cbn [map]. rewrite IH1. unfold Trace.violation_of. now rewrite H1, H2, H3.
Qed.

(** X9.  On a readable file in which no class declaration has a marker on
    the line eleven above it, the validator and the extractor agree test by
    test: the extractor registers the tests met by its loop, in order, and the
    validator checks as many tests and reports, in the same order, exactly
    those the extractor registers without any tier, each with its line number,
    class and name. *)
Theorem validator_agrees_with_extractor
    (f : File) (content rel : string) (m : Monitor.TestPyramidMonitor)
    (v : Validator.TestMarkerValidator) :
  file_exists f = true ->
  read_text f = Ok content ->
  relative_to_root f = Ok rel ->
  Agreement.no_marker_eleven_above (split_lines content) 0 (split_lines content) ->
  let tests := Trace.python_events (split_lines content) 0 (split_lines content)
                 Monitor.initial_scan in
  Monitor._parse_python_test_file f m
  = Trace.register_all
      (map (fun e => (Monitor.python_test_id rel (Trace.event_class e) (Trace.event_name e),
                      Trace.event_markers e)) tests) m
  /\ snd (fst (Validator.validate_file f v))
     = map (fun e => Validator.violation_message (S (Trace.event_line e))
                       (Validator.location (Trace.event_class e) (Trace.event_name e)))
         (filter Trace.unmarked tests)
  /\ Validator.total_tests_checked (snd (Validator.validate_file f v))
     = Validator.total_tests_checked v + length tests
  /\ Validator.total_violations (snd (Validator.validate_file f v))
     = Validator.total_violations v + length (filter Trace.unmarked tests).
Proof.
  intros Hex Hread Hrel Hclean tests.
  split.
  - unfold Monitor._parse_python_test_file. rewrite Hread.
    now rewrite (python_loop_trace f rel _ _ Hrel).
  - unfold Validator.validate_file. rewrite Hex, Hread. cbn [negb].
    rewrite validate_loop_trace. cbn [fst snd app Validator.total_tests_checked
                                        Validator.total_violations].
    assert (Hagree :
      map Agreement.seen_by_extractor tests
      = map Agreement.seen_by_validator
          (Trace.validator_events (split_lines content) 1 (split_lines content)
             Validator.initial_scan)).
    { apply traces_agree; [|exact Hclean]. split; [reflexivity|]. split; reflexivity. }
    destruct (filter_map_seen _ _ Hagree) as [Hmsgs Hlen].
    split; [exact Hmsgs|]. split; [now rewrite Hlen|].
    rewrite <- (length_map Trace.violation_of), Hmsgs, length_map. reflexivity.
Qed.

Lemma validator_agrees_with_extractor_witness :
  snd (fst (Validator.validate_file Examples.scenario4_file Validator.init))
  = map (fun e => Validator.violation_message (S (Trace.event_line e))
                    (Validator.location (Trace.event_class e) (Trace.event_name e)))
      (filter Trace.unmarked
         (Trace.python_events
            (split_lines
               ("import os" ++ Examples.nl ++ Examples.nl
                ++ "class TestBare:" ++ Examples.nl
                ++ "    def test_nothing(self):" ++ Examples.nl
                ++ "        assert True" ++ Examples.nl))
            0
            (split_lines
               ("import os" ++ Examples.nl ++ Examples.nl
                ++ "class TestBare:" ++ Examples.nl
                ++ "    def test_nothing(self):" ++ Examples.nl
                ++ "        assert True" ++ Examples.nl))
            Monitor.initial_scan)).
Proof.
  apply (validator_agrees_with_extractor
           Examples.scenario4_file
           ("import os" ++ Examples.nl ++ Examples.nl
            ++ "class TestBare:" ++ Examples.nl
            ++ "    def test_nothing(self):" ++ Examples.nl
            ++ "        assert True" ++ Examples.nl)%string
           "tests/test_scenario4.py" (Monitor.init []) Validator.init);
    try reflexivity.
  intros k l Hk Hcl Hge. cbn in Hge.
  do 11 (destruct k as [|k]; [lia|]).
  vm_compute in Hk. destruct k; discriminate.
Defined.

(** ** Order and counters of the validator *)

Lemma validator_violations_sorted (lines : list string) (todo : list string) :
  forall i st,
    StronglySorted lt
      (map Trace.event_line (filter Trace.unmarked (Trace.validator_events lines i todo st)))
    /\ Forall (fun n => i <= n)
         (map Trace.event_line
            (filter Trace.unmarked (Trace.validator_events lines i todo st))).
Proof.
  induction todo as [|l todo IH]; intros i st.
  - cbn. split; constructor.
  - assert (Hnext : forall st',
              StronglySorted lt
                (map Trace.event_line
                   (filter Trace.unmarked (Trace.validator_events lines (S i) todo st')))
              /\ Forall (fun n => i <= n)
                   (map Trace.event_line
                      (filter Trace.unmarked
                         (Trace.validator_events lines (S i) todo st')))).
    { intros st'. destruct (IH (S i) st') as [H1 H2]. split; [exact H1|].
      eapply Forall_impl; [|exact H2]. intros n Hn. cbv beta in *. lia. }
    cbn [Trace.validator_events].
    destruct (Monitor.class_match l); [apply Hnext|].
    destruct (Monitor.test_match l) as [name|]; [|apply Hnext].
    cbn [filter]. destruct (Trace.unmarked _); [|apply Hnext].
    cbn [map Trace.event_line]. destruct (IH (S i) (Validator.clear_pending
                                                     (Validator.on_decorator l st)))
      as [H1 H2].
    split.
    + constructor; [exact H1|]. eapply Forall_impl; [|exact H2]. intros n Hn. cbv beta in *. lia.
    + constructor; [lia|]. eapply Forall_impl; [|exact H2]. intros n Hn. cbv beta in *. lia.
Qed.

(** X10.  The violations [validate_file] returns for a readable file are
    listed by strictly increasing line number, one for each test definition
    that has no marker in force, and the line numbers start at 1. *)
Theorem violations_listed_in_line_order
    (f : File) (content : string) (v : Validator.TestMarkerValidator) :
  file_exists f = true ->
  read_text f = Ok content ->
  let unmarked_tests :=
    filter Trace.unmarked
      (Trace.validator_events (split_lines content) 1 (split_lines content)
         Validator.initial_scan) in
  snd (fst (Validator.validate_file f v)) = map Trace.violation_of unmarked_tests
  /\ StronglySorted lt (map Trace.event_line unmarked_tests)
  /\ Forall (fun n => 1 <= n) (map Trace.event_line unmarked_tests)
  /\ (fst (fst (Validator.validate_file f v)) = true <-> unmarked_tests = []).
Proof.
  intros Hex Hread unmarked_tests.
  destruct (validator_violations_sorted (split_lines content) (split_lines content) 1
              Validator.initial_scan) as [Hsorted Hfrom].
  unfold Validator.validate_file. rewrite Hex, Hread. cbn [negb].
  rewrite validate_loop_trace. cbn [fst snd app]. fold unmarked_tests.
  split; [reflexivity|]. split; [exact Hsorted|]. split; [exact Hfrom|].
  rewrite length_map, Nat.eqb_eq. apply length_zero_iff_nil.
Qed.

Lemma violations_listed_in_line_order_witness :
  snd (fst (Validator.validate_file Examples.scenario4_file Validator.init))
  = map Trace.violation_of
      (filter Trace.unmarked
         (Trace.validator_events
            (split_lines
               ("import os" ++ Examples.nl ++ Examples.nl
                ++ "class TestBare:" ++ Examples.nl
                ++ "    def test_nothing(self):" ++ Examples.nl
                ++ "        assert True" ++ Examples.nl))
            1
            (split_lines
               ("import os" ++ Examples.nl ++ Examples.nl
                ++ "class TestBare:" ++ Examples.nl
                ++ "    def test_nothing(self):" ++ Examples.nl
                ++ "        assert True" ++ Examples.nl))
            Validator.initial_scan)).
Proof.
  apply (violations_listed_in_line_order
           Examples.scenario4_file
           ("import os" ++ Examples.nl ++ Examples.nl
            ++ "class TestBare:" ++ Examples.nl
            ++ "    def test_nothing(self):" ++ Examples.nl
            ++ "        assert True" ++ Examples.nl)%string
           Validator.init); reflexivity.
Defined.

Lemma validate_file_counters_grow (f : File) (v : Validator.TestMarkerValidator) :
  let v' := snd (Validator.validate_file f v) in
  Validator.total_tests_checked v <= Validator.total_tests_checked v'
  /\ Validator.total_violations v <= Validator.total_violations v'
  /\ Validator.total_violations v' - Validator.total_violations v
     <= Validator.total_tests_checked v' - Validator.total_tests_checked v.
Proof.
  cbv zeta. unfold Validator.validate_file.
  destruct (negb (file_exists f)); [cbn; lia|].
  destruct (read_text f) as [content|e]; [|cbn; lia].
  rewrite validate_loop_trace. cbn [fst snd Validator.total_tests_checked
                                      Validator.total_violations].
  pose proof (filter_length_le Trace.unmarked
                (Trace.validator_events (split_lines content) 1 (split_lines content)
                   Validator.initial_scan)).
  lia.
Qed.

Lemma validate_files_from_counters (files : list File) :
  forall b v,
    let v' := snd (Validator.validate_files_from b files v) in
    Validator.total_tests_checked v <= Validator.total_tests_checked v'
    /\ Validator.total_violations v <= Validator.total_violations v'
    /\ Validator.total_violations v' - Validator.total_violations v
       <= Validator.total_tests_checked v' - Validator.total_tests_checked v.
Proof.
  induction files as [|f files IH]; intros b v; cbv zeta; [cbn; lia|].
  cbn [Validator.validate_files_from].
  pose proof (validate_file_counters_grow f v) as Hf. cbv zeta in Hf.
  destruct (Validator.validate_file f v) as [[ok found] v1]. cbn [snd] in Hf.
  destruct (negb ok).
  - specialize (IH false (Validator.record_violations (Validator.report_key f) found v1)).
    cbv zeta in IH. cbn [Validator.record_violations Validator.total_tests_checked
                           Validator.total_violations] in IH. lia.
  - specialize (IH b v1). cbv zeta in IH. lia.
Qed.

(** X11.  The validator's counters only grow, and a run never adds more
    violations than tests checked: a validator whose violations do not exceed
    its tests checked keeps that, over any list of files, readable or not. *)
Theorem violations_never_exceed_tests_checked
    (files : list File) (v : Validator.TestMarkerValidator) :
  Validator.total_violations v <= Validator.total_tests_checked v ->
  let v' := snd (Validator.validate_files files v) in
  Validator.total_violations v' <= Validator.total_tests_checked v'
  /\ Validator.total_tests_checked v <= Validator.total_tests_checked v'
  /\ Validator.total_violations v <= Validator.total_violations v'.
Proof.
  intros Hv v'.
  pose proof (validate_files_from_counters files true v) as H. cbv zeta in H.
  fold (Validator.validate_files files v) in H. fold v' in H. lia.
Qed.

Lemma violations_never_exceed_tests_checked_witness :
  Validator.total_violations
    (snd (Validator.validate_files
            [Examples.scenario4_file; Examples.locked_file] Validator.init))
  <= Validator.total_tests_checked
       (snd (Validator.validate_files
               [Examples.scenario4_file; Examples.locked_file] Validator.init)).
Proof.
  apply (violations_never_exceed_tests_checked
           [Examples.scenario4_file; Examples.locked_file] Validator.init).
  cbn. lia.
Defined.

Lemma validate_files_from_flag (files : list File) :
  forall b v v0,
    fst (Validator.validate_files_from b files v)
    = b && fst (Validator.validate_files_from true files v0).
Proof.
  intros b v v0.
  destruct (validate_files_from_spec files b v) as [H1 _].
  destruct (validate_files_from_spec files true v0) as [H2 _]. cbv zeta in H1, H2.
  destruct (fst (Validator.validate_files_from b files v)) eqn:E1;
    destruct (fst (Validator.validate_files_from true files v0)) eqn:E2;
    destruct b; try reflexivity; exfalso.
  - destruct (proj1 H1 eq_refl) as [H _]. discriminate.
  - destruct (proj1 H1 eq_refl) as [_ H]. assert (false = true) by (apply H2; auto).
    discriminate.
  - destruct (proj1 H1 eq_refl) as [H _]. discriminate.
  - destruct (proj1 H2 eq_refl) as [_ H]. assert (false = true) by (apply H1; auto).
    discriminate.
Qed.

(** X12.  The flag [validate_files] returns does not depend on what the
    validator has seen before, and for a list of files in two parts it is the
    conjunction of the flags of the parts.  After two calls on a fresh
    validator the report is valid exactly when both calls returned true. *)
Theorem validate_files_flag_composes
    (files1 files2 : list File) (v v1 v2 : Validator.TestMarkerValidator) :
  fst (Validator.validate_files (files1 ++ files2) v)
  = fst (Validator.validate_files files1 v1) && fst (Validator.validate_files files2 v2)
  /\ Validator.valid
       (Validator.get_json_report
          (snd (Validator.validate_files files2
                  (snd (Validator.validate_files files1 Validator.init)))))
     = fst (Validator.validate_files files1 Validator.init)
       && fst (Validator.validate_files files2
                 (snd (Validator.validate_files files1 Validator.init))).
Proof.
  unfold Validator.validate_files. split.
  - rewrite validate_files_from_app.
    rewrite (validate_files_from_flag files2 _ _ v2).
    now rewrite (validate_files_from_flag files1 true v v1).
  - set (r1 := Validator.validate_files_from true files1 Validator.init).
    destruct (validate_files_from_spec files1 true Validator.init) as [A1 A2].
    destruct (validate_files_from_spec files2 true (snd r1)) as [B1 B2].
    cbv zeta in A1, A2, B1, B2. fold r1 in A1, A2.
    cbn [Validator.valid Validator.get_json_report].
    destruct (fst r1) eqn:E1;
      destruct (fst (Validator.validate_files_from true files2 (snd r1))) eqn:E2;
      cbn [andb].
    + apply Nat.eqb_eq, length_zero_iff_nil, B2. split.
      * apply A2. split; [reflexivity|]. now apply A1.
      * now apply B1.
    + apply Nat.eqb_neq. intros H. apply length_zero_iff_nil, B2 in H.
      destruct H as [_ H]. assert (false = true) by (apply B1; auto). discriminate.
    + apply Nat.eqb_neq. intros H. apply length_zero_iff_nil, B2 in H.
      destruct H as [H _]. apply A2 in H. destruct H as [_ H].
      assert (false = true) by (apply A1; auto). discriminate.
    + apply Nat.eqb_neq. intros H. apply length_zero_iff_nil, B2 in H.
      destruct H as [H _]. apply A2 in H. destruct H as [_ H].
      assert (false = true) by (apply A1; auto). discriminate.
Qed.

(* ------------------------------------------------------------------ *)
(** * template_engine.py: the YAML filters *)

Lemma split_lines_not_nil (s : string) : split_lines s <> [].
Proof.
  induction s as [|c s IH]; cbn; [discriminate|].
  destruct (Ascii.eqb c newline); [discriminate|].
  destruct (split_lines s); discriminate.
Qed.

Lemma join_split_lines (s : string) : Template.join Template.nl (split_lines s) = s.
Proof.
  induction s as [|c s IH]; [reflexivity|].
  cbn [split_lines]. destruct (Ascii.eqb c newline) eqn:Ec.
  - apply Ascii.eqb_eq in Ec. subst c.
    pose proof (split_lines_not_nil s) as Hne.
    destruct (split_lines s) as [|l ls] eqn:E; [contradiction|].
    change (Template.join Template.nl (EmptyString :: l :: ls))
      with (EmptyString ++ Template.nl ++ Template.join Template.nl (l :: ls))%string.
    rewrite IH. reflexivity.
  - pose proof (split_lines_not_nil s) as Hne.
    destruct (split_lines s) as [|l ls] eqn:E; [contradiction|].
    rewrite <- IH. destruct ls as [|l' ls]; reflexivity.
Qed.

Lemma one_line_cons (c : ascii) (s : string) :
  Template.one_line (String c s) <-> Ascii.eqb c newline = false /\ Template.one_line s.
Proof.
  unfold Template.one_line, Template.nl.
  cbn [contains startswith]. rewrite Ascii.eqb_sym.
  destruct (Ascii.eqb c newline); cbn [andb orb]; intuition congruence.
Qed.

Lemma split_lines_one_line (s : string) :
  Template.one_line s -> split_lines s = [s].
Proof.
  induction s as [|c s IH]; intros H; [reflexivity|].
  apply one_line_cons in H. destruct H as [Hc Hs].
  cbn [split_lines]. rewrite Hc, (IH Hs). reflexivity.
Qed.

Lemma split_lines_app (a b : string) :
  Template.one_line a ->
  split_lines (a ++ Template.nl ++ b)%string = a :: split_lines b.
Proof.
  induction a as [|c a IH]; intros H.
  - cbn. reflexivity.
  - apply one_line_cons in H. destruct H as [Hc Ha].
    cbn [append split_lines]. rewrite Hc.
    change (a ++ String newline b)%string with (a ++ Template.nl ++ b)%string.
    rewrite (IH Ha). reflexivity.
Qed.

(** Splitting what [join] gives returns the lines, when none of them holds
    a line break. *)
Lemma split_lines_join (lines : list string) :
  lines <> [] ->
  Forall Template.one_line lines ->
  split_lines (Template.join Template.nl lines) = lines.
Proof.
  induction lines as [|l ls IH]; intros Hne Hall; [contradiction|].
  inversion Hall as [|? ? Hl Hls]; subst.
  destruct ls as [|l' ls].
  - cbn [Template.join]. now apply split_lines_one_line.
  - change (Template.join Template.nl (l :: l' :: ls))
      with (l ++ Template.nl ++ Template.join Template.nl (l' :: ls))%string.
    rewrite split_lines_app by exact Hl.
    rewrite IH; [reflexivity|discriminate|exact Hls].
Qed.

Lemma split_lines_all_one_line (s : string) : Forall Template.one_line (split_lines s).
Proof.
  induction s as [|c s IH]; cbn [split_lines].
  - constructor; [reflexivity|constructor].
  - destruct (Ascii.eqb c newline) eqn:Ec.
    + constructor; [reflexivity|exact IH].
    + destruct (split_lines s) as [|l ls]; [repeat constructor|].
      * apply one_line_cons. split; [exact Ec|reflexivity].
      * inversion IH; subst. constructor; [|assumption].
        apply one_line_cons. split; assumption.
Qed.

Lemma blanks_one_line (n : nat) (s : string) :
  Template.one_line s -> Template.one_line (Template.blanks n ++ s)%string.
Proof.
  intros H. induction n as [|n IH]; [exact H|].
  cbn [Template.blanks append]. apply one_line_cons. split; [reflexivity|exact IH].
Qed.

Lemma blanks_add (a b : nat) (s : string) :
  (Template.blanks b ++ Template.blanks a ++ s
   = Template.blanks (a + b) ++ s)%string.
Proof.
  rewrite Nat.add_comm. induction b as [|b IH]; [reflexivity|].
  cbn [Template.blanks append Nat.add]. now rewrite IH.
Qed.

Lemma spaces_add (a b : Z) (s : string) :
  (Template.spaces b ++ Template.spaces a ++ s
   = Template.spaces (Z.max 0 a + Z.max 0 b) ++ s)%string.
Proof.
  unfold Template.spaces. rewrite blanks_add. f_equal. f_equal. lia.
Qed.

Lemma map_spaces_one_line (w : Z) (lines : list string) :
  Forall Template.one_line lines ->
  Forall Template.one_line (map (fun line => (Template.spaces w ++ line)%string) lines).
Proof.
  intros H. induction H; cbn [map]; constructor; [|assumption].
  now apply blanks_one_line.
Qed.

(** The lines of the indented text, as the filter builds them. *)
Lemma yaml_indent_lines (text : string) (w : Z) (first : bool) :
  split_lines (Template._yaml_indent text w first)
  = if first then map (fun line => (Template.spaces w ++ line)%string) (split_lines text)
    else match split_lines text with
         | [] => []
         | line0 :: rest => line0 :: map (fun line => (Template.spaces w ++ line)%string) rest
         end.
Proof.
  unfold Template._yaml_indent.
  pose proof (split_lines_not_nil text) as Hne.
  pose proof (split_lines_all_one_line text) as Hall.
  destruct first; cbn [negb].
  - apply split_lines_join.
    + destruct (split_lines text); [contradiction|discriminate].
    + now apply map_spaces_one_line.
  - destruct (split_lines text) as [|l ls]; [contradiction|].
    inversion Hall; subst.
    apply split_lines_join; [discriminate|].
    constructor; [assumption|]. now apply map_spaces_one_line.
Qed.

(** X13.  [_yaml_indent] keeps the number of lines and changes nothing but
    the left margin: split again, the result has the lines of the text, each
    after [width] blanks, the first one untouched unless [first] is set.  In
    particular a text of one line passes unchanged when [first] is unset. *)
Theorem yaml_indent_line_by_line (text : string) (width : Z) (first : bool) :
  let out := split_lines (Template._yaml_indent text width first) in
  length out = length (split_lines text)
  /\ (forall k, k < length out ->
        nth k out EmptyString
        = if (k =? 0) && negb first then nth k (split_lines text) EmptyString
          else (Template.spaces width ++ nth k (split_lines text) EmptyString)%string)
  /\ (length (split_lines text) = 1 -> Template._yaml_indent text width false = text).
Proof.
  cbv zeta. rewrite yaml_indent_lines.
  pose proof (split_lines_not_nil text) as Hne.
  split; [|split].
  - destruct first; [apply length_map|].
    destruct (split_lines text); [contradiction|]. cbn [length]. now rewrite length_map.
  - intros k Hk. destruct first; cbn [negb].
    + rewrite andb_false_r. rewrite length_map in Hk.
      rewrite (nth_indep _ _ (Template.spaces width ++ EmptyString)%string)
        by now rewrite length_map.
      now rewrite (map_nth (fun line => (Template.spaces width ++ line)%string)).
    + rewrite andb_true_r. destruct (split_lines text) as [|l ls]; [contradiction|].
      destruct k as [|k]; [reflexivity|]. cbn [Nat.eqb nth].
      cbn [length] in Hk. rewrite length_map in Hk.
      rewrite (nth_indep _ _ (Template.spaces width ++ EmptyString)%string)
        by (rewrite length_map; lia).
      now rewrite (map_nth (fun line => (Template.spaces width ++ line)%string)).
  - intros Hone. rewrite <- (join_split_lines text) at 2.
    unfold Template._yaml_indent. cbn [negb].
    destruct (split_lines text) as [|l [|l' ls]]; [contradiction|reflexivity|discriminate].
Qed.

Lemma yaml_indent_twice (lines : list string) (a b : Z) :
  map (fun line => (Template.spaces b ++ line)%string)
    (map (fun line => (Template.spaces a ++ line)%string) lines)
  = map (fun line => (Template.spaces (Z.max 0 a + Z.max 0 b) ++ line)%string) lines.
Proof.
  rewrite map_map. apply map_ext. intros line. apply spaces_add.
Qed.

(** X14.  Indenting twice is indenting once by the sum of the widths, a
    width below zero counting as zero; and with the width zero or below the
    filter returns the text as it was. *)
Theorem yaml_indent_composes (text : string) (a b : Z) (first : bool) :
  Template._yaml_indent (Template._yaml_indent text a first) b first
  = Template._yaml_indent text (Z.max 0 a + Z.max 0 b) first
  /\ Template._yaml_indent text (Z.min 0 a) first = text.
Proof.
  split.
  - unfold Template._yaml_indent at 1. rewrite yaml_indent_lines.
    unfold Template._yaml_indent.
    pose proof (split_lines_not_nil text) as Hne.
    destruct first; cbn [negb].
    + now rewrite yaml_indent_twice.
    + destruct (split_lines text) as [|l ls]; [contradiction|].
      now rewrite yaml_indent_twice.
  - rewrite <- (join_split_lines text) at 2.
    unfold Template._yaml_indent.
    assert (Hid : forall lines,
               map (fun line => (Template.spaces (Z.min 0 a) ++ line)%string) lines = lines).
    { intros lines. rewrite <- (map_id lines) at 2. apply map_ext. intros line.
      unfold Template.spaces. replace (Z.to_nat (Z.min 0 a)) with 0 by lia. reflexivity. }
    destruct first; cbn [negb].
    + now rewrite Hid.
    + destruct (split_lines text) as [|l ls]; [reflexivity|]. now rewrite Hid.
Qed.

Lemma append_empty_r (s : string) : (s ++ EmptyString)%string = s.
Proof. induction s as [|c s IH]; [reflexivity|]. cbn [append]. now rewrite IH. Qed.

Lemma one_line_app (a b : string) :
  Template.one_line a -> Template.one_line b -> Template.one_line (a ++ b)%string.
Proof.
  intros Ha Hb. induction a as [|c a IH]; [exact Hb|].
  apply one_line_cons in Ha. destruct Ha as [Hc Ha].
  cbn [append]. apply one_line_cons. split; [exact Hc|exact (IH Ha)].
Qed.

Lemma yaml_items_one_line (items : list string) (indent : Z) :
  Forall Template.one_line items ->
  Forall Template.one_line
    (map (fun item => (Template.spaces indent ++ "- " ++ item)%string) items).
Proof.
  intros H. induction H as [|item items Hitem _ IH]; cbn [map]; constructor; [|exact IH].
  apply blanks_one_line. now apply (one_line_app "- " item).
Qed.

(** X15.  A YAML list of items without line breaks has one line per item
    (one empty line when there is no item), and indenting it with [first]
    set is generating it with the larger indent; for no item at all the
    list is the empty string, which the indent filter turns into [width]
    blanks. *)
Theorem yaml_list_indent (items : list string) (indent width : Z) :
  Forall Template.one_line items ->
  length (split_lines (Template._to_yaml_list items indent)) = Nat.max 1 (length items)
  /\ Template._yaml_indent (Template._to_yaml_list items indent) width true
     = match items with
       | [] => Template.spaces width
       | _ :: _ => Template._to_yaml_list items (Z.max 0 indent + Z.max 0 width)
       end.
Proof.
  intros Hitems. destruct items as [|item items].
  - split; [reflexivity|]. unfold Template._yaml_indent, Template._to_yaml_list.
    cbn [map Template.join split_lines negb]. apply append_empty_r.
  - assert (Hsplit : split_lines (Template._to_yaml_list (item :: items) indent)
                     = map (fun item => (Template.spaces indent ++ "- " ++ item)%string)
                         (item :: items)).
    { unfold Template._to_yaml_list. cbv zeta. apply split_lines_join.
      - discriminate.
      - now apply yaml_items_one_line. }
    split.
    + rewrite Hsplit, length_map. cbn [length]. lia.
    + unfold Template._yaml_indent. rewrite Hsplit. cbn [negb].
      unfold Template._to_yaml_list. cbv zeta. f_equal.
      rewrite map_map. apply map_ext. intros it. apply spaces_add.
Qed.

Lemma yaml_list_indent_witness :
  Template._yaml_indent (Template._to_yaml_list ["pytest"; "ruff"] 2) 2 true
  = Template._to_yaml_list ["pytest"; "ruff"] 4.
Proof.
  apply (yaml_list_indent ["pytest"; "ruff"] 2 2).
  repeat constructor.
Defined.

(* ------------------------------------------------------------------ *)
(** * detector.py: languages, frameworks, report *)

Lemma insert_by_score_perm (x : string * nat) (l : list (string * nat)) :
  Permutation (Detector.insert_by_score x l) (x :: l).
Proof.
  induction l as [|y l IH]; cbn [Detector.insert_by_score]; [reflexivity|].
  destruct (snd y <=? snd x); [reflexivity|].
  rewrite IH. apply perm_swap.
Qed.

Lemma sorted_by_score_perm (l : list (string * nat)) :
  Permutation (Detector.sorted_by_score l) l.
Proof.
  induction l as [|x l IH]; [reflexivity|].
  cbn [Detector.sorted_by_score fold_right]. rewrite insert_by_score_perm.
  now constructor.
Qed.

Lemma insert_by_score_sorted (x : string * nat) (l : list (string * nat)) :
  StronglySorted (fun a b => snd b <= snd a) l ->
  StronglySorted (fun a b => snd b <= snd a) (Detector.insert_by_score x l).
Proof.
  induction 1 as [|y l Hl IH Hy]; cbn [Detector.insert_by_score].
  - repeat constructor.
  - destruct (snd y <=? snd x) eqn:E.
    + apply Nat.leb_le in E. constructor; [now constructor|].
      constructor; [exact E|]. eapply Forall_impl; [|exact Hy].
      intros z Hz. cbv beta in *. lia.
    + apply Nat.leb_gt in E. constructor; [exact IH|].
      rewrite insert_by_score_perm. constructor; [lia|exact Hy].
Qed.

Lemma sorted_by_score_sorted (l : list (string * nat)) :
  StronglySorted (fun a b => snd b <= snd a) (Detector.sorted_by_score l).
Proof.
  induction l as [|x l IH]; [constructor|].
  cbn [Detector.sorted_by_score fold_right]. now apply insert_by_score_sorted.
Qed.

(** The sort is stable at the top: the first item is the first of the items
    of greatest score. *)
Lemma sorted_by_score_head (l : list (string * nat)) (top : string * nat)
    (others : list (string * nat)) :
  Detector.sorted_by_score l = top :: others ->
  exists pre post,
    l = pre ++ top :: post
    /\ Forall (fun y => snd y < snd top) pre
    /\ Forall (fun y => snd y <= snd top) post.
Proof.
  revert top others. induction l as [|x l IH]; intros top others E; [discriminate|].
  cbn [Detector.sorted_by_score fold_right] in E.
  fold (Detector.sorted_by_score l) in E.
  destruct (Detector.sorted_by_score l) as [|y r] eqn:Es.
  - assert (l = []) as ->.
    { pose proof (sorted_by_score_perm l) as Hp. rewrite Es in Hp.
      now apply Permutation_nil in Hp. }
    cbn in E. injection E as <- <-. exists [], []. repeat constructor.
  - destruct (IH y r eq_refl) as (pre & post & -> & Hpre & Hpost).
    cbn [Detector.insert_by_score] in E. destruct (snd y <=? snd x) eqn:Ec.
    + apply Nat.leb_le in Ec. injection E as <- <-.
      exists [], (pre ++ y :: post). split; [reflexivity|]. split; [constructor|].
      apply Forall_app. split.
      * eapply Forall_impl; [|exact Hpre]. intros z Hz. cbv beta in *. lia.
      * constructor; [exact Ec|]. eapply Forall_impl; [|exact Hpost].
        intros z Hz. cbv beta in *. lia.
    + apply Nat.leb_gt in Ec. injection E as <- <-.
      exists (x :: pre), post. split; [reflexivity|]. split; [|exact Hpost].
      constructor; [exact Ec|exact Hpre].
Qed.

Lemma getitem_in {A : Type} (d : list (string * A)) (k : string) (v : A) :
  NoDup (map fst d) -> In (k, v) d -> Monitor.getitem d k = Ok v.
Proof.
  induction d as [|[k' v'] d IH]; intros Hnd Hin; [destruct Hin|].
  cbn [map fst] in Hnd. inversion Hnd as [|? ? Hk' Hd]; subst.
  cbn [Monitor.getitem]. destruct Hin as [E|Hin].
  - injection E as -> ->. now rewrite String.eqb_refl.
  - destruct (String.eqb k k') eqn:Ek; [|now apply IH].
    apply String.eqb_eq in Ek. subst k'. exfalso. apply Hk'.
    now apply (in_map fst d (k, v)).
Qed.

Lemma secondary_of_filter (scores others : list (string * nat)) :
  NoDup (map fst scores) ->
  incl others scores ->
  Detector.secondary_of scores others
  = Ok (map fst (filter (fun e => 10 <=? snd e) others)).
Proof.
  intros Hnd. induction others as [|[lang s] others IH]; intros Hincl; [reflexivity|].
  cbn [Detector.secondary_of].
  rewrite (getitem_in scores lang s Hnd) by (apply Hincl; now left).
  cbn [bind]. rewrite IH by (intros e He; apply Hincl; now right).
  cbn [bind filter snd]. now destruct (10 <=? s).
Qed.

Lemma languages_nodup : NoDup Detector.languages.
Proof.
  repeat constructor; cbn; intuition discriminate.
Qed.

Lemma filter_keys_nodup (f : string -> nat) (p : string * nat -> bool) (l : list string) :
  NoDup l -> NoDup (map fst (filter p (map (fun k => (k, f k)) l))).
Proof.
  induction 1 as [|k l Hk Hl IH]; cbn [map filter]; [constructor|].
  destruct (p (k, f k)); [|exact IH]. cbn [map fst]. constructor; [|exact IH].
  intros Hin. apply Hk. apply in_map_iff in Hin. destruct Hin as ([k' s] & <- & Hin).
  apply filter_In in Hin. destruct Hin as [Hin _].
  apply in_map_iff in Hin. destruct Hin as (k'' & E & Hin). now injection E as <- _.
Qed.

Lemma nodup_filter_keys (l : list (string * nat)) (p : string * nat -> bool) :
  NoDup (map fst l) -> NoDup (map fst (filter p l)).
Proof.
  induction l as [|e l IH]; cbn [map filter]; intros H; [constructor|].
  inversion H as [|? ? Hn Hl]; subst. destruct (p e); [|now apply IH].
  cbn [map]. constructor; [|now apply IH]. intros Hin. apply Hn.
  apply in_map_iff in Hin. destruct Hin as (x & E & Hx). apply filter_In in Hx.
  rewrite <- E. apply in_map. tauto.
Qed.

Lemma files_score_cases (d : Detector.ProjectDetector) (files : list string) :
  forall score,
    match Detector.files_score d files score with
    | Ok _ => True
    | Raise e => exists file, In file files /\ Detector.path_exists d file = Raise e
    end.
Proof.
  induction files as [|file files IH]; intros score; cbn [Detector.files_score];
    [exact I|].
  destruct (Detector.path_exists d file) as [found|e] eqn:E; cbn [bind].
  - specialize (IH (if found then score + 10 else score)).
    destruct (Detector.files_score d files _); [exact I|].
    destruct IH as (f & Hf & Hr). exists f. split; [now right|exact Hr].
  - exists file. split; [now left|exact E].
Qed.

Lemma extensions_score_cases (d : Detector.ProjectDetector) (extensions : list string) :
  forall score,
    match Detector.extensions_score d extensions score with
    | Ok _ => True
    | Raise e =>
        exists ext, In ext extensions /\ Detector.rglob d ("*" ++ ext)%string = Raise e
    end.
Proof.
  induction extensions as [|ext extensions IH]; intros score;
    cbn [Detector.extensions_score]; [exact I|].
  destruct (Detector.rglob d ("*" ++ ext)%string) as [listed|e] eqn:E; cbn [bind].
  - cbv zeta.
    specialize (IH (score + Nat.min (length (filter Detector.counted listed)) 50)).
    destruct (Detector.extensions_score d extensions _); [exact I|].
    destruct IH as (x & Hx & Hr). exists x. split; [now right|exact Hr].
  - exists ext. split; [now left|exact E].
Qed.

(** A score fails only with what [exists] or [rglob] raises. *)
Lemma language_score_raises (d : Detector.ProjectDetector)
    (files extensions : list string) (e : exn) :
  Detector.language_score d files extensions = Raise e ->
  (exists file, Detector.path_exists d file = Raise e)
  \/ (exists pattern, Detector.rglob d pattern = Raise e).
Proof.
  unfold Detector.language_score. intros H.
  pose proof (files_score_cases d files 0) as Hf.
  destruct (Detector.files_score d files 0) as [score|e']; cbn [bind] in H.
  - pose proof (extensions_score_cases d extensions score) as Hx.
    rewrite H in Hx. destruct Hx as (ext & _ & Hr). right. eauto.
  - injection H as ->. destruct Hf as (file & _ & Hr). left. eauto.
Qed.

(** The score of a language as a number, 0 when it cannot be computed. *)
Lemma scores_loop_cases (d : Detector.ProjectDetector)
    (table : list (string * (list string * list string))) :
  forall acc,
    match Detector.scores_loop d table acc with
    | Ok scores =>
        exists numbers,
          Forall2 (fun entry n =>
                     Detector.language_score d (fst (snd entry)) (snd (snd entry))
                     = Ok n)
            table numbers
          /\ scores
             = acc ++ filter (fun e => 0 <? snd e) (combine (map fst table) numbers)
    | Raise e =>
        exists entry,
          In entry table
          /\ Detector.language_score d (fst (snd entry)) (snd (snd entry)) = Raise e
    end.
Proof.
  induction table as [|entry table IH]; intros acc; cbn [Detector.scores_loop].
  - exists []. split; [constructor|]. cbn. now rewrite app_nil_r.
  - destruct (Detector.language_score d (fst (snd entry)) (snd (snd entry)))
      as [score|e] eqn:E; cbn [bind].
    + specialize (IH (if 0 <? score then acc ++ [(fst entry, score)] else acc)).
      destruct (Detector.scores_loop d table _) as [scores|e].
      * destruct IH as (numbers & Hall & ->). exists (score :: numbers).
        split; [now constructor|]. cbn [map combine filter snd].
        destruct (0 <? score); [now rewrite <- app_assoc|reflexivity].
      * destruct IH as (x & Hx & Hr). exists x. split; [now right|exact Hr].
    + exists entry. split; [now left|exact E].
Qed.

(** What the loop of [detect_languages] leaves in [scores]: the languages of
    the table that score above zero, in the table's order. *)
Lemma detect_languages_scores (d : Detector.ProjectDetector) :
  match Detector.scores_loop d Detector.LANGUAGE_INDICATORS [] with
  | Ok scores =>
      exists score : string -> nat,
        (forall lang, In lang Detector.languages ->
                      Detector.score_of d lang = Ok (score lang))
        /\ scores = Detector.positive_scores score
  | Raise e =>
      exists lang, In lang Detector.languages /\ Detector.score_of d lang = Raise e
  end.
Proof.
  pose proof (scores_loop_cases d Detector.LANGUAGE_INDICATORS []) as H.
  destruct (Detector.scores_loop d Detector.LANGUAGE_INDICATORS []) as [scores|e].
  - destruct H as (numbers & Hall & ->). cbn [app].
    unfold Detector.LANGUAGE_INDICATORS in Hall.
    inversion Hall as [|e1 n1 t1 l1 H1 Hall1]; subst.
    inversion Hall1 as [|e2 n2 t2 l2 H2 Hall2]; subst.
    inversion Hall2 as [|e3 n3 t3 l3 H3 Hall3]; subst.
    inversion Hall3 as [|e4 n4 t4 l4 H4 Hall4]; subst.
    inversion Hall4; subst. cbn [fst snd] in H1, H2, H3, H4.
    exists (fun lang =>
              if String.eqb lang "python" then n1
              else if String.eqb lang "javascript" then n2
              else if String.eqb lang "go" then n3
              else if String.eqb lang "rust" then n4
              else 0).
    split; [|reflexivity].
    intros lang [<-|[<-|[<-|[<-|[]]]]]; assumption.
  - destruct H as (entry & Hin & Hr).
    destruct Hin as [<-|[<-|[<-|[<-|[]]]]];
      [exists "python"|exists "javascript"|exists "go"|exists "rust"];
      (split; [cbn; tauto|exact Hr]).
Qed.

Lemma score_of_raises (d : Detector.ProjectDetector) (lang : string) (e : exn) :
  Detector.score_of d lang = Raise e ->
  (exists file, Detector.path_exists d file = Raise e)
  \/ (exists pattern, Detector.rglob d pattern = Raise e).
Proof.
  unfold Detector.score_of.
  destruct (Monitor.getitem Detector.LANGUAGE_INDICATORS lang) as [[files extensions]|];
    [apply language_score_raises|discriminate].
Qed.

Section Scores.

Variable score : string -> nat.

Lemma scores_nodup : NoDup (map fst (Detector.positive_scores score)).
Proof. apply filter_keys_nodup, languages_nodup. Qed.

Lemma scores_in (lang : string) (s : nat) :
  In (lang, s) (Detector.positive_scores score)
  <-> In lang Detector.languages /\ s = score lang /\ 0 < s.
Proof.
  unfold Detector.positive_scores. rewrite filter_In, in_map_iff. cbn [snd]. split.
  - intros [(k & E & Hk) Hs]. injection E as -> <-. apply Nat.ltb_lt in Hs. tauto.
  - intros (Hk & -> & Hs). split; [now exists lang|now apply Nat.ltb_lt].
Qed.

(** What [detect_languages] returns from the dict. *)
Lemma choose_languages_sorted :
  match Detector.sorted_by_score (Detector.positive_scores score) with
  | [] =>
      (Detector.positive_scores score) = []
      /\ Detector.choose_languages (Detector.positive_scores score)
         = Ok {| Detector.primary := None; Detector.secondary := [] |}
  | (top, s) :: others =>
      Detector.choose_languages (Detector.positive_scores score)
      = Ok {| Detector.primary := Some top;
              Detector.secondary := map fst (filter (fun e => 10 <=? snd e) others) |}
  end.
Proof.
  unfold Detector.choose_languages.
  pose proof (sorted_by_score_perm (Detector.positive_scores score)) as Hperm.
  pose proof scores_nodup as Hnd.
  destruct (Detector.sorted_by_score (Detector.positive_scores score)) as [|[top s] others].
  - apply Permutation_nil in Hperm. rewrite Hperm. split; reflexivity.
  - destruct (Detector.positive_scores score) as [|e l] eqn:El.
    + symmetry in Hperm. apply Permutation_nil in Hperm. discriminate.
    + rewrite secondary_of_filter; [reflexivity|exact Hnd|].
      intros x Hx. apply (Permutation_in x Hperm). now right.
Qed.

Lemma choose_languages_primary :
  exists ls,
    Detector.choose_languages (Detector.positive_scores score) = Ok ls
    /\ (Detector.primary ls = None
        <-> forall lang, In lang Detector.languages -> score lang = 0)
    /\ (forall top, Detector.primary ls = Some top ->
          In top Detector.languages
          /\ 0 < score top
          /\ (forall lang, In lang Detector.languages -> score lang <= score top)
          /\ (forall pre post lang,
                Detector.languages = pre ++ top :: post -> In lang pre ->
                score lang < score top)).
Proof.
  pose proof choose_languages_sorted as H.
  pose proof (sorted_by_score_perm (Detector.positive_scores score)) as Hperm.
  destruct (Detector.sorted_by_score (Detector.positive_scores score)) as [|[top s] others] eqn:Es.
  - destruct H as [Hnil ->]. eexists. split; [reflexivity|]. cbn [Detector.primary].
    split; [|intros top E; discriminate].
    split; [|reflexivity]. intros _ lang Hlang.
    destruct (score lang) as [|n] eqn:E; [reflexivity|].
    assert (Hin : In (lang, S n) (Detector.positive_scores score))
      by (apply scores_in; repeat split; [exact Hlang|now rewrite E|lia]).
    rewrite Hnil in Hin. destruct Hin.
  - rewrite H. eexists. split; [reflexivity|]. cbn [Detector.primary].
    assert (Htop : In (top, s) (Detector.positive_scores score))
      by (apply (Permutation_in _ Hperm); now left).
    apply scores_in in Htop. destruct Htop as (Hlang & -> & Hpos).
    split.
    + split; [discriminate|]. intros Hzero. rewrite (Hzero top Hlang) in Hpos. lia.
    + intros top' E. injection E as <-.
      destruct (sorted_by_score_head _ _ _ Es) as (pre & post & El & Hpre & Hpost).
      cbn [snd] in Hpre, Hpost.
      assert (Hle : forall lang, In lang Detector.languages -> score lang <= score top).
      { intros lang Hl. destruct (score lang) as [|n] eqn:E; [lia|].
        assert (Hin : In (lang, S n) (Detector.positive_scores score))
          by (apply scores_in; repeat split; [exact Hl|now rewrite E|lia]).
        rewrite El in Hin. apply in_app_or in Hin. destruct Hin as [Hin|[Hin|Hin]].
        - rewrite Forall_forall in Hpre. specialize (Hpre _ Hin). cbn in Hpre. lia.
        - injection Hin as <- Hs. lia.
        - rewrite Forall_forall in Hpost. specialize (Hpost _ Hin). cbn in Hpost. lia. }
      repeat split; [exact Hlang|exact Hpos|exact Hle|].
      intros lpre lpost lang Hsplit Hin.
      destruct (score lang) as [|n] eqn:E; [lia|].
      rewrite <- E.
      (* [lang] comes before [top] in the dict of (Detector.positive_scores score) as well *)
      pose proof scores_nodup as Hkeys.
      unfold Detector.positive_scores in El, Hkeys.
      rewrite Hsplit, map_app, filter_app in El, Hkeys.
      cbn [map filter snd] in El, Hkeys.
      assert (Hp : (0 <? score top) = true) by now apply Nat.ltb_lt.
      rewrite Hp in El, Hkeys.
      set (A := filter (fun e => 0 <? snd e)
                  (map (fun lang => (lang, score lang)) lpre)) in *.
      set (B := filter (fun e => 0 <? snd e)
                  (map (fun lang => (lang, score lang)) lpost)) in *.
      assert (HA : In (lang, score lang) A).
      { apply filter_In. split; [apply in_map_iff; now exists lang|].
        cbn [snd]. apply Nat.ltb_lt. lia. }
      assert (Epre : A = pre).
      { clear - El Hkeys. revert pre El.
        induction A as [|a A IH]; intros pre El.
        - destruct pre as [|p pre]; [reflexivity|]. cbn [app] in El.
          injection El as <- El. exfalso.
          cbn [app map fst] in Hkeys. inversion Hkeys as [|? ? Hn _]; subst.
          apply Hn. rewrite El, map_app. apply in_or_app. right. now left.
        - destruct pre as [|p pre].
          + cbn [app] in El. injection El as -> El. exfalso.
            cbn [app map fst] in Hkeys. inversion Hkeys as [|? ? Hn _]; subst.
            apply Hn. rewrite map_app. apply in_or_app. right. now left.
          + cbn [app] in El. injection El as <- El. f_equal. apply IH; [|exact El].
            cbn [app map] in Hkeys. now inversion Hkeys. }
      rewrite Epre in HA. rewrite Forall_forall in Hpre.
      apply (Hpre _ HA).
Qed.

Lemma sorted_filter_keys (l : list (string * nat)) :
  (forall e, In e l -> snd e = score (fst e)) ->
  StronglySorted (fun a b => snd b <= snd a) l ->
  StronglySorted (fun a b => score b <= score a)
    (map fst (filter (fun e => 10 <=? snd e) l)).
Proof.
  intros Hscore H. induction H as [|e l Hl IH He]; cbn [filter map]; [constructor|].
  assert (IH' := IH (fun x Hx => Hscore x (or_intror Hx))).
  destruct (10 <=? snd e); [|exact IH']. cbn [map]. constructor; [exact IH'|].
  rewrite Forall_forall in *. intros k Hk. apply in_map_iff in Hk.
  destruct Hk as (x & <- & Hx). apply filter_In in Hx. destruct Hx as [Hx _].
  rewrite <- (Hscore x (or_intror Hx)), <- (Hscore e (or_introl eq_refl)).
  exact (He x Hx).
Qed.

Lemma choose_languages_secondary :
  exists ls,
    Detector.choose_languages (Detector.positive_scores score) = Ok ls
    /\ (forall lang,
          In lang (Detector.secondary ls)
          <-> In lang Detector.languages
              /\ Detector.primary ls <> Some lang
              /\ 10 <= score lang)
    /\ NoDup (Detector.secondary ls)
    /\ StronglySorted (fun a b => score b <= score a) (Detector.secondary ls).
Proof.
  pose proof choose_languages_sorted as H.
  pose proof (sorted_by_score_perm (Detector.positive_scores score)) as Hperm.
  pose proof (sorted_by_score_sorted (Detector.positive_scores score)) as Hsorted.
  pose proof scores_nodup as Hnd.
  destruct (Detector.sorted_by_score (Detector.positive_scores score)) as [|[top s] others] eqn:Es.
  - destruct H as [Hnil ->]. eexists. split; [reflexivity|].
    cbn [Detector.primary Detector.secondary].
    split; [|split; constructor]. intros lang. split; [intros []|].
    intros (Hlang & _ & Hten).
    assert (Hin : In (lang, score lang) (Detector.positive_scores score))
      by (apply scores_in; repeat split; [exact Hlang|lia]).
    rewrite Hnil in Hin. destruct Hin.
  - rewrite H. eexists. split; [reflexivity|].
    cbn [Detector.primary Detector.secondary].
    assert (Hkeys : NoDup (map fst ((top, s) :: others))).
    { eapply Permutation_NoDup; [|exact Hnd]. symmetry. now apply Permutation_map. }
    cbn [map fst] in Hkeys. inversion Hkeys as [|? ? Htop Hothers]; subst.
    assert (Hscore : forall e, In e others -> snd e = score (fst e)).
    { intros [k v] He. cbn [fst snd].
      assert (Hin : In (k, v) (Detector.positive_scores score))
        by (apply (Permutation_in _ Hperm); now right).
      apply scores_in in Hin. tauto. }
    split; [|split].
    + intros lang. rewrite in_map_iff. split.
      * intros ([k v] & <- & Hin). apply filter_In in Hin. destruct Hin as [Hin Hv].
        cbn [fst snd] in *. apply Nat.leb_le in Hv.
        assert (Hs : In (k, v) (Detector.positive_scores score))
          by (apply (Permutation_in _ Hperm); now right).
        apply scores_in in Hs. destruct Hs as (Hk & -> & _).
        repeat split; [exact Hk| |exact Hv].
        intros E. injection E as ->. apply Htop.
        now apply (in_map fst others (k, score k)).
      * intros (Hlang & Hne & Hten).
        assert (Hs : In (lang, score lang) (Detector.positive_scores score))
          by (apply scores_in; repeat split; [exact Hlang|lia]).
        apply (Permutation_in _ (Permutation_sym Hperm)) in Hs.
        destruct Hs as [E|Hs]; [injection E as -> _; now contradiction Hne|].
        exists (lang, score lang). split; [reflexivity|].
        apply filter_In. split; [exact Hs|]. now apply Nat.leb_le.
    + now apply nodup_filter_keys.
    + apply sorted_filter_keys; [exact Hscore|]. now inversion Hsorted.
Qed.

End Scores.

(** X16.  [detect_languages] adds no error of its own: it fails only with
    what an [exists] or an [rglob] call raises while a language is scored.
    When it returns, it names no primary language exactly when every
    language of the table scores zero; otherwise the primary language scores
    above zero, no language scores more, and every language listed before it
    in the table scores strictly less: on a tie the language listed first
    wins. *)
Theorem detect_languages_primary (d : Detector.ProjectDetector) :
  match Detector.detect_languages d with
  | Ok ls =>
      exists score : string -> nat,
        (forall lang, In lang Detector.languages ->
                      Detector.score_of d lang = Ok (score lang))
        /\ (Detector.primary ls = None
            <-> forall lang, In lang Detector.languages -> score lang = 0)
        /\ (forall top, Detector.primary ls = Some top ->
              In top Detector.languages
              /\ 0 < score top
              /\ (forall lang, In lang Detector.languages -> score lang <= score top)
              /\ (forall pre post lang,
                    Detector.languages = pre ++ top :: post -> In lang pre ->
                    score lang < score top))
  | Raise e =>
      (exists lang, In lang Detector.languages /\ Detector.score_of d lang = Raise e)
      /\ ((exists file, Detector.path_exists d file = Raise e)
          \/ (exists pattern, Detector.rglob d pattern = Raise e))
  end.
Proof.
  unfold Detector.detect_languages.
  pose proof (detect_languages_scores d) as H.
  destruct (Detector.scores_loop d Detector.LANGUAGE_INDICATORS []) as [scores|e];
    cbn [bind].
  - destruct H as (score & Hscore & ->).
    destruct (choose_languages_primary score) as (ls & -> & Hnone & Htop).
    exists score. split; [exact Hscore|]. split; [exact Hnone|exact Htop].
  - split; [exact H|]. destruct H as (lang & _ & Hr). exact (score_of_raises d lang e Hr).
Qed.

(** X17.  The secondary languages [detect_languages] returns are the
    languages of the table, other than the primary one, that score 10 or
    more, each once and by falling score; the primary language itself needs
    no such score.  The call fails only when scoring a language fails, so it
    returns whenever every [exists] and every [rglob] call answers. *)
Theorem detect_languages_secondary (d : Detector.ProjectDetector) :
  match Detector.detect_languages d with
  | Ok ls =>
      exists score : string -> nat,
        (forall lang, In lang Detector.languages ->
                      Detector.score_of d lang = Ok (score lang))
        /\ (forall lang,
              In lang (Detector.secondary ls)
              <-> In lang Detector.languages
                  /\ Detector.primary ls <> Some lang
                  /\ 10 <= score lang)
        /\ NoDup (Detector.secondary ls)
        /\ StronglySorted (fun a b => score b <= score a) (Detector.secondary ls)
  | Raise e =>
      exists lang, In lang Detector.languages /\ Detector.score_of d lang = Raise e
  end
  /\ ((forall path, exists answer, Detector.path_exists d path = Ok answer) ->
      (forall pattern, exists listed, Detector.rglob d pattern = Ok listed) ->
      exists ls, Detector.detect_languages d = Ok ls).
Proof.
  unfold Detector.detect_languages.
  pose proof (detect_languages_scores d) as H.
  destruct (Detector.scores_loop d Detector.LANGUAGE_INDICATORS []) as [scores|e];
    cbn [bind].
  - destruct H as (score & Hscore & ->).
    destruct (choose_languages_secondary score) as (ls & -> & Hin & Hnd & Hsorted).
    split; [|intros _ _; now exists ls].
    exists score. split; [exact Hscore|]. split; [exact Hin|]. split; assumption.
  - split; [exact H|]. intros Hexists Hrglob. exfalso.
    destruct H as (lang & _ & Hr).
    destruct (score_of_raises d lang e Hr) as [[file Hf]|[pattern Hp]].
    + destruct (Hexists file) as [answer Ha]. congruence.
    + destruct (Hrglob pattern) as [listed Hl]. congruence.
Qed.

(** The first call of [any] that does not answer [False] decides. *)
Lemma any_cases (call : string -> result bool) (names : list string) :
  match Detector.any call names with
  | Ok true =>
      exists pre name post,
        names = pre ++ name :: post
        /\ Forall (fun n => call n = Ok false) pre /\ call name = Ok true
  | Ok false => Forall (fun n => call n = Ok false) names
  | Raise e =>
      exists pre name post,
        names = pre ++ name :: post
        /\ Forall (fun n => call n = Ok false) pre /\ call name = Raise e
  end.
Proof.
  induction names as [|name names IH]; cbn [Detector.any]; [constructor|].
  destruct (call name) as [[|]|e] eqn:E; cbn [bind].
  - exists [], name, names. repeat split; [constructor|exact E].
  - destruct (Detector.any call names) as [[|]|e].
    + destruct IH as (pre & n & post & -> & Hpre & Hn).
      exists (name :: pre), n, post. repeat split; [now constructor|exact Hn].
    + now constructor.
    + destruct IH as (pre & n & post & -> & Hpre & Hn).
      exists (name :: pre), n, post. repeat split; [now constructor|exact Hn].
  - exists [], name, names. repeat split; [constructor|exact E].
Qed.

Lemma any_raises (call : string -> result bool) (names : list string) (e : exn) :
  Detector.any call names = Raise e -> exists name, In name names /\ call name = Raise e.
Proof.
  intros H. pose proof (any_cases call names) as Hc. rewrite H in Hc.
  destruct Hc as (pre & name & post & -> & _ & Hn). exists name.
  split; [apply in_or_app; right; now left|exact Hn].
Qed.

(** X18.  [detect_test_framework] answers [None] exactly for a language
    that is not in the table.  For Python the answer is pytest whatever the
    project holds: the files looked at can only make the call fail, with
    what [exists] raises on pytest.ini, conftest.py or pyproject.toml, or
    with what reading a pyproject.toml that exists raises.  For JavaScript it
    is vitest or jest, or the error of [exists] on one of the six files it
    looks for, or of reading a package.json that exists.  For Go and Rust the
    answer is fixed and nothing is looked at. *)
Theorem test_framework_of_language (d : Detector.ProjectDetector) (language : string) :
  match Detector.detect_test_framework d language with
  | Ok None => ~ In language Detector.languages
  | Ok (Some framework) =>
      In language Detector.languages
      /\ (language = "python" -> framework = "pytest")
      /\ (language = "javascript" -> framework = "vitest" \/ framework = "jest")
      /\ (language = "go" -> framework = "go test")
      /\ (language = "rust" -> framework = "cargo test")
  | Raise e =>
      (language = "python"
       /\ ((exists file,
              In file ["pytest.ini"; "conftest.py"; "pyproject.toml"]
              /\ Detector.path_exists d file = Raise e)
           \/ (Detector.path_exists d "pytest.ini" = Ok false
               /\ Detector.path_exists d "conftest.py" = Ok false
               /\ Detector.path_exists d "pyproject.toml" = Ok true
               /\ Detector.path_read_text d "pyproject.toml" = Raise e)))
      \/ (language = "javascript"
          /\ ((exists file,
                 In file ["vitest.config.ts"; "vitest.config.js"; "jest.config.js";
                          "jest.config.ts"; "jest.config.json"; "package.json"]
                 /\ Detector.path_exists d file = Raise e)
              \/ (Detector.path_exists d "package.json" = Ok true
                  /\ Detector.path_read_text d "package.json" = Raise e)))
  end.
Proof.
  unfold Detector.detect_test_framework.
  destruct (String.eqb language "python") eqn:Epy.
  { apply String.eqb_eq in Epy. subst language.
    destruct (Detector.path_exists d "pytest.ini") as [[|]|e] eqn:E1; cbn [bind].
    - repeat split; try discriminate; cbn; tauto.
    - destruct (Detector.path_exists d "conftest.py") as [[|]|e] eqn:E2; cbn [bind].
      + repeat split; try discriminate; cbn; tauto.
      + destruct (Detector.path_exists d "pyproject.toml") as [[|]|e] eqn:E3;
          cbn [bind].
        * destruct (Detector.path_read_text d "pyproject.toml") as [content|e] eqn:E4;
            cbn [bind].
          -- destruct (contains "pytest" content);
               repeat split; try discriminate; cbn; tauto.
          -- left. split; [reflexivity|]. right. repeat split.
        * repeat split; try discriminate; cbn; tauto.
        * left. split; [reflexivity|]. left. exists "pyproject.toml". cbn. tauto.
      + left. split; [reflexivity|]. left. exists "conftest.py". cbn. tauto.
    - left. split; [reflexivity|]. left. exists "pytest.ini". cbn. tauto. }
  destruct (String.eqb language "javascript") eqn:Ejs.
  { apply String.eqb_eq in Ejs. subst language.
    destruct (Detector.any (Detector.path_exists d)
                ["vitest.config.ts"; "vitest.config.js"]) as [[|]|e] eqn:E1; cbn [bind].
    - repeat split; try discriminate; cbn; tauto.
    - destruct (Detector.any (Detector.path_exists d)
                  ["jest.config.js"; "jest.config.ts"; "jest.config.json"])
        as [[|]|e] eqn:E2; cbn [bind].
      + repeat split; try discriminate; cbn; tauto.
      + destruct (Detector.path_exists d "package.json") as [[|]|e] eqn:E3; cbn [bind].
        * destruct (Detector.path_read_text d "package.json") as [content|e] eqn:E4;
            cbn [bind].
          -- destruct (contains "vitest" content); [|destruct (contains "jest" content)];
               repeat split; try discriminate; cbn; tauto.
          -- right. split; [reflexivity|]. right. split; reflexivity.
        * repeat split; try discriminate; cbn; tauto.
        * right. split; [reflexivity|]. left. exists "package.json". cbn. tauto.
      + right. split; [reflexivity|]. left.
        apply any_raises in E2. destruct E2 as (file & Hin & Hr).
        exists file. split; [cbn in Hin |- *; tauto|exact Hr].
    - right. split; [reflexivity|]. left.
      apply any_raises in E1. destruct E1 as (file & Hin & Hr).
      exists file. split; [cbn in Hin |- *; tauto|exact Hr]. }
  destruct (String.eqb language "go") eqn:Ego.
  { apply String.eqb_eq in Ego. subst language.
    repeat split; try discriminate; cbn; tauto. }
  destruct (String.eqb language "rust") eqn:Ers.
  { apply String.eqb_eq in Ers. subst language.
    repeat split; try discriminate; cbn; tauto. }
  apply String.eqb_neq in Epy, Ejs, Ego, Ers.
  cbn. intuition congruence.
Qed.

Lemma detect_frontend_framework_cases (d : Detector.ProjectDetector) :
  match Detector.detect_frontend_framework d with
  | Ok None => True
  | Ok (Some framework) =>
      Detector.path_exists d "package.json" = Ok true
      /\ In framework ["react"; "vue"; "svelte"; "angular"]
  | Raise e =>
      Detector.path_exists d "package.json" = Raise e
      \/ (Detector.path_exists d "package.json" = Ok true
          /\ Detector.path_read_text d "package.json" = Raise e)
  end.
Proof.
  unfold Detector.detect_frontend_framework.
  destruct (Detector.path_exists d "package.json") as [[|]|e]; cbn [bind negb];
    [|exact I|now left].
  destruct (Detector.path_read_text d "package.json") as [content|e]; cbn [bind];
    [|right; split; reflexivity].
  destruct (_ || _); [split; [reflexivity|cbn; tauto]|].
  destruct (contains _ content); [split; [reflexivity|cbn; tauto]|].
  destruct (contains _ content); [split; [reflexivity|cbn; tauto]|].
  destruct (contains _ content); [split; [reflexivity|cbn; tauto]|].
  exact I.
Qed.

(** X19.  [has_frontend] never returns [False].  It returns [True] exactly
    when, going through the five directories in order, [is_dir] answers
    [True] for one of them after answering [False] for those before it.
    When [is_dir] answers [False] for all five it hands back what
    [detect_frontend_framework] gave, the framework's name or [None], or fails
    as that call does; and it fails with what [is_dir] raises when that comes
    before any [True]. *)
Theorem has_frontend_never_False (d : Detector.ProjectDetector) :
  let first_answer (answer : result bool) :=
    exists pre name post,
      Detector.frontend_indicators = pre ++ name :: post
      /\ Forall (fun n => Detector.path_is_dir d n = Ok false) pre
      /\ Detector.path_is_dir d name = answer in
  let no_directory :=
    Forall (fun n => Detector.path_is_dir d n = Ok false) Detector.frontend_indicators in
  match Detector.has_frontend d with
  | Ok v =>
      v <> Detector.Bool false
      /\ (v = Detector.Bool true <-> first_answer (Ok true))
      /\ (v <> Detector.Bool true ->
          no_directory
          /\ exists framework,
               Detector.detect_frontend_framework d = Ok framework
               /\ v = Detector.of_optional framework
               /\ (Detector.truthy v = true <-> framework <> None))
  | Raise e =>
      first_answer (Raise e)
      \/ (no_directory /\ Detector.detect_frontend_framework d = Raise e)
  end.
Proof.
  cbv zeta. unfold Detector.has_frontend.
  pose proof (any_cases (Detector.path_is_dir d) Detector.frontend_indicators) as Hany.
  assert (Hnot : Forall (fun n => Detector.path_is_dir d n = Ok false)
                   Detector.frontend_indicators ->
                 ~ exists pre name post,
                     Detector.frontend_indicators = pre ++ name :: post
                     /\ Forall (fun n => Detector.path_is_dir d n = Ok false) pre
                     /\ Detector.path_is_dir d name = Ok true).
  { intros Hall (pre & name & post & E & _ & Hn). rewrite Forall_forall in Hall.
    assert (Hin : In name Detector.frontend_indicators)
      by (rewrite E; apply in_or_app; right; now left).
    rewrite (Hall name Hin) in Hn. discriminate. }
  destruct (Detector.any (Detector.path_is_dir d) Detector.frontend_indicators)
    as [[|]|e]; cbn [bind].
  - split; [discriminate|]. split; [tauto|]. intros H. now contradiction H.
  - pose proof (detect_frontend_framework_cases d) as Hf.
    destruct (Detector.detect_frontend_framework d) as [[framework|]|e]; cbn [bind].
    + cbn [Detector.of_optional]. split; [discriminate|]. split.
      * split; [discriminate|]. intros H. now apply Hnot in H.
      * intros _. split; [exact Hany|]. exists (Some framework).
        split; [reflexivity|]. split; [reflexivity|].
        destruct Hf as [_ Hf]. cbn [Detector.truthy].
        split; [discriminate|]. intros _.
        cbn in Hf. decompose [or] Hf; subst; try reflexivity; contradiction.
    + cbn [Detector.of_optional]. split; [discriminate|]. split.
      * split; [discriminate|]. intros H. now apply Hnot in H.
      * intros _. split; [exact Hany|]. exists None.
        split; [reflexivity|]. split; [reflexivity|].
        cbn. split; [discriminate|]. intros H. now contradiction H.
    + right. split; [exact Hany|reflexivity].
  - left. exact Hany.
Qed.

Lemma has_frontend_cases (d : Detector.ProjectDetector) :
  match Detector.has_frontend d with
  | Ok v =>
      v = Detector.Bool true
      \/ match Detector.detect_frontend_framework d with
         | Ok framework => v = Detector.of_optional framework
         | Raise _ => False
         end
  | Raise e =>
      (exists name, Detector.path_is_dir d name = Raise e)
      \/ Detector.detect_frontend_framework d = Raise e
  end.
Proof.
  unfold Detector.has_frontend.
  destruct (Detector.any (Detector.path_is_dir d) Detector.frontend_indicators)
    as [[|]|e] eqn:E; cbn [bind].
  - now left.
  - destruct (Detector.detect_frontend_framework d); cbn [bind]; [now right|now right].
  - left. apply any_raises in E. destruct E as (name & _ & Hr). eauto.
Qed.

Lemma primary_is_listed (d : Detector.ProjectDetector) (ls : Detector.Languages)
    (top : string) :
  Detector.detect_languages d = Ok ls ->
  Detector.primary ls = Some top -> In top Detector.languages.
Proof.
  unfold Detector.detect_languages. intros H Htop.
  pose proof (detect_languages_scores d) as Hs.
  destruct (Detector.scores_loop d Detector.LANGUAGE_INDICATORS []) as [scores|e];
    cbn [bind] in H; [|discriminate].
  destruct Hs as (score & _ & ->).
  destruct (choose_languages_primary score) as (ls' & E & _ & Hlisted).
  rewrite E in H. injection H as ->. now apply Hlisted.
Qed.

Lemma detect_languages_raises (d : Detector.ProjectDetector) (e : exn) :
  Detector.detect_languages d = Raise e -> Detector.raised_by_call d e.
Proof.
  unfold Detector.detect_languages. intros H.
  pose proof (detect_languages_scores d) as Hs.
  destruct (Detector.scores_loop d Detector.LANGUAGE_INDICATORS []) as [scores|e'];
    cbn [bind] in H.
  - destruct Hs as (score & _ & ->).
    destruct (choose_languages_primary score) as (ls & E & _). congruence.
  - injection H as ->. destruct Hs as (lang & _ & Hr).
    destruct (score_of_raises d lang e Hr) as [[file Hf]|[pattern Hp]].
    + left. eauto.
    + right. right. right. eauto.
Qed.

Lemma test_framework_listed (d : Detector.ProjectDetector) (language : string) :
  In language Detector.languages ->
  match Detector.detect_test_framework d language with
  | Ok framework => framework <> None
  | Raise e => Detector.raised_by_call d e
  end.
Proof.
  intros Hin. cbn in Hin. unfold Detector.detect_test_framework.
  destruct Hin as [<-|[<-|[<-|[<-|[]]]]]; cbn [String.eqb Ascii.eqb Bool.eqb andb];
    try discriminate.
  - destruct (Detector.path_exists d "pytest.ini") as [[|]|e] eqn:E1; cbn [bind];
      [discriminate| |left; eauto].
    destruct (Detector.path_exists d "conftest.py") as [[|]|e] eqn:E2; cbn [bind];
      [discriminate| |left; eauto].
    destruct (Detector.path_exists d "pyproject.toml") as [[|]|e] eqn:E3; cbn [bind];
      [|discriminate|left; eauto].
    destruct (Detector.path_read_text d "pyproject.toml") as [content|e] eqn:E4;
      cbn [bind]; [|right; right; left; eauto].
    destruct (contains "pytest" content); discriminate.
  - destruct (Detector.any (Detector.path_exists d)
                ["vitest.config.ts"; "vitest.config.js"]) as [[|]|e] eqn:E1; cbn [bind];
      [discriminate| |apply any_raises in E1; destruct E1 as (f & _ & Hr); left; eauto].
    destruct (Detector.any (Detector.path_exists d)
                ["jest.config.js"; "jest.config.ts"; "jest.config.json"])
      as [[|]|e] eqn:E2; cbn [bind];
      [discriminate| |apply any_raises in E2; destruct E2 as (f & _ & Hr); left; eauto].
    destruct (Detector.path_exists d "package.json") as [[|]|e] eqn:E3; cbn [bind];
      [|discriminate|left; eauto].
    destruct (Detector.path_read_text d "package.json") as [content|e] eqn:E4;
      cbn [bind]; [|right; right; left; eauto].
    destruct (contains "vitest" content); [discriminate|].
    destruct (contains "jest" content); discriminate.
Qed.

(** X20.  A full report names a test framework exactly when it names a
    primary language, and its [has_frontend] entry is [True] or repeats its
    [frontend_framework] entry.  The report adds no error of its own: it
    fails only with what one of its calls to [exists], [is_dir], [rglob] or
    [read_text] raises. *)
Theorem full_report_consistent (d : Detector.ProjectDetector) :
  match Detector.get_full_report d with
  | Ok r =>
      Detector.detect_languages d = Ok (Detector.report_languages r)
      /\ (Detector.report_test_framework r = None
          <-> Detector.primary (Detector.report_languages r) = None)
      /\ (Detector.report_has_frontend r = Detector.Bool true
          \/ Detector.report_has_frontend r
             = Detector.of_optional (Detector.report_frontend_framework r))
  | Raise e => Detector.raised_by_call d e
  end.
Proof.
  unfold Detector.get_full_report.
  pose proof (detect_languages_raises d) as Hlr.
  pose proof (primary_is_listed d) as Htop.
  destruct (Detector.detect_languages d) as [ls|e]; cbn [bind];
    [|now apply Hlr].
  assert (Hframework :
            match (match Detector.primary ls with
                   | Some language => Detector.detect_test_framework d language
                   | None => Ok None
                   end) with
            | Ok fw => fw = None <-> Detector.primary ls = None
            | Raise e => Detector.raised_by_call d e
            end).
  { destruct (Detector.primary ls) as [top|] eqn:Ep; [|tauto].
    pose proof (test_framework_listed d top (Htop ls top eq_refl Ep)) as Ht.
    destruct (Detector.detect_test_framework d top) as [[fw|]|e].
    - split; discriminate.
    - now contradiction Ht.
    - exact Ht. }
  destruct (match Detector.primary ls with
            | Some language => Detector.detect_test_framework d language
            | None => Ok None
            end) as [fw|e]; cbn [bind]; [|exact Hframework].
  pose proof (detect_frontend_framework_cases d) as Hfw.
  pose proof (has_frontend_cases d) as Hhas.
  destruct (Detector.detect_frontend_framework d) as [framework|e] eqn:Ef; cbn [bind].
  2:{ destruct Hfw as [Hfw|[_ Hfw]]; [left; eauto|right; right; left; eauto]. }
  destruct (Detector.has_frontend d) as [v|e]; cbn [bind].
  2:{ destruct Hhas as [[name Hn]|Hn]; [right; left; eauto|discriminate]. }
  unfold Detector.has_docker.
  destruct (Detector.path_exists d "Dockerfile") as [dockerfile|e] eqn:Ed; cbn [bind];
    [|left; eauto].
  assert (Hdocker : match (if dockerfile then Ok true
                           else Detector.path_exists d "docker-compose.yml") with
                    | Ok _ => True
                    | Raise e => Detector.raised_by_call d e
                    end).
  { destruct dockerfile; [exact I|].
    destruct (Detector.path_exists d "docker-compose.yml") eqn:Ec; [exact I|left; eauto]. }
  destruct (if dockerfile then Ok true else Detector.path_exists d "docker-compose.yml")
    as [docker|e]; cbn [bind]; [|exact Hdocker].
  unfold Detector.has_kubernetes. cbv zeta.
  destruct (Detector.any (Detector.path_exists d)
              ["k8s"; "kubernetes"; "helm"; "kustomization.yaml"]) as [kubernetes|e] eqn:Ek;
    cbn [bind].
  2:{ apply any_raises in Ek. destruct Ek as (name & _ & Hr). left. eauto. }
  cbn [Detector.report_languages Detector.report_test_framework
       Detector.report_has_frontend Detector.report_frontend_framework].
  split; [reflexivity|]. split; [exact Hframework|exact Hhas].
Qed.

(* ------------------------------------------------------------------ *)
(** * pyramid-monitor.py: recommendations and collection *)

Lemma targets_loop_cases (items d : list (string * Q)) :
  forall acc,
    match Advice.targets_loop items d acc with
    | Ok recs =>
        (forall k, In k (map fst items) -> exists a, Monitor.getitem d k = Ok a)
        /\ recs = acc ++ Advice.targets_advice items d
    | Raise e =>
        exists k, e = KeyError k /\ In k (map fst items)
                  /\ Monitor.getitem d k = Raise (KeyError k)
    end.
Proof.
  induction items as [|[marker target] items IH]; intros acc.
  - cbn. split; [intros k []|now rewrite app_nil_r].
  - cbn [Advice.targets_loop Advice.targets_advice flat_map fst snd map].
    destruct (getitem_cases d marker) as [[actual E]|E]; rewrite E; cbn [bind].
    + fold (Advice.targets_advice items d).
      match goal with |- context [Advice.targets_loop items d ?a] =>
        specialize (IH a); destruct (Advice.targets_loop items d a) as [recs|e] end.
      * destruct IH as [Hkeys ->]. split.
        -- intros k [<-|Hk]; [now exists actual|now apply Hkeys].
        -- unfold Advice.tier_advice. cbv zeta.
           destruct (Advice.gt (Qabs (actual - target)) 5);
             [destruct (Advice.gt (actual - target) 0)|];
             now rewrite <- ?app_assoc.
      * destruct IH as (k & -> & Hk & Hget). exists k. repeat split; [now right|exact Hget].
    + exists marker. repeat split; [now left|exact E].
Qed.

Lemma tier_advice_not_healthy (marker : string) (target actual : Q) (r : Advice.recommendation) :
  In r (Advice.tier_advice marker target actual) ->
  (exists delta, r = Advice.ReduceTests marker delta target)
  \/ (exists shortfall, r = Advice.AddMoreTests marker shortfall target).
Proof.
  unfold Advice.tier_advice. cbv zeta.
  destruct (Advice.gt _ _); [destruct (Advice.gt _ _)|]; intros H.
  - destruct H as [<-|[]]. left. eauto.
  - destruct H as [<-|[]]. right. eauto.
  - destruct H.
Qed.

Lemma targets_advice_tiers (items d : list (string * Q)) (r : Advice.recommendation) :
  In r (Advice.targets_advice items d) ->
  exists marker target,
    (exists delta, r = Advice.ReduceTests marker delta target)
    \/ (exists shortfall, r = Advice.AddMoreTests marker shortfall target).
Proof.
  unfold Advice.targets_advice. rewrite in_flat_map. intros ([marker target] & _ & H).
  cbn [fst snd] in H. destruct (Monitor.getitem d marker); [|destruct H].
  exists marker, target. now apply tier_advice_not_healthy in H.
Qed.


(** The list before the last test: markers first, then the tiers in the
    order of the targets, then the two fixed warnings. *)
Lemma generate_recommendations_shape
    (m : Monitor.TestPyramidMonitor) (d : list (string * Q)) :
  match Advice._generate_recommendations m d with
  | Ok recs =>
      exists unit e2e,
        Monitor.getitem d "unit" = Ok unit
        /\ Monitor.getitem d "e2e" = Ok e2e
        /\ (forall k, In k (map fst (Monitor.targets m)) ->
                      exists a, Monitor.getitem d k = Ok a)
        /\ recs
           = match
               (if 0 <? Monitor.get_missing_markers_count m
                then [Advice.AddMarkers (Monitor.get_missing_markers_count m)] else [])
               ++ Advice.targets_advice (Monitor.targets m) d
               ++ (if Advice.lt unit 60 then [Advice.UnitCoverageLow] else [])
               ++ (if Advice.gt e2e 15 then [Advice.E2eOverRepresented] else [])
             with
             | [] => [Advice.LooksHealthy]
             | r :: all => r :: all
             end
  | Raise e =>
      exists k, e = KeyError k
                /\ Monitor.getitem d k = Raise (KeyError k)
                /\ (In k (map fst (Monitor.targets m)) \/ k = "unit" \/ k = "e2e")
  end.
Proof.
  unfold Advice._generate_recommendations. cbv zeta.
  set (first := if 0 <? Monitor.get_missing_markers_count m
                then [Advice.AddMarkers (Monitor.get_missing_markers_count m)] else []).
  pose proof (targets_loop_cases (Monitor.targets m) d first) as Hloop.
  destruct (Advice.targets_loop (Monitor.targets m) d first) as [recs|e]; cbn [bind].
  2:{ destruct Hloop as (k & -> & Hk & Hget). exists k. tauto. }
  destruct Hloop as [Hkeys ->].
  destruct (getitem_cases d "unit") as [[unit Eu]|Eu]; rewrite Eu; cbn [bind].
  2:{ exists "unit". tauto. }
  destruct (getitem_cases d "e2e") as [[e2e Ee]|Ee]; rewrite Ee; cbn [bind].
  2:{ exists "e2e". tauto. }
  exists unit, e2e. split; [reflexivity|]. split; [reflexivity|]. split; [exact Hkeys|].
  destruct (Advice.gt e2e 15), (Advice.lt unit 60);
    rewrite <- ?app_assoc, ?app_nil_r, ?app_nil_l;
    match goal with
    | |- _ = match ?l with [] => _ | _ :: _ => _ end => destruct l; reflexivity
    end.
Qed.

Lemma first_advice_is_markers (n : nat) (r : Advice.recommendation) :
  In r (if 0 <? n then [Advice.AddMarkers n] else []) -> r = Advice.AddMarkers n.
Proof. destruct (0 <? n); intros H; [destruct H as [<-|[]]; reflexivity|destruct H]. Qed.

Lemma optional_advice (b : bool) (r0 r : Advice.recommendation) :
  In r (if b then [r0] else []) <-> b = true /\ r = r0.
Proof.
  destruct b; cbn [In]; split.
  - intros [<-|[]]. now split.
  - intros [_ ->]. now left.
  - intros [].
  - intros [E _]. discriminate.
Qed.

Lemma tier_advice_length (marker : string) (target actual : Q) :
  length (Advice.tier_advice marker target actual) <= 1.
Proof.
  unfold Advice.tier_advice. cbv zeta.
  destruct (Advice.gt _ _); [destruct (Advice.gt _ _)|]; cbn; lia.
Qed.

Lemma targets_advice_length (items d : list (string * Q)) :
  length (Advice.targets_advice items d) <= length items.
Proof.
  induction items as [|[marker target] items IH]; [cbn; lia|].
  cbn [Advice.targets_advice flat_map fst snd length].
  fold (Advice.targets_advice items d). rewrite length_app.
  destruct (Monitor.getitem d marker) as [actual|].
  - pose proof (tier_advice_length marker target actual). lia.
  - cbn [length]. lia.
Qed.

(** X21.  [_generate_recommendations] never returns an empty list, and at
    most one message for each target beside the three fixed ones.  The
    message that the pyramid looks healthy is returned only alone, and only
    when no test lacks a marker; when tests lack markers the list begins with
    the request to mark that many tests, which appears for no other number.
    The only error is the [KeyError] of a target key, of unit or of e2e that
    the distribution lacks, and a list is returned only when it has them
    all. *)
Theorem recommendations_never_empty
    (m : Monitor.TestPyramidMonitor) (d : list (string * Q)) :
  match Advice._generate_recommendations m d with
  | Ok recs =>
      recs <> []
      /\ length recs <= length (Monitor.targets m) + 3
      /\ (In Advice.LooksHealthy recs <-> recs = [Advice.LooksHealthy])
      /\ (recs = [Advice.LooksHealthy] -> Monitor.get_missing_markers_count m = 0)
      /\ (0 < Monitor.get_missing_markers_count m ->
          exists rest,
            recs = Advice.AddMarkers (Monitor.get_missing_markers_count m) :: rest)
      /\ (forall n, In (Advice.AddMarkers n) recs ->
                    n = Monitor.get_missing_markers_count m /\ 0 < n)
      /\ (forall k, In k (map fst (Monitor.targets m)) \/ k = "unit" \/ k = "e2e" ->
                    exists a, Monitor.getitem d k = Ok a)
  | Raise e =>
      exists k, e = KeyError k
                /\ Monitor.getitem d k = Raise (KeyError k)
                /\ (In k (map fst (Monitor.targets m)) \/ k = "unit" \/ k = "e2e")
  end.
Proof.
  pose proof (generate_recommendations_shape m d) as Hshape.
  destruct (Advice._generate_recommendations m d) as [recs|e]; [|exact Hshape].
  destruct Hshape as (unit & e2e & Eu & Ee & Hkeys & ->).
  set (missing := Monitor.get_missing_markers_count m).
  set (first := if 0 <? missing then [Advice.AddMarkers missing] else []).
  set (low := if Advice.lt unit 60 then [Advice.UnitCoverageLow] else []).
  set (over := if Advice.gt e2e 15 then [Advice.E2eOverRepresented] else []).
  set (all := first ++ Advice.targets_advice (Monitor.targets m) d ++ low ++ over).
  assert (Hmembers : forall r, In r all ->
            (r = Advice.AddMarkers missing /\ 0 < missing)
            \/ (exists marker target,
                  (exists delta, r = Advice.ReduceTests marker delta target)
                  \/ (exists shortfall, r = Advice.AddMoreTests marker shortfall target))
            \/ r = Advice.UnitCoverageLow
            \/ r = Advice.E2eOverRepresented).
  { intros r. subst all. rewrite !in_app_iff. intros [H|[H|[H|H]]].
    - left. subst first. destruct (0 <? missing) eqn:E; [|destruct H].
      apply Nat.ltb_lt in E. destruct H as [<-|[]]. now split.
    - right. left. now apply targets_advice_tiers in H.
    - right. right. left. apply optional_advice in H. tauto.
    - right. right. right. apply optional_advice in H. tauto. }
  assert (Hno : ~ In Advice.LooksHealthy all).
  { intros H. apply Hmembers in H.
    destruct H as [[H _]|[(mk & tg & [[x H]|[x H]])|[H|H]]]; discriminate. }
  assert (Hlen : length all <= length (Monitor.targets m) + 3).
  { subst all. rewrite !length_app.
    pose proof (targets_advice_length (Monitor.targets m) d).
    assert (length first <= 1) by (subst first; destruct (0 <? missing); cbn; lia).
    assert (length low <= 1) by (subst low; destruct (Advice.lt unit 60); cbn; lia).
    assert (length over <= 1) by (subst over; destruct (Advice.gt e2e 15); cbn; lia).
    lia. }
  assert (Hfirst : 0 < missing ->
            exists rest, all = Advice.AddMarkers missing :: rest).
  { intros Hpos. subst all first. apply Nat.ltb_lt in Hpos. rewrite Hpos.
    cbn [app]. eauto. }
  assert (Hall : forall k, In k (map fst (Monitor.targets m)) \/ k = "unit" \/ k = "e2e" ->
                           exists a, Monitor.getitem d k = Ok a).
  { intros k [Hk|[->| ->]]; [now apply Hkeys|eauto|eauto]. }
  destruct all as [|r all'] eqn:Eall.
  - split; [discriminate|]. split; [cbn; lia|].
    split; [split; [reflexivity|intros _; now left]|].
    split.
    { intros _. destruct missing as [|n] eqn:Em; [reflexivity|].
      destruct Hfirst as [rest H]; [lia|discriminate]. }
    split.
    { intros Hpos. destruct (Hfirst Hpos) as [rest H]. discriminate. }
    split; [|exact Hall].
    intros n [H|[]]. discriminate.
  - split; [discriminate|]. split; [exact Hlen|].
    split.
    { split; [intros H; contradiction|]. intros H. exfalso. apply Hno.
      rewrite H. now left. }
    split.
    { intros H. exfalso. apply Hno. rewrite H. now left. }
    split; [exact Hfirst|]. split; [|exact Hall].
    intros n H. apply Hmembers in H.
    destruct H as [[H Hpos]|[(mk & tg & [[x H]|[x H]])|[H|H]]]; try discriminate.
    injection H as ->. now split.
Qed.

Lemma generate_recommendations_members
    (m : Monitor.TestPyramidMonitor) (d : list (string * Q))
    (recs : list Advice.recommendation) :
  Advice._generate_recommendations m d = Ok recs ->
  exists unit e2e,
    Monitor.getitem d "unit" = Ok unit
    /\ Monitor.getitem d "e2e" = Ok e2e
    /\ (forall r, In r (Advice.targets_advice (Monitor.targets m) d) -> In r recs)
    /\ (In Advice.UnitCoverageLow recs -> (unit < 60)%Q)
    /\ (In Advice.E2eOverRepresented recs -> (15 < e2e)%Q).
Proof.
  intros E. pose proof (generate_recommendations_shape m d) as Hshape.
  rewrite E in Hshape. destruct Hshape as (unit & e2e & Eu & Ee & _ & Hrecs).
  exists unit, e2e. split; [exact Eu|]. split; [exact Ee|].
  set (first := if 0 <? Monitor.get_missing_markers_count m
                then [Advice.AddMarkers (Monitor.get_missing_markers_count m)] else [])
    in Hrecs.
  set (all := first ++ Advice.targets_advice (Monitor.targets m) d
              ++ (if Advice.lt unit 60 then [Advice.UnitCoverageLow] else [])
              ++ (if Advice.gt e2e 15 then [Advice.E2eOverRepresented] else []))
    in Hrecs.
  assert (Hin : forall r, r <> Advice.LooksHealthy -> (In r recs <-> In r all)).
  { intros r Hr. rewrite Hrecs. destruct all as [|r0 all']; [|tauto].
    cbn [In]. split; [intros [H|[]]; now contradiction Hr|intros []]. }
  assert (Hsub : forall r, In r all -> In r recs).
  { intros r H. rewrite Hrecs. destruct all; [destruct H|exact H]. }
  assert (Hlt : Advice.lt unit 60 = true -> (unit < 60)%Q).
  { unfold Advice.lt. intros H. apply negb_true_iff in H. apply Qnot_le_lt.
    intros Hle. apply Qle_bool_iff in Hle. congruence. }
  assert (Hgt : Advice.gt e2e 15 = true -> (15 < e2e)%Q).
  { unfold Advice.gt. intros H. apply negb_true_iff in H. apply Qnot_le_lt.
    intros Hle. apply Qle_bool_iff in Hle. congruence. }
  split; [|split].
  - intros r Hr. apply Hsub. subst all. rewrite !in_app_iff. tauto.
  - intros H. apply Hin in H; [|discriminate]. subst all. rewrite !in_app_iff in H.
    destruct H as [H|[H|[H|H]]].
    + apply first_advice_is_markers in H. discriminate.
    + apply targets_advice_tiers in H.
      destruct H as (mk & tg & [[x H]|[x H]]); discriminate.
    + apply optional_advice in H. now apply Hlt.
    + apply optional_advice in H. destruct H as [_ H]. discriminate.
  - intros H. apply Hin in H; [|discriminate]. subst all. rewrite !in_app_iff in H.
    destruct H as [H|[H|[H|H]]].
    + apply first_advice_is_markers in H. discriminate.
    + apply targets_advice_tiers in H.
      destruct H as (mk & tg & [[x H]|[x H]]); discriminate.
    + apply optional_advice in H. destruct H as [_ H]. discriminate.
    + apply optional_advice in H. now apply Hgt.
Qed.

(** X22.  With the default targets the two fixed warnings never come
    alone: when the list says that unit coverage is low it also asks for
    more unit tests, and when it says that e2e tests are over-represented it
    also asks to reduce them. *)
Theorem fixed_warnings_repeat_the_deltas
    (m : Monitor.TestPyramidMonitor) (d : list (string * Q))
    (recs : list Advice.recommendation) :
  Monitor.targets m = Monitor.DEFAULT_TARGETS ->
  Advice._generate_recommendations m d = Ok recs ->
  (In Advice.UnitCoverageLow recs ->
   exists unit, Monitor.getitem d "unit" = Ok unit
                /\ In (Advice.AddMoreTests "unit" (Qabs (unit - 70)) 70) recs)
  /\ (In Advice.E2eOverRepresented recs ->
      exists e2e, Monitor.getitem d "e2e" = Ok e2e
                  /\ In (Advice.ReduceTests "e2e" (e2e - 10) 10) recs).
Proof.
  intros Htargets Hrecs.
  destruct (generate_recommendations_members m d recs Hrecs)
    as (unit & e2e & Eu & Ee & Hadv & Hlow & Hover).
  rewrite Htargets in Hadv. split.
  - intros H. specialize (Hlow H). exists unit. split; [exact Eu|].
    apply Hadv. unfold Advice.targets_advice, Monitor.DEFAULT_TARGETS.
    cbn [flat_map fst snd]. rewrite Eu. apply in_or_app. left.
    unfold Advice.tier_advice, Advice.gt. cbv zeta.
    assert (H1 : Qle_bool (Qabs (unit - 70)) 5 = false).
    { apply not_true_is_false. intros Hle. apply Qle_bool_iff in Hle.
      apply Qabs_Qle_condition in Hle. lra. }
    assert (H2 : Qle_bool (unit - 70) 0 = true) by (apply Qle_bool_iff; lra).
    rewrite H1, H2. now left.
  - intros H. specialize (Hover H). exists e2e. split; [exact Ee|].
    apply Hadv. unfold Advice.targets_advice, Monitor.DEFAULT_TARGETS.
    cbn [flat_map fst snd]. rewrite Ee. apply in_or_app. right.
    apply in_or_app. right. apply in_or_app. left.
    unfold Advice.tier_advice, Advice.gt. cbv zeta.
    assert (H1 : Qle_bool (Qabs (e2e - 10)) 5 = false).
    { apply not_true_is_false. intros Hle. apply Qle_bool_iff in Hle.
      apply Qabs_Qle_condition in Hle. lra. }
    assert (H2 : Qle_bool (e2e - 10) 0 = false).
    { apply not_true_is_false. intros Hle. apply Qle_bool_iff in Hle. lra. }
    rewrite H1, H2. now left.
Qed.

Lemma fixed_warnings_repeat_the_deltas_witness :
  exists recs,
    Advice._generate_recommendations (Monitor.init [])
      [("unit", 50%Q); ("integration", 30%Q); ("e2e", 20%Q)] = Ok recs
    /\ (In Advice.UnitCoverageLow recs ->
        exists unit,
          Monitor.getitem [("unit", 50%Q); ("integration", 30%Q); ("e2e", 20%Q)] "unit"
          = Ok unit
          /\ In (Advice.AddMoreTests "unit" (Qabs (unit - 70)) 70) recs).
Proof.
  eexists. split; [vm_compute; reflexivity|].
  apply (fixed_warnings_repeat_the_deltas (Monitor.init [])
           [("unit", 50%Q); ("integration", 30%Q); ("e2e", 20%Q)]); reflexivity.
Defined.

Lemma zero_fill_other (keys : list string) (k : string) :
  ~ In k keys ->
  forall d : list (string * Q),
    Monitor.getitem (fold_left (fun d marker => Monitor.setitem d marker 0%Q) keys d) k
    = Monitor.getitem d k.
Proof.
  induction keys as [|k' keys IH]; intros Hk d; [reflexivity|].
  cbn [fold_left]. rewrite IH by (intros H; apply Hk; now right).
  apply getitem_setitem_other. intros ->. apply Hk. now left.
Qed.

(** The distribution has an entry for the target keys and for no other key. *)
Lemma calculate_distribution_keys (m : Monitor.TestPyramidMonitor) :
  (forall k, In k (map fst (Monitor.targets m)) -> marker_of_string k <> None) ->
  exists d,
    Monitor.calculate_distribution m = Ok d
    /\ (forall k, In k (map fst (Monitor.targets m)) ->
                  exists a, Monitor.getitem d k = Ok a)
    /\ (forall k, ~ In k (map fst (Monitor.targets m)) ->
                  Monitor.getitem d k = Raise (KeyError k)).
Proof.
  intros Hkeys. unfold Monitor.calculate_distribution. cbv zeta.
  destruct (Z.eqb_spec (Monitor.len (Monitor.all_tests m)) 0) as [E|E].
  - eexists. split; [reflexivity|]. split.
    + intros k Hk. exists 0%Q. apply zero_fill_getitem; [now left|].
      intros k'. now right.
    + intros k Hk. now rewrite zero_fill_other.
  - destruct (distribution_loop_ok m _ (map fst (Monitor.targets m)) E Hkeys [])
      as (d & Ed & Hin & Hout).
    exists d. split; [exact Ed|]. split.
    + intros k Hk. destruct (marker_of_string k) as [mk|] eqn:Emk.
      * eexists. exact (Hin k mk Hk Emk).
      * now contradiction (Hkeys k Hk).
    + intros k Hk. now rewrite Hout.
Qed.

(** X23.  The recommendations read the unit and the e2e percentage
    whatever the targets are.  So on the distribution that
    [calculate_distribution] returns for targets keyed by tiers, they are
    produced only if unit and e2e are among the target keys, and fail with
    the [KeyError] of the first of the two that is not. *)
Theorem recommendations_need_unit_and_e2e_targets (m : Monitor.TestPyramidMonitor) :
  (forall k, In k (map fst (Monitor.targets m)) -> marker_of_string k <> None) ->
  exists d,
    Monitor.calculate_distribution m = Ok d
    /\ match Advice._generate_recommendations m d with
       | Ok _ =>
           In "unit" (map fst (Monitor.targets m))
           /\ In "e2e" (map fst (Monitor.targets m))
       | Raise e =>
           (~ In "unit" (map fst (Monitor.targets m)) /\ e = KeyError "unit")
           \/ (In "unit" (map fst (Monitor.targets m))
               /\ ~ In "e2e" (map fst (Monitor.targets m))
               /\ e = KeyError "e2e")
       end.
Proof.
  intros Hkeys.
  destruct (calculate_distribution_keys m Hkeys) as (d & Ed & Hin & Hout).
  exists d. split; [exact Ed|].
  unfold Advice._generate_recommendations. cbv zeta.
  match goal with |- context [Advice.targets_loop ?items d ?acc] =>
    pose proof (targets_loop_cases items d acc) as Hloop;
    destruct (Advice.targets_loop items d acc) as [recs|e] end.
  2:{ destruct Hloop as (k & _ & Hk & Hget). destruct (Hin k Hk) as [a Ea]. congruence. }
  cbn [bind].
  destruct (in_dec string_dec "unit" (map fst (Monitor.targets m))) as [Hu|Hu].
  - destruct (Hin _ Hu) as [unit Eu]. rewrite Eu. cbn [bind].
    destruct (in_dec string_dec "e2e" (map fst (Monitor.targets m))) as [He|He].
    + destruct (Hin _ He) as [e2e Ee]. rewrite Ee. cbn [bind]. now split.
    + rewrite (Hout _ He). cbn [bind]. right. tauto.
  - rewrite (Hout _ Hu). cbn [bind]. left. tauto.
Qed.

Lemma recommendations_need_unit_and_e2e_targets_witness :
  exists d,
    Monitor.calculate_distribution (Monitor.init [("integration", 100%Q)]) = Ok d
    /\ match Advice._generate_recommendations (Monitor.init [("integration", 100%Q)]) d with
       | Ok _ =>
           In "unit" (map fst (Monitor.targets (Monitor.init [("integration", 100%Q)])))
           /\ In "e2e" (map fst (Monitor.targets (Monitor.init [("integration", 100%Q)])))
       | Raise e =>
           (~ In "unit" (map fst (Monitor.targets (Monitor.init [("integration", 100%Q)])))
            /\ e = KeyError "unit")
           \/ (In "unit" (map fst (Monitor.targets (Monitor.init [("integration", 100%Q)])))
               /\ ~ In "e2e"
                      (map fst (Monitor.targets (Monitor.init [("integration", 100%Q)])))
               /\ e = KeyError "e2e")
       end.
Proof.
  apply (recommendations_need_unit_and_e2e_targets (Monitor.init [("integration", 100%Q)])).
  intros k [<-|[]]. discriminate.
Defined.







(* ------------------------------------------------------------------ *)
(** * validate-markers.py: exit status *)



(* ------------------------------------------------------------------ *)
(** * A failing file *)













